(** * AgroChakra: the smart-irrigation engine

    A shallow embedding of [backend/services/smart_irrigation_service.py]
    (class [SmartIrrigationService]), of the dataclasses of
    [backend/models/farm_analysis.py] it builds, and of the methods of
    [FarmBounds] and [FarmAnalysis] that validate and collect the data.

    Modelling conventions.
    - Python and numpy floats are exact rationals ([Q]); comparisons are the
      numeric ones, so results are compared with [==] ([Qeq]).  A division
      whose denominator depends on the input raises [ZeroDivisionError] on a
      zero denominator, as Python's float division does; numpy's [inf] and
      [nan] are outside the model.  [round(x, n)] rounds the exact value to
      the nearest multiple of 10^-n, ties to the even one.
    - [math.sin], [math.exp] and [math.pi] are parameters of the development
      (Section variables); the facts about them that a proof needs are stated
      as hypotheses where they are used.
    - Exceptions are a [Raise] outcome; the wall clock ([datetime.now()]),
      the operating system's entropy ([uuid.uuid4()]) and numpy's
      process-global random state ([np.random]) are the components of an
      explicit [World] threaded through the code.
    - A [datetime] is a number of microseconds; [isoformat()] is modelled as
      the datetime itself and [strftime('%Y-%m-%d')] as the day number.
    - A Python dict read with [.get(key, default)] is a record of optional
      entries; a dict written by the service is a record. *)

From Stdlib Require Import String Bool ZArith QArith Qround Qabs Lqa Lia List.
Import ListNotations.
Open Scope string_scope.
Open Scope list_scope.
Open Scope Q_scope.

(** ** Python numerics *)

Definition Qltb (x y : Q) : bool :=
  match Qcompare x y with Lt => true | _ => false end.

(** [max(a, b)]: the first argument unless the second is strictly greater. *)
Definition py_max (a b : Q) : Q := if Qltb a b then b else a.

(** [min(a, b)]: the first argument unless the second is strictly smaller. *)
Definition py_min (a b : Q) : Q := if Qltb b a then b else a.

(** Rounding to the nearest integer, ties to the even one. *)
Definition round_half_even (q : Q) : Z :=
  let f := Qfloor q in
  match Qcompare (q - inject_Z f) (1 # 2) with
  | Lt => f
  | Gt => (f + 1)%Z
  | Eq => if Z.even f then f else (f + 1)%Z
  end.

(** [round(x, ndigits)]. *)
Definition py_round (x : Q) (ndigits : nat) : Q :=
  inject_Z (round_half_even (x * inject_Z (10 ^ Z.of_nat ndigits)))
  / inject_Z (10 ^ Z.of_nat ndigits).

Definition Qsum (l : list Q) : Q := fold_left Qplus l 0.

(** [np.mean]; on an empty list numpy returns [nan]: the call sites below
    pass a non-empty list or do not use the value then. *)
Definition np_mean (l : list Q) : Q := Qsum l / inject_Z (Z.of_nat (length l)).

(** [d.get(key, default)] on an optional entry. *)
Definition get {A : Type} (entry : option A) (default : A) : A :=
  match entry with Some v => v | None => default end.

(** [l[-n:]] *)
Definition last_n {A : Type} (n : nat) (l : list A) : list A :=
  skipn (length l - n) l.

(** ** Exceptions, the world and the monad of the service *)

Inductive exn : Type :=
| KeyError
| IndexError
| ZeroDivisionError
| ValueError
| TypeError.

Inductive result (A : Type) : Type :=
| Ok (a : A)
| Raise (e : exn).
Arguments Ok {A} a.
Arguments Raise {A} e.

Record World : Type := mkWorld {
  clock : nat -> Z;        (* successive readings of datetime.now(), in us *)
  clock_pos : nat;
  entropy : nat -> Z;      (* successive uuid4() values *)
  entropy_pos : nat;
  draws : nat -> Q;        (* successive standardised draws of np.random *)
  draw_pos : nat
}.

Definition M (A : Type) : Type := World -> result A * World.

Definition ret {A : Type} (a : A) : M A := fun w => (Ok a, w).

Definition raise {A : Type} (e : exn) : M A := fun w => (Raise e, w).

Definition bind {A B : Type} (m : M A) (k : A -> M B) : M B :=
  fun w =>
    match m w with
    | (Ok a, w') => k a w'
    | (Raise e, w') => (Raise e, w')
    end.

Notation "x <- m ;; k" := (bind m (fun x => k))
  (at level 61, m at next level, right associativity).

(** [try: body except Exception: handler] *)
Definition try_except {A : Type} (body : M A) (handler : exn -> M A) : M A :=
  fun w =>
    match body w with
    | (Ok a, w') => (Ok a, w')
    | (Raise e, w') => handler e w'
    end.

(** [x / y] on Python floats. *)
Definition pydiv (x y : Q) : M Q :=
  if Qeq_bool y 0 then raise ZeroDivisionError else ret (x / y).

Definition datetime_now : M Z :=
  fun w =>
    (Ok (clock w (clock_pos w)),
     mkWorld (clock w) (S (clock_pos w)) (entropy w) (entropy_pos w)
             (draws w) (draw_pos w)).

Definition uuid4 : M Z :=
  fun w =>
    (Ok (entropy w (entropy_pos w)),
     mkWorld (clock w) (clock_pos w) (entropy w) (S (entropy_pos w))
             (draws w) (draw_pos w)).

Definition next_draw : M Q :=
  fun w =>
    (Ok (draws w (draw_pos w)),
     mkWorld (clock w) (clock_pos w) (entropy w) (entropy_pos w)
             (draws w) (S (draw_pos w))).

(** [np.random.normal(loc, scale)]: [ValueError] on a negative scale. *)
Definition np_random_normal (loc scale : Q) : M Q :=
  if Qltb scale 0 then raise ValueError
  else z <- next_draw ;; ret (loc + scale * z).

(** [np.random.exponential(scale)]: [ValueError] on a negative scale; the
    standard exponential variate is never negative. *)
Definition np_random_exponential (scale : Q) : M Q :=
  if Qltb scale 0 then raise ValueError
  else z <- next_draw ;; ret (scale * Qabs z).

Definition us_per_hour : Z := 3600000000.
Definition us_per_day : Z := 86400000000.

(** [t + timedelta(hours=h)] and [t + timedelta(days=d)] *)
Definition plus_hours (t : Z) (h : Z) : Z := (t + h * us_per_hour)%Z.
Definition plus_days (t : Z) (d : Z) : Z := (t + d * us_per_day)%Z.

(** [t.strftime('%Y-%m-%d')] *)
Definition strftime_date (t : Z) : Z := (t / us_per_day)%Z.

(** [t.replace(hour=6, minute=0, second=0)]: the microseconds are kept. *)
Definition replace_6am (t : Z) : Z :=
  ((t / us_per_day) * us_per_day + 6 * us_per_hour + t mod 1000000)%Z.

(** ** Data model *)

Module Kc.
Record t : Type := mk {
  initial : Q;
  development : Q;
  mid_season : Q;
  late_season : Q
}.
End Kc.

Module Stage.
Record t : Type := mk {
  initial : nat;
  development : nat;
  mid_season : nat;
  late_season : nat
}.
End Stage.

Module Crop.
Record t : Type := mk {
  p : Q;
  field_capacity : Q;
  wilting_point : Q;
  rooting_depth : Q;
  kc_values : Kc.t;
  growth_stages : Stage.t
}.
End Crop.

Module Soil.
Record t : Type := mk {
  field_capacity : Q;
  wilting_point : Q;
  infiltration_rate : Q;
  hydraulic_conductivity : Q;
  bulk_density : Q;
  porosity : Q
}.
End Soil.

Module Sys.
Record t : Type := mk {
  efficiency : Q;
  cost_per_mm : Q;
  application_rate : Q;
  uniformity : Q
}.
End Sys.

(** One day of historical weather: a dict whose entries may be absent. *)
Module Obs.
Record t : Type := mk {
  temperature : option Q;
  humidity : option Q;
  rainfall : option Q;
  wind_speed : option Q;
  solar_radiation : option Q
}.
End Obs.

(** One LAI measurement: a dict; only the entry ['lai'] is read. *)
Module Lai.
Record t : Type := mk { lai : option Q }.
End Lai.

(** The satellite dict: the entries ['ndvi'] and ['evi']. *)
Module Sat.
Record t : Type := mk {
  ndvi : option (list Q);
  evi : option (list Q)
}.
End Sat.

Module FarmBounds.
Record t : Type := mk {
  north : Q;
  south : Q;
  east : Q;
  west : Q
}.
End FarmBounds.

Module WeatherData.
Record t : Type := mk {
  date : Z;
  temperature : Q;
  humidity : Q;
  rainfall : Q;
  wind_speed : Q;
  solar_radiation : Q
}.
End WeatherData.

Module SoilMoistureData.
Record t : Type := mk {
  datetime : Z;
  soil_moisture : Q;
  field_capacity : Q;
  wilting_point : Q;
  stress_threshold : Q;
  deficit : Q;
  depth_cm : Q
}.
End SoilMoistureData.

(** The dict of initial conditions.  Its entries ['ndvi'], ['albedo'] and
    ['last_irrigation'] are read nowhere in the service and are left out;
    ['stress_threshold'] is read with [.get] by the simulator and written by
    neither constructor. *)
Module IC.
Record t : Type := mk {
  soil_water_content : Q;
  field_capacity : Q;
  wilting_point : Q;
  lai : Q;
  root_zone_depth : Q;
  canopy_cover : Q;
  days_since_rain : nat;
  growing_degree_days : Q;
  water_balance : Q;
  soil_temperature : Q;
  stress_threshold : option Q
}.
End IC.

(** The dict of vegetation parameters: the entry ['lai'], the only one the
    later stages read. *)
Module Veg.
Record t : Type := mk { lai : option Q }.
End Veg.

Module Trigger.
Record t : Type := mk {
  low : Q;
  medium : Q;
  high : Q;
  critical : Q
}.
End Trigger.

Module Threshold.
Record t : Type := mk {
  theta_critical : Q;
  theta_critical_base : Q;
  field_capacity : Q;
  wilting_point : Q;
  TAW : Q;
  RAW : Q;
  surplus_threshold : Q;
  depletion_fraction_p : Q;
  mad_percentage : Q;
  vegetation_adjustment : Q;
  trigger_points : Trigger.t
}.
End Threshold.

Module StressEvent.
Record t : Type := mk {
  hour : nat;
  datetime : Z;
  soil_moisture : Q;
  deficit : Q;
  stress_level : string;
  urgency_score : Q
}.
End StressEvent.

Module Stress.
Record t : Type := mk {
  stress_events : list StressEvent.t;
  stress_hours : Q;
  stress_percentage : Q;
  min_forecasted_moisture : option Q;   (* None: float('inf') *)
  max_deficit : Q;
  critical_periods : list nat;
  irrigation_triggered : bool;
  irrigation_urgency : string;
  stress_severity : string
}.
End Stress.

Module IrrigationEvent.
Record t : Type := mk {
  datetime : Z;
  water_amount : Q;
  irrigation_type : string;
  duration : Q;
  efficiency : Q;
  cost : option Q
}.
End IrrigationEvent.

Module IrrigationSchedule.
Record t : Type := mk {
  schedule_date : Z;
  recommended_events : list IrrigationEvent.t;
  total_water_needed : Q;
  urgency_level : string;
  next_irrigation_time : option Z;
  monitoring_frequency : string
}.
End IrrigationSchedule.

(** The texts of a recommendation; the formatted one keeps the values that
    the f-strings interpolate. *)
Inductive reasoning_text : Type :=
| NoStressText
| StressText (stress_hours max_deficit : Q) (urgency system : string)
| FallbackText.

Module IrrigationRecommendation.
Record t : Type := mk {
  needs_irrigation : bool;
  confidence : Q;
  reasoning : reasoning_text;
  water_amount : option Q;
  irrigation_method : option string;
  timing : option string;
  schedule : option IrrigationSchedule.t;
  cost_estimate : option Q;
  water_savings : option Q;
  yield_impact : option string;
  environmental_impact : option string
}.
End IrrigationRecommendation.

Module Requirements.
Record t : Type := mk {
  net_water_needed : Q;
  gross_water_needed : Q;
  total_water : Q;
  moisture_deficit : Q;
  application_efficiency : Q
}.
End Requirements.

(** The variables that the stress analysis updates while it scans the
    forecast. *)
Module Acc.
Record t : Type := mk {
  stress_events : list StressEvent.t;
  stress_hours : Q;
  min_moisture : option Q;   (* None: float('inf') *)
  max_deficit : Q;
  critical_periods : list nat
}.
End Acc.

(** The dict returned by [_analyze_seasonal_patterns]. *)
Module Trends.
Record t : Type := mk {
  temperature_trend : Q;
  humidity_trend : Q
}.
End Trends.

Module Costs.
Record t : Type := mk {
  total_cost : Q;
  cost_per_mm : Q;
  system_efficiency : Q;
  water_cost_savings : Q
}.
End Costs.

Module Savings.
Record t : Type := mk {
  water_savings_percent : Q;
  yield_impact : string;
  environmental_impact : string
}.
End Savings.

Module Efficiency.
Record t : Type := mk {
  efficiency_score : Q;
  optimization_opportunities : list string;
  water_use_index : Q;
  sustainability_rating : string
}.
End Efficiency.

Module DataQuality.
Record t : Type := mk {
  overall_quality : Q;
  lai_data_points : nat;
  weather_data_points : nat;
  satellite_images : nat;
  quality_rating : string
}.
End DataQuality.

(** [str(uuid.uuid4())] or ['fallback-' + str(seconds)] *)
Inductive analysis_id : Type :=
| Uuid (value : Z)
| FallbackId (seconds : Z).

(** The dict returned by [analyze_smart_irrigation]; an entry that is absent
    from the dict or holds [None] is [None]. *)
Module Response.
Record t : Type := mk {
  id : analysis_id;
  timestamp : Z;
  crop_type : option string;
  soil_type : option string;
  irrigation_system : option string;
  needs_irrigation : bool;
  confidence : Q;
  reasoning : reasoning_text;
  water_amount : option Q;
  irrigation_method : option string;
  timing : option string;
  soil_moisture_forecast : option (list SoilMoistureData.t);
  stress_threshold : option Threshold.t;
  vegetation_parameters : option Veg.t;
  weather_forecast : option (list WeatherData.t);
  stress_events : option (list StressEvent.t);
  irrigation_schedule : option IrrigationSchedule.t;
  next_irrigation : option Z;
  cost_estimate : option Q;
  water_savings : option Q;
  yield_impact : option string;
  environmental_impact : option string;
  efficiency_analysis : option Efficiency.t;
  processing_time : Q;
  model_accuracy : Q;
  data_quality : option DataQuality.t;
  error : option string
}.
End Response.

(** ** The parameter tables of [__init__] *)

Definition crop_asparagus : Crop.t :=
  Crop.mk 0.65 0.35 0.15 1.2 (Kc.mk 0.5 0.8 1.15 1.0) (Stage.mk 30 40 50 30).

Definition crop_tomato : Crop.t :=
  Crop.mk 0.40 0.35 0.15 1.0 (Kc.mk 0.6 1.15 1.15 0.8) (Stage.mk 25 35 40 30).

Definition crop_wheat : Crop.t :=
  Crop.mk 0.55 0.35 0.15 1.5 (Kc.mk 0.4 0.7 1.15 0.4) (Stage.mk 15 25 50 30).

Definition crop_parameters (key : string) : option Crop.t :=
  if (key =? "asparagus")%string then Some crop_asparagus
  else if (key =? "tomato")%string then Some crop_tomato
  else if (key =? "wheat")%string then Some crop_wheat
  else None.

Definition soil_sandy : Soil.t := Soil.mk 0.25 0.10 25 5.0 1.6 0.40.
Definition soil_loamy : Soil.t := Soil.mk 0.35 0.15 15 2.5 1.4 0.45.
Definition soil_clay : Soil.t := Soil.mk 0.45 0.20 5 0.5 1.3 0.50.

Definition soil_types (key : string) : option Soil.t :=
  if (key =? "sandy")%string then Some soil_sandy
  else if (key =? "loamy")%string then Some soil_loamy
  else if (key =? "clay")%string then Some soil_clay
  else None.

Definition system_drip : Sys.t := Sys.mk 0.90 0.15 5 0.95.
Definition system_sprinkler : Sys.t := Sys.mk 0.75 0.10 15 0.85.
Definition system_flood : Sys.t := Sys.mk 0.60 0.05 25 0.70.
Definition system_micro_sprinkler : Sys.t := Sys.mk 0.85 0.12 8 0.90.

Definition irrigation_systems (key : string) : option Sys.t :=
  if (key =? "drip")%string then Some system_drip
  else if (key =? "sprinkler")%string then Some system_sprinkler
  else if (key =? "flood")%string then Some system_flood
  else if (key =? "micro_sprinkler")%string then Some system_micro_sprinkler
  else None.

Definition forecast_horizon : nat := 72.
Definition monitoring_frequency : nat := 24.
Definition model_update_frequency : nat := 24.

(** ** The FAO-56 stress threshold *)

Definition _calculate_vegetation_adjustment (lai : Q) (crop_type : string)
    : Q :=
  if Qltb lai 1.0 then 1.1
  else if Qltb 4.0 lai then 0.95
  else 1.0.

Definition _calculate_stress_threshold_fao56 (crop_type soil_type : string)
    (vegetation_params : Veg.t) : Threshold.t :=
  let crop_params := get (crop_parameters crop_type) crop_asparagus in
  let soil_params := get (soil_types soil_type) soil_loamy in
  let field_capacity := Soil.field_capacity soil_params in
  let wilting_point := Soil.wilting_point soil_params in
  let p := Crop.p crop_params in
  let TAW := field_capacity - wilting_point in
  let RAW := p * TAW in
  let theta_crit := field_capacity - RAW in
  let lai := get (Veg.lai vegetation_params) 2.5 in
  let vegetation_adjustment := _calculate_vegetation_adjustment lai crop_type in
  let theta_crit_adjusted := theta_crit * vegetation_adjustment in
  (* TAW comes from the soil table, where it is never zero *)
  let mad := RAW / TAW * 100 in
  let surplus_threshold := field_capacity in
  let trigger_points :=
    Trigger.mk (theta_crit_adjusted + 0.02)
               theta_crit_adjusted
               (theta_crit_adjusted - 0.01)
               (wilting_point + 0.02) in
  Threshold.mk
    (py_round theta_crit_adjusted 4)
    (py_round theta_crit 4)
    field_capacity
    wilting_point
    (py_round TAW 4)
    (py_round RAW 4)
    surplus_threshold
    p
    (py_round mad 1)
    (py_round vegetation_adjustment 3)
    (Trigger.mk (py_round (Trigger.low trigger_points) 4)
                (py_round (Trigger.medium trigger_points) 4)
                (py_round (Trigger.high trigger_points) 4)
                (py_round (Trigger.critical trigger_points) 4)).

Definition Qnat (n : nat) : Q := inject_Z (Z.of_nat n).

(** [l[-1]] *)
Definition last_item {A : Type} (l : list A) : M A :=
  match l with
  | [] => raise IndexError
  | x :: l' => ret (last l' x)
  end.

(** The local variables of one iteration of the simulator's loop. *)
Module Step.
Record t : Type := mk {
  hourly_temp : Q;
  hourly_precipitation : Q;
  hourly_solar : Q;
  et0_hourly : Q;
  kc : Q;
  crop_et : Q;
  infiltration : Q;
  runoff : Q;
  deep_percolation : Q;
  moisture_change : Q;
  new_moisture : Q;
  soil_moisture_data : SoilMoistureData.t
}.
End Step.

(** ** The farm analysis of [models/farm_analysis.py]

    The dicts that [FarmAnalysis] reads and the dataclasses it stores.  An
    entry of a dict is [None] when the key is absent. *)

(** One element of the list given to [add_weather_data], and the dict
    written by [WeatherData.to_dict]. *)
Module WeatherDict.
Record t : Type := mk {
  date : option Z;
  temperature : option Q;
  humidity : option Q;
  rainfall : option Q;
  wind_speed : option Q;
  solar_radiation : option Q
}.
End WeatherDict.

Module SatelliteData.
Record t : Type := mk {
  date : Z;
  ndvi : Q;
  evi : Q;
  cloud_cover : option Q;
  satellite_source : option string
}.
End SatelliteData.

(** The dict given to [add_satellite_data]. *)
Module SatelliteDict.
Record t : Type := mk {
  dates : option (list Z);
  ndvi : option (list Q);
  evi : option (list Q);
  satellite : option string
}.
End SatelliteDict.

Module LAIData.
Record t : Type := mk {
  date : Z;
  lai_value : Q;
  confidence : Q;
  calculation_method : string;
  ndvi_input : option Q;
  evi_input : option Q
}.
End LAIData.

(** The attributes of a [FarmAnalysis] that the methods below read or
    write; [soil_data], [vegetation_analysis], [fertilizer_recommendation],
    [irrigation_analysis] and [processing_time] are left out. *)
Module FarmAnalysis.
Record t : Type := mk {
  id : Z;
  analysis_date : Z;
  bounds : FarmBounds.t;
  weather_data : list WeatherData.t;
  satellite_data : list SatelliteData.t;
  lai_data : list LAIData.t;
  data_quality_score : option Q
}.
End FarmAnalysis.

(** ** Views of the world and of the results *)

(** The world after one reading of the clock. *)
Definition tick (w : World) : World :=
  mkWorld (clock w) (S (clock_pos w)) (entropy w) (entropy_pos w)
          (draws w) (draw_pos w).

Definition world_free {A : Type} (m : M A) : Prop :=
  exists r : result A, forall w : World, m w = (r, w).

(** The state satisfies its own bounds. *)
Definition in_bounds (s : SoilMoistureData.t) : Prop :=
  SoilMoistureData.wilting_point s <= SoilMoistureData.soil_moisture s
  /\ SoilMoistureData.soil_moisture s <= SoilMoistureData.field_capacity s.

Fixpoint non_increasing (l : list Q) : Prop :=
  match l with
  | a :: (b :: _) as rest => b <= a /\ non_increasing rest
  | _ => True
  end.

Definition moisture_series (r : result (list SoilMoistureData.t))
    : result (list Q) :=
  match r with
  | Ok l => Ok (map SoilMoistureData.soil_moisture l)
  | Raise e => Raise e
  end.

(** The world after one draw of [np.random]. *)
Definition advance (w : World) : World :=
  mkWorld (clock w) (clock_pos w) (entropy w) (entropy_pos w)
          (draws w) (S (draw_pos w)).

(** An observation without entries. *)
Definition empty_obs : Obs.t := Obs.mk None None None None None.

(** The seasonal trend in the spec's words: the slope of the least-squares
    line through the points (i, y_i). *)
Definition spec_linear_regression_slope (ys : list Q) : Q :=
  let n := Qnat (length ys) in
  let xs := map Qnat (seq 0 (length ys)) in
  let x_mean := Qsum xs / n in
  let y_mean := Qsum ys / n in
  Qsum (map (fun xy => (fst xy - x_mean) * (snd xy - y_mean)) (combine xs ys))
  / Qsum (map (fun x => (x - x_mean) * (x - x_mean)) xs).

(** ** Outputs up to the clock *)

(** Two worlds with the same random state. *)
Definition same_rng (w1 w2 : World) : Prop :=
  draws w1 = draws w2 /\ draw_pos w1 = draw_pos w2.

(** Two computations that, started in worlds with the same random state,
    end the same way: both return, with results related by [R], or both
    raise the same exception; and they leave the same random state. *)
Definition lockstep {A : Type} (R : A -> A -> Prop) (m1 m2 : M A) : Prop :=
  forall w1 w2 : World,
    same_rng w1 w2 ->
    match m1 w1, m2 w2 with
    | (Ok a1, w1'), (Ok a2, w2') => R a1 a2 /\ same_rng w1' w2'
    | (Raise e1, w1'), (Raise e2, w2') => e1 = e2 /\ same_rng w1' w2'
    | _, _ => False
    end.

(** The values with the entries read from the clock or from the entropy
    blanked. *)
Definition timeless_weather (d : WeatherData.t) : WeatherData.t :=
  WeatherData.mk 0 (WeatherData.temperature d) (WeatherData.humidity d)
    (WeatherData.rainfall d) (WeatherData.wind_speed d)
    (WeatherData.solar_radiation d).

Definition timeless_state (s : SoilMoistureData.t) : SoilMoistureData.t :=
  SoilMoistureData.mk 0 (SoilMoistureData.soil_moisture s)
    (SoilMoistureData.field_capacity s) (SoilMoistureData.wilting_point s)
    (SoilMoistureData.stress_threshold s) (SoilMoistureData.deficit s)
    (SoilMoistureData.depth_cm s).

Definition timeless_stress_event (e : StressEvent.t) : StressEvent.t :=
  StressEvent.mk (StressEvent.hour e) 0 (StressEvent.soil_moisture e)
    (StressEvent.deficit e) (StressEvent.stress_level e)
    (StressEvent.urgency_score e).

Definition timeless_stress (s : Stress.t) : Stress.t :=
  Stress.mk (map timeless_stress_event (Stress.stress_events s))
    (Stress.stress_hours s) (Stress.stress_percentage s)
    (Stress.min_forecasted_moisture s) (Stress.max_deficit s)
    (Stress.critical_periods s) (Stress.irrigation_triggered s)
    (Stress.irrigation_urgency s) (Stress.stress_severity s).

Definition timeless_irrigation_event (e : IrrigationEvent.t)
    : IrrigationEvent.t :=
  IrrigationEvent.mk 0 (IrrigationEvent.water_amount e)
    (IrrigationEvent.irrigation_type e) (IrrigationEvent.duration e)
    (IrrigationEvent.efficiency e) (IrrigationEvent.cost e).

Definition timeless_schedule (s : IrrigationSchedule.t)
    : IrrigationSchedule.t :=
  IrrigationSchedule.mk 0
    (map timeless_irrigation_event (IrrigationSchedule.recommended_events s))
    (IrrigationSchedule.total_water_needed s)
    (IrrigationSchedule.urgency_level s)
    (option_map (fun _ => 0%Z) (IrrigationSchedule.next_irrigation_time s))
    (IrrigationSchedule.monitoring_frequency s).

Definition timeless_recommendation (r : IrrigationRecommendation.t)
    : IrrigationRecommendation.t :=
  IrrigationRecommendation.mk
    (IrrigationRecommendation.needs_irrigation r)
    (IrrigationRecommendation.confidence r)
    (IrrigationRecommendation.reasoning r)
    (IrrigationRecommendation.water_amount r)
    (IrrigationRecommendation.irrigation_method r)
    (IrrigationRecommendation.timing r)
    (option_map timeless_schedule (IrrigationRecommendation.schedule r))
    (IrrigationRecommendation.cost_estimate r)
    (IrrigationRecommendation.water_savings r)
    (IrrigationRecommendation.yield_impact r)
    (IrrigationRecommendation.environmental_impact r).

Definition timeless_response (r : Response.t) : Response.t :=
  Response.mk
    (match Response.id r with
     | Uuid _ => Uuid 0
     | FallbackId _ => FallbackId 0
     end)
    0
    (Response.crop_type r)
    (Response.soil_type r)
    (Response.irrigation_system r)
    (Response.needs_irrigation r)
    (Response.confidence r)
    (Response.reasoning r)
    (Response.water_amount r)
    (Response.irrigation_method r)
    (Response.timing r)
    (option_map (map timeless_state) (Response.soil_moisture_forecast r))
    (Response.stress_threshold r)
    (Response.vegetation_parameters r)
    (option_map (map timeless_weather) (Response.weather_forecast r))
    (option_map (map timeless_stress_event) (Response.stress_events r))
    (option_map timeless_schedule (Response.irrigation_schedule r))
    (option_map (fun _ => 0%Z) (Response.next_irrigation r))
    (Response.cost_estimate r)
    (Response.water_savings r)
    (Response.yield_impact r)
    (Response.environmental_impact r)
    (Response.efficiency_analysis r)
    0
    (Response.model_accuracy r)
    (Response.data_quality r)
    (Response.error r).

Definition timeless_acc (a : Acc.t) : Acc.t :=
  Acc.mk (map timeless_stress_event (Acc.stress_events a))
    (Acc.stress_hours a) (Acc.min_moisture a) (Acc.max_deficit a)
    (Acc.critical_periods a).

(** ** Rational stand-ins and sample inputs

    To run the model on concrete inputs the three parameters need values.
    [sin_q] is the piecewise-linear sine through the quarter-period points,
    [exp_q] the square of the first-order approximation of the exponential
    of the half argument; both keep the bounds that the proofs assume of
    [math.sin] and [math.exp]. *)

Definition pi_q : Q := 3.1416.

Definition sin_q (x : Q) : Q :=
  let turns := Qfloor (x / (2 * pi_q)) in
  let r := x - inject_Z turns * (2 * pi_q) in
  let u := Qred (2 * r / pi_q) in
  py_max (-1)
    (py_min 1 (if Qltb u 1 then u else if Qltb u 3 then 2 - u else u - 4)).

Definition exp_q (x : Q) : Q :=
  let y := Qred (1 + x / 2) in
  Qred (y * y).

(** The tapes of the sample worlds are finite tables (and constant beyond
    them): evenly spaced clock readings, and draws between -5/4 and 7/4. *)
Definition clock_table (start step : Z) : list Z :=
  map (fun k => (start + step * Z.of_nat k)%Z) (seq 0 100).

Definition draws_table (a b : Z) : list Q :=
  map (fun k => (2 * ((a * Z.of_nat k + b) mod 7) - 5)%Z # 4) (seq 0 30).

(** Two worlds with the same clock and entropy and different random draws,
    and a third with the draws of the first and another clock. *)
Definition world_a : World :=
  mkWorld (fun n => nth n (clock_table 1700000000000000 1000) 0%Z) 0
          (fun n => Z.of_nat n) 0
          (fun n => nth n (draws_table 3 0) (1 # 4)) 0.

Definition world_b : World :=
  mkWorld (fun n => nth n (clock_table 1700000000000000 1000) 0%Z) 0
          (fun n => Z.of_nat n) 0
          (fun n => nth n (draws_table 5 2) (1 # 4)) 0.

Definition world_c : World :=
  mkWorld (fun n => nth n (clock_table 1800000000000000 7000) 0%Z) 0
          (fun n => Z.of_nat (n + 99)) 0
          (fun n => nth n (draws_table 3 0) (1 # 4)) 0.

(** Three dry days. *)
Definition dry_forecast : list WeatherData.t :=
  [WeatherData.mk 1 22 60 0 2 20;
   WeatherData.mk 2 23 55 0 2 20;
   WeatherData.mk 3 24 50 0 2 20].

(** Initial conditions at the wilting point of a loamy soil, and a variant
    that differs in the entries the water balance does not read. *)
Definition ic_wilting : IC.t :=
  IC.mk 0.15 0.35 0.15 2.5 1.2 0.6 3 150 0 18 None.

Definition ic_wilting_other : IC.t :=
  IC.mk 0.15 0.35 0.15 3.1 1.2 1.0 7 90 (-4) 21 (Some 0.2).

Definition veg_mid : Veg.t := Veg.mk (Some 2.5).
Definition veg_mid_other : Veg.t := Veg.mk (Some 3.2).

(** Fourteen warm, rainy days, one LAI record, a satellite dict and
    bounds. *)
Definition rainy_day : Obs.t :=
  Obs.mk (Some 25) (Some 90) (Some 30) (Some 2) (Some 12).

Definition rainy_history : list Obs.t := repeat rainy_day 14.

Definition lai_records : list Lai.t := [Lai.mk (Some 2.5)].

Definition satellite : Sat.t := Sat.mk (Some [0.6; 0.62]) (Some [0.4; 0.41]).

Definition bounds : FarmBounds.t := FarmBounds.mk 41 40 (-3) (-4).

(** Thirty days whose temperature rises by one degree a day. *)
Definition warming_history : list Obs.t :=
  map (fun i => Obs.mk (Some (Qnat i)) (Some 50) (Some 0) (Some 2) (Some 20))
      (seq 0 30).

(** A state at field capacity. *)
Definition wet_state : SoilMoistureData.t :=
  SoilMoistureData.mk 0 0.35 0.35 0.15 0.22 0 120.

(** One day with a negative rainfall reading. *)
Definition negative_rain_history : list Obs.t :=
  [Obs.mk (Some 20) (Some 50) (Some (-10)) (Some 2) (Some 20)].

(** Initial conditions half way up the available water, and three days
    that differ from the dry ones in their rainfall and wind only. *)
Definition ic_moist : IC.t :=
  IC.mk 0.25 0.35 0.15 2.5 1.2 0.6 3 150 0 18 None.

Definition showery_forecast : list WeatherData.t :=
  [WeatherData.mk 1 22 60 4 5 20;
   WeatherData.mk 2 23 55 0 1 20;
   WeatherData.mk 3 24 50 12 3 20].

(** A state at the wilting point. *)
Definition dry_state : SoilMoistureData.t :=
  SoilMoistureData.mk 3600000000 0.15 0.35 0.15 0.22 0.07 120.

(** A stress analysis of high urgency and the water it asks for. *)
Definition stress_high : Stress.t :=
  Stress.mk [StressEvent.mk 0 0 0.17 0.05 "high" 0.8] 1 100 (Some 0.17) 0.05
    [0%nat] true "high" "high".

Definition requirements_20mm : Requirements.t :=
  Requirements.mk 18 20 20 0.1 0.9.

(** Bounds whose north lies south of their south. *)
Definition bounds_upside_down : FarmBounds.t := FarmBounds.mk 40 41 (-3) (-4).

(** A farm analysis with three weather records, a satellite image under
    20 per cent of clouds and an LAI record of confidence 80. *)
Definition sample_analysis : FarmAnalysis.t :=
  FarmAnalysis.mk 7 1700000000000000 bounds dry_forecast
    [SatelliteData.mk 1 0.6 0.4 (Some 20) (Some "Landsat-8")]
    [LAIData.mk 1 2.5 80 "NDVI-based" (Some 0.6) None] None.

Section Service.

(** [math.sin], [math.exp], [math.pi] *)
Variable math_sin : Q -> Q.
Variable math_exp : Q -> Q.
Variable math_pi : Q.

(** ** Helper calculations *)

Definition _calculate_reference_et_penman_monteith
    (temperature humidity solar_radiation : Q) : M Q :=
  exponent <- pydiv (17.27 * temperature) (temperature + 237.3) ;;
  delta <- pydiv (4098 * (0.6108 * math_exp exponent))
                 ((temperature + 237.3) ^ 2) ;;
  let gamma := 0.665 in
  aero <- pydiv (gamma * 900) (temperature + 273) ;;
  et0 <- pydiv (0.408 * delta * solar_radiation
                + aero * 2 * (0.01 * (100 - humidity)))
               (delta + gamma * (1 + 0.34 * 2)) ;;
  ret (py_max 0 et0).

Definition _calculate_hourly_et0 (temp humidity wind solar : Q) : M Q :=
  daily_et0 <- _calculate_reference_et_penman_monteith temp humidity solar ;;
  ret (daily_et0 / 24).

Definition _get_crop_coefficient (crop_type : string) (lai : Q) : Q :=
  let crop_params := get (crop_parameters crop_type) crop_asparagus in
  if Qltb lai 1.0 then Kc.initial (Crop.kc_values crop_params)
  else if Qltb lai 2.5 then Kc.development (Crop.kc_values crop_params)
  else if Qltb lai 4.0 then Kc.mid_season (Crop.kc_values crop_params)
  else Kc.late_season (Crop.kc_values crop_params).

Definition _calculate_deep_percolation
    (moisture field_capacity hydraulic_conductivity : Q) : Q :=
  if Qle_bool moisture field_capacity then 0
  else
    let excess_water := moisture - field_capacity in
    py_min (excess_water * 1000) (hydraulic_conductivity / 24).

(** ** The hydrological simulator *)

(** [weather_forecast[day_index]] when the index is in range, else
    [weather_forecast[-1]]. *)
Definition hourly_weather (weather_forecast : list WeatherData.t) (hour : nat)
    : M WeatherData.t :=
  let day_index := (hour / 24)%nat in
  if (day_index <? length weather_forecast)%nat then
    match nth_error weather_forecast day_index with
    | Some weather => ret weather
    | None => raise IndexError
    end
  else last_item weather_forecast.

(** The body of [for hour in range(self.forecast_horizon)]. *)
Definition hour_body (initial_conditions : IC.t)
    (weather_forecast : list WeatherData.t) (vegetation_params : Veg.t)
    (crop_type soil_type : string) (hour : nat) (current_moisture : Q)
    : M Step.t :=
  let crop_params := get (crop_parameters crop_type) crop_asparagus in
  let soil_params := get (soil_types soil_type) soil_loamy in
  let field_capacity := Soil.field_capacity soil_params in
  let wilting_point := Soil.wilting_point soil_params in
  let root_depth := Crop.rooting_depth crop_params in
  weather <- hourly_weather weather_forecast hour ;;
  let hourly_temp :=
    WeatherData.temperature weather
    + 5 * math_sin (2 * math_pi * Qnat (hour mod 24) / 24) in
  let hourly_humidity := WeatherData.humidity weather in
  let hourly_precipitation := WeatherData.rainfall weather / 24 in
  let hourly_wind := WeatherData.wind_speed weather in
  let hourly_solar :=
    WeatherData.solar_radiation weather
    * py_max 0 (math_sin (math_pi * Qnat (hour mod 24) / 12)) in
  et0_hourly <- _calculate_hourly_et0 hourly_temp hourly_humidity
                                      hourly_wind hourly_solar ;;
  lai <- match Veg.lai vegetation_params with
         | Some v => ret v
         | None => raise KeyError
         end ;;
  let kc := _get_crop_coefficient crop_type lai in
  let crop_et := et0_hourly * kc in
  let infiltration :=
    py_min hourly_precipitation (Soil.infiltration_rate soil_params) in
  let runoff := py_max 0 (hourly_precipitation - infiltration) in
  let deep_percolation :=
    _calculate_deep_percolation current_moisture field_capacity
      (Soil.hydraulic_conductivity soil_params) in
  let moisture_change :=
    (infiltration - crop_et - deep_percolation) / (root_depth * 1000) in
  let new_moisture :=
    py_max wilting_point
           (py_min field_capacity (current_moisture + moisture_change)) in
  let stress_threshold :=
    get (IC.stress_threshold initial_conditions)
        (field_capacity
         - Crop.p crop_params * (field_capacity - wilting_point)) in
  let deficit := py_max 0 (field_capacity - new_moisture) in
  now <- datetime_now ;;
  ret (Step.mk hourly_temp hourly_precipitation hourly_solar et0_hourly kc
         crop_et infiltration runoff deep_percolation moisture_change
         new_moisture
         (SoilMoistureData.mk
            (plus_hours now (Z.of_nat hour))
            (py_round new_moisture 4)
            field_capacity
            wilting_point
            stress_threshold
            (py_round deficit 4)
            (root_depth * 100))).

(** The loop, for any body: [forecast_results.append(...)] and
    [current_moisture = new_moisture] after each iteration. *)
Fixpoint hydro_loop (body : nat -> Q -> M Step.t) (hours : list nat)
    (current_moisture : Q) (forecast_results : list SoilMoistureData.t)
    : M (list SoilMoistureData.t) :=
  match hours with
  | [] => ret forecast_results
  | hour :: rest =>
      step <- body hour current_moisture ;;
      hydro_loop body rest (Step.new_moisture step)
        (forecast_results ++ [Step.soil_moisture_data step])
  end.

Definition _run_hydrological_model_fest_ewb (initial_conditions : IC.t)
    (weather_forecast : list WeatherData.t) (vegetation_params : Veg.t)
    (crop_type soil_type : string) : M (list SoilMoistureData.t) :=
  let current_moisture := IC.soil_water_content initial_conditions in
  hydro_loop
    (hour_body initial_conditions weather_forecast vegetation_params
       crop_type soil_type)
    (seq 0 forecast_horizon) current_moisture [].

(** The same loop, keeping the local variables of every iteration. *)
Fixpoint hydro_trace (body : nat -> Q -> M Step.t) (hours : list nat)
    (current_moisture : Q) : M (list Step.t) :=
  match hours with
  | [] => ret []
  | hour :: rest =>
      step <- body hour current_moisture ;;
      steps <- hydro_trace body rest (Step.new_moisture step) ;;
      ret (step :: steps)
  end.

(** The simulator with the percolation term removed from the water
    balance: the body differs from [hour_body] in [moisture_change] only. *)
Definition hour_body_no_percolation (initial_conditions : IC.t)
    (weather_forecast : list WeatherData.t) (vegetation_params : Veg.t)
    (crop_type soil_type : string) (hour : nat) (current_moisture : Q)
    : M Step.t :=
  let crop_params := get (crop_parameters crop_type) crop_asparagus in
  let soil_params := get (soil_types soil_type) soil_loamy in
  let field_capacity := Soil.field_capacity soil_params in
  let wilting_point := Soil.wilting_point soil_params in
  let root_depth := Crop.rooting_depth crop_params in
  weather <- hourly_weather weather_forecast hour ;;
  let hourly_temp :=
    WeatherData.temperature weather
    + 5 * math_sin (2 * math_pi * Qnat (hour mod 24) / 24) in
  let hourly_humidity := WeatherData.humidity weather in
  let hourly_precipitation := WeatherData.rainfall weather / 24 in
  let hourly_wind := WeatherData.wind_speed weather in
  let hourly_solar :=
    WeatherData.solar_radiation weather
    * py_max 0 (math_sin (math_pi * Qnat (hour mod 24) / 12)) in
  et0_hourly <- _calculate_hourly_et0 hourly_temp hourly_humidity
                                      hourly_wind hourly_solar ;;
  lai <- match Veg.lai vegetation_params with
         | Some v => ret v
         | None => raise KeyError
         end ;;
  let kc := _get_crop_coefficient crop_type lai in
  let crop_et := et0_hourly * kc in
  let infiltration :=
    py_min hourly_precipitation (Soil.infiltration_rate soil_params) in
  let runoff := py_max 0 (hourly_precipitation - infiltration) in
  let moisture_change := (infiltration - crop_et) / (root_depth * 1000) in
  let new_moisture :=
    py_max wilting_point
           (py_min field_capacity (current_moisture + moisture_change)) in
  let stress_threshold :=
    get (IC.stress_threshold initial_conditions)
        (field_capacity
         - Crop.p crop_params * (field_capacity - wilting_point)) in
  let deficit := py_max 0 (field_capacity - new_moisture) in
  now <- datetime_now ;;
  ret (Step.mk hourly_temp hourly_precipitation hourly_solar et0_hourly kc
         crop_et infiltration runoff 0 moisture_change
         new_moisture
         (SoilMoistureData.mk
            (plus_hours now (Z.of_nat hour))
            (py_round new_moisture 4)
            field_capacity
            wilting_point
            stress_threshold
            (py_round deficit 4)
            (root_depth * 100))).

Definition run_without_percolation (initial_conditions : IC.t)
    (weather_forecast : list WeatherData.t) (vegetation_params : Veg.t)
    (crop_type soil_type : string) : M (list SoilMoistureData.t) :=
  let current_moisture := IC.soil_water_content initial_conditions in
  hydro_loop
    (hour_body_no_percolation initial_conditions weather_forecast
       vegetation_params crop_type soil_type)
    (seq 0 forecast_horizon) current_moisture [].

(** ** Initial conditions *)

Fixpoint days_since_rain_loop (days_reversed : list Obs.t) (days : nat) : nat :=
  match days_reversed with
  | [] => days
  | day :: rest =>
      if Qltb 5 (get (Obs.rainfall day) 0) then days
      else days_since_rain_loop rest (S days)
  end.

Definition _calculate_days_since_rain (weather_data : list Obs.t) : nat :=
  Nat.min (days_since_rain_loop (rev weather_data) 0) 30.

Definition _calculate_growing_degree_days (weather_data : list Obs.t) : Q :=
  let base_temp := 10 in
  fold_left
    (fun gdd day =>
       let daily_temp := get (Obs.temperature day) 20 in
       if Qltb base_temp daily_temp then gdd + (daily_temp - base_temp)
       else gdd)
    weather_data 0.

Definition _get_default_initial_conditions (crop_type soil_type : string)
    : IC.t :=
  let crop_params := get (crop_parameters crop_type) crop_asparagus in
  let soil_params := get (soil_types soil_type) soil_loamy in
  IC.mk (Soil.field_capacity soil_params * 0.7)
        (Soil.field_capacity soil_params)
        (Soil.wilting_point soil_params)
        2.5
        (Crop.rooting_depth crop_params)
        0.6
        3
        150
        0
        18
        None.

(** [lai_data[-1]['lai']] *)
Definition latest_lai (lai_data : list Lai.t) : M Q :=
  latest <- last_item lai_data ;;
  match Lai.lai latest with
  | Some v => ret v
  | None => raise KeyError
  end.

Definition _get_initial_conditions_fest_ewb (lai_data : list Lai.t)
    (weather_data : list Obs.t) (satellite_data : Sat.t)
    (crop_type soil_type : string) : M IC.t :=
  match weather_data, lai_data with
  | [], _ | _, [] => ret (_get_default_initial_conditions crop_type soil_type)
  | _, _ =>
      let recent_weather := last_n 14 weather_data in
      let total_rainfall :=
        Qsum (map (fun day => get (Obs.rainfall day) 0) recent_weather) in
      let avg_temperature :=
        np_mean (map (fun day => get (Obs.temperature day) 20)
                     recent_weather) in
      let avg_humidity :=
        np_mean (map (fun day => get (Obs.humidity day) 50) recent_weather) in
      let avg_solar_radiation :=
        np_mean (map (fun day => get (Obs.solar_radiation day) 20)
                     recent_weather) in
      let soil_params := get (soil_types soil_type) soil_loamy in
      let crop_params := get (crop_parameters crop_type) crop_asparagus in
      let field_capacity := Soil.field_capacity soil_params in
      let wilting_point := Soil.wilting_point soil_params in
      et0_daily <- _calculate_reference_et_penman_monteith
                     avg_temperature avg_humidity avg_solar_radiation ;;
      let total_et :=
        et0_daily * Qnat (length recent_weather)
        * Kc.mid_season (Crop.kc_values crop_params) in
      let water_input := total_rainfall in
      let water_loss := total_et in
      let net_water := water_input - water_loss in
      let root_depth_mm := Crop.rooting_depth crop_params * 1000 in
      let moisture_change := net_water / root_depth_mm in
      let base_moisture := field_capacity * 0.8 in
      let current_moisture :=
        py_max wilting_point
               (py_min field_capacity (base_moisture + moisture_change)) in
      current_lai <- latest_lai lai_data ;;
      ret (IC.mk (py_round current_moisture 4)
                 field_capacity
                 wilting_point
                 (py_round current_lai 2)
                 (Crop.rooting_depth crop_params)
                 (py_min 1.0 (current_lai / 3.0))
                 (_calculate_days_since_rain weather_data)
                 (_calculate_growing_degree_days recent_weather)
                 (py_round net_water 2)
                 (avg_temperature - 2)
                 None)
  end.

(** ** Vegetation parameters *)

Definition _estimate_lai_from_ndvi (ndvi : Q) : Q :=
  py_max 0 (py_min 6 (3.618 * ndvi - 0.118)).

(** Of the dict built by [_extract_vegetation_parameters], the entry
    ['lai'].  With no LAI record the index is estimated from the mean NDVI;
    on an empty NDVI list that mean is [nan], every comparison with it is
    false, and [max(0, min(6, nan))] is 6. *)
Definition _extract_vegetation_parameters (satellite_data : Sat.t)
    (lai_data : list Lai.t) (crop_type : string) : M Veg.t :=
  let ndvi_values := get (Sat.ndvi satellite_data) [0.6] in
  let current_ndvi :=
    if (5 <=? length ndvi_values)%nat then np_mean (last_n 5 ndvi_values)
    else np_mean ndvi_values in
  current_lai <-
    match lai_data with
    | _ :: _ => latest_lai lai_data
    | [] =>
        match ndvi_values with
        | [] => ret 6
        | _ :: _ => ret (_estimate_lai_from_ndvi current_ndvi)
        end
    end ;;
  ret (Veg.mk (Some (py_round current_lai 2))).

(** ** The forecast generator *)

Definition _analyze_seasonal_patterns (weather_data : list Obs.t) : Trends.t :=
  if (length weather_data <? 30)%nat then Trends.mk 0 0
  else
    let temperatures :=
      map (fun d => get (Obs.temperature d) 20) (last_n 30 weather_data) in
    let temp_trend := (last temperatures 0 - hd 0 temperatures) / 30 in
    let humidities :=
      map (fun d => get (Obs.humidity d) 50) (last_n 30 weather_data) in
    let humidity_trend := (last humidities 0 - hd 0 humidities) / 30 in
    Trends.mk temp_trend humidity_trend.

(** The body of [for day in range(3)]. *)
Definition forecast_day (recent_data : list Obs.t) (seasonal_trends : Trends.t)
    (base_date : Z) (day : nat) : M WeatherData.t :=
  let forecast_date := plus_days base_date (Z.of_nat day + 1) in
  let base_temp :=
    np_mean (map (fun d => get (Obs.temperature d) 20) recent_data) in
  let base_humidity :=
    np_mean (map (fun d => get (Obs.humidity d) 50) recent_data) in
  let base_rainfall :=
    np_mean (map (fun d => get (Obs.rainfall d) 0) recent_data) in
  let base_wind :=
    np_mean (map (fun d => get (Obs.wind_speed d) 2) recent_data) in
  let base_solar :=
    np_mean (map (fun d => get (Obs.solar_radiation d) 20) recent_data) in
  let temp_adjustment := Trends.temperature_trend seasonal_trends * Qnat day in
  let humidity_adjustment :=
    Trends.humidity_trend seasonal_trends * Qnat day in
  temp_variation <- np_random_normal 0 2.5 ;;
  humidity_variation <- np_random_normal 0 8 ;;
  rainfall_draw <- np_random_exponential (base_rainfall * 0.8) ;;
  let rainfall_variation := py_max 0 rainfall_draw in
  wind_draw <- np_random_normal base_wind (base_wind * 0.3) ;;
  let wind_variation := py_max 0.5 wind_draw in
  solar_draw <- np_random_normal base_solar (base_solar * 0.2) ;;
  let solar_variation := py_max 5 solar_draw in
  ret (WeatherData.mk
         (strftime_date forecast_date)
         (py_round (base_temp + temp_adjustment + temp_variation) 1)
         (py_round
            (py_max 20
               (py_min 100
                  (base_humidity + humidity_adjustment + humidity_variation)))
            1)
         (py_round rainfall_variation 1)
         (py_round wind_variation 1)
         (py_round solar_variation 1)).

Fixpoint forecast_loop (body : nat -> M WeatherData.t) (days : list nat)
    (forecast : list WeatherData.t) : M (list WeatherData.t) :=
  match days with
  | [] => ret forecast
  | day :: rest =>
      forecast_weather <- body day ;;
      forecast_loop body rest (forecast ++ [forecast_weather])
  end.

Definition _get_default_weather_forecast : M (list WeatherData.t) :=
  base_date <- datetime_now ;;
  forecast_loop
    (fun day =>
       let forecast_date := plus_days base_date (Z.of_nat day + 1) in
       ret (WeatherData.mk
              (strftime_date forecast_date)
              (22 + Qnat day)
              (60 - Qnat day * 5)
              (if (day =? 1)%nat then 2 else 0)
              2
              20))
    (seq 0 3) [].

Definition _generate_meteorological_forecast (weather_data : list Obs.t)
    : M (list WeatherData.t) :=
  match weather_data with
  | [] => _get_default_weather_forecast
  | _ :: _ =>
      let recent_data := last_n 14 weather_data in
      let seasonal_trends := _analyze_seasonal_patterns weather_data in
      base_date <- datetime_now ;;
      forecast_loop (forecast_day recent_data seasonal_trends base_date)
                    (seq 0 3) []
  end.

(** ** The stress analysis *)

Definition _calculate_urgency_score (soil_moisture : Q)
    (trigger_points : Trigger.t) : Q :=
  if Qltb soil_moisture (Trigger.critical trigger_points) then 1.0
  else if Qltb soil_moisture (Trigger.high trigger_points) then 0.8
  else if Qltb soil_moisture (Trigger.medium trigger_points) then 0.6
  else if Qltb soil_moisture (Trigger.low trigger_points) then 0.4
  else 0.0.

Definition _determine_irrigation_urgency (stress_events : list StressEvent.t)
    (critical_periods : list nat) : string :=
  if (12 <? length critical_periods)%nat then "critical"
  else if (0 <? length critical_periods)%nat then "high"
  else if (24 <? length stress_events)%nat then "medium"
  else if (0 <? length stress_events)%nat then "low"
  else "none".

(** [sum(1 for event in stress_events if event['stress_level'] == level)] *)
Definition count_level (level : string) (stress_events : list StressEvent.t)
    : nat :=
  length
    (filter (fun event => (StressEvent.stress_level event =? level)%string)
            stress_events).

Definition _classify_overall_stress_severity
    (stress_events : list StressEvent.t) : string :=
  match stress_events with
  | [] => "none"
  | _ :: _ =>
      let critical_count := count_level "critical" stress_events in
      let high_count := count_level "high" stress_events in
      if (6 <? critical_count)%nat then "critical"
      else if ((0 <? critical_count)%nat || (12 <? high_count)%nat)%bool
           then "high"
      else if (0 <? high_count)%nat then "moderate"
      else "low"
  end.

(** The body of [for i, forecast in enumerate(soil_moisture_forecast)]. *)
Definition stress_body (trigger_points : Trigger.t) (i : nat)
    (forecast : SoilMoistureData.t) (acc : Acc.t) : Acc.t :=
  let soil_moisture := SoilMoistureData.soil_moisture forecast in
  let min_moisture :=
    match Acc.min_moisture acc with
    | None => soil_moisture
    | Some m => py_min m soil_moisture
    end in
  let deficit := SoilMoistureData.deficit forecast in
  let max_deficit := py_max (Acc.max_deficit acc) deficit in
  let level_hours :=
    if Qltb soil_moisture (Trigger.critical trigger_points)
    then ("critical", Acc.stress_hours acc + 1)
    else if Qltb soil_moisture (Trigger.high trigger_points)
    then ("high", Acc.stress_hours acc + 1)
    else if Qltb soil_moisture (Trigger.medium trigger_points)
    then ("medium", Acc.stress_hours acc + 1)
    else if Qltb soil_moisture (Trigger.low trigger_points)
    then ("low", Acc.stress_hours acc + 0.5)
    else ("none", Acc.stress_hours acc) in
  let stress_level := fst level_hours in
  let stress_hours := snd level_hours in
  if negb (stress_level =? "none")%string then
    let stress_event :=
      StressEvent.mk i (SoilMoistureData.datetime forecast) soil_moisture
        deficit stress_level
        (_calculate_urgency_score soil_moisture trigger_points) in
    Acc.mk (Acc.stress_events acc ++ [stress_event])
           stress_hours
           (Some min_moisture)
           max_deficit
           (if ((stress_level =? "high")%string
                || (stress_level =? "critical")%string)%bool
            then Acc.critical_periods acc ++ [i]
            else Acc.critical_periods acc)
  else
    Acc.mk (Acc.stress_events acc) stress_hours (Some min_moisture)
           max_deficit (Acc.critical_periods acc).

Fixpoint stress_loop (trigger_points : Trigger.t) (i : nat)
    (soil_moisture_forecast : list SoilMoistureData.t) (acc : Acc.t) : Acc.t :=
  match soil_moisture_forecast with
  | [] => acc
  | forecast :: rest =>
      stress_loop trigger_points (S i) rest
                  (stress_body trigger_points i forecast acc)
  end.

Definition _analyze_stress_conditions_pregi
    (soil_moisture_forecast : list SoilMoistureData.t)
    (stress_threshold_data : Threshold.t) : M Stress.t :=
  let trigger_points := Threshold.trigger_points stress_threshold_data in
  let acc :=
    stress_loop trigger_points 0 soil_moisture_forecast
                (Acc.mk [] 0 None 0 []) in
  fraction <- pydiv (Acc.stress_hours acc)
                    (Qnat (length soil_moisture_forecast)) ;;
  let stress_percentage := fraction * 100 in
  let irrigation_urgency :=
    _determine_irrigation_urgency (Acc.stress_events acc)
                                  (Acc.critical_periods acc) in
  ret (Stress.mk
         (Acc.stress_events acc)
         (Acc.stress_hours acc)
         (py_round stress_percentage 1)
         (option_map (fun m => py_round m 4) (Acc.min_moisture acc))
         (py_round (Acc.max_deficit acc) 4)
         (Acc.critical_periods acc)
         (0 <? length (Acc.stress_events acc))%nat
         irrigation_urgency
         (_classify_overall_stress_severity (Acc.stress_events acc))).

(** ** The schedule generator *)

Definition _calculate_irrigation_requirements (stress_analysis : Stress.t)
    (initial_conditions : IC.t) (crop_type soil_type : string)
    : Requirements.t :=
  let crop_params := get (crop_parameters crop_type) crop_asparagus in
  let soil_params := get (soil_types soil_type) soil_loamy in
  let field_capacity := Soil.field_capacity soil_params in
  let current_moisture := IC.soil_water_content initial_conditions in
  let root_depth := Crop.rooting_depth crop_params in
  let moisture_deficit := field_capacity - current_moisture in
  let water_needed_mm := moisture_deficit * root_depth * 1000 in
  let application_efficiency := 0.85 in
  let water_needed_gross := water_needed_mm / application_efficiency in
  let stress_severity := Stress.stress_severity stress_analysis in
  let water_needed_gross :=
    if (stress_severity =? "critical")%string then water_needed_gross * 1.2
    else if (stress_severity =? "high")%string then water_needed_gross * 1.1
    else water_needed_gross in
  Requirements.mk (py_round water_needed_mm 1)
                  (py_round water_needed_gross 1)
                  (py_round water_needed_gross 1)
                  (py_round moisture_deficit 4)
                  application_efficiency.

(** One [IrrigationEvent] of [_plan_irrigation_events]; the application rate
    comes from the system table, where it is never zero. *)
Definition irrigation_event (system_params : Sys.t)
    (irrigation_system : string) (when : Z) (amount : Q) : IrrigationEvent.t :=
  IrrigationEvent.mk when amount irrigation_system
    (amount / Sys.application_rate system_params)
    (Sys.efficiency system_params)
    (Some (amount * Sys.cost_per_mm system_params)).

Definition _plan_irrigation_events (stress_analysis : Stress.t)
    (irrigation_requirements : Requirements.t) (irrigation_system : string)
    (weather_forecast : list WeatherData.t) : M (list IrrigationEvent.t) :=
  let system_params := get (irrigation_systems irrigation_system) system_drip in
  let total_water := Requirements.total_water irrigation_requirements in
  let urgency := Stress.irrigation_urgency stress_analysis in
  if (urgency =? "critical")%string then
    now <- datetime_now ;;
    ret [irrigation_event system_params irrigation_system
           (plus_hours now 1) total_water]
  else if (urgency =? "high")%string then
    let first_amount := total_water * 0.6 in
    let second_amount := total_water * 0.4 in
    now1 <- datetime_now ;;
    now2 <- datetime_now ;;
    ret [irrigation_event system_params irrigation_system
           (plus_hours now1 2) first_amount;
         irrigation_event system_params irrigation_system
           (plus_hours now2 24) second_amount]
  else if (urgency =? "medium")%string then
    now1 <- datetime_now ;;
    let optimal_time := plus_days (replace_6am now1) 1 in
    now2 <- datetime_now ;;
    let optimal_time :=
      if (optimal_time <? now2)%Z then plus_days optimal_time 1
      else optimal_time in
    ret [irrigation_event system_params irrigation_system
           optimal_time total_water]
  else
    now <- datetime_now ;;
    let optimal_time := plus_days (replace_6am now) 2 in
    ret [irrigation_event system_params irrigation_system
           optimal_time total_water].

Definition _calculate_irrigation_costs
    (irrigation_events : list IrrigationEvent.t) (irrigation_system : string)
    : Costs.t :=
  let total_cost :=
    Qsum (map (fun event => get (IrrigationEvent.cost event) 0)
              irrigation_events) in
  let total_water :=
    Qsum (map IrrigationEvent.water_amount irrigation_events) in
  let system_params := get (irrigation_systems irrigation_system) system_drip in
  Costs.mk (py_round total_cost 2)
           (py_round (if Qltb 0 total_water then total_cost / total_water
                      else 0) 3)
           (Sys.efficiency system_params)
           (py_round ((1 - Sys.efficiency system_params) * total_cost) 2).

Definition _calculate_water_efficiency_savings
    (irrigation_requirements : Requirements.t)
    (irrigation_system crop_type : string) : Savings.t :=
  let system_params := get (irrigation_systems irrigation_system) system_drip in
  let flood_efficiency := Sys.efficiency system_flood in
  let current_efficiency := Sys.efficiency system_params in
  let water_savings_percent :=
    ((current_efficiency - flood_efficiency) / flood_efficiency) * 100 in
  let yield_impact :=
    "Positive - optimized water application maintains crop health" in
  let environmental_impact :=
    if Qltb 20 water_savings_percent then
      "Highly positive - significant water conservation and reduced runoff"
    else if Qltb 10 water_savings_percent then
      "Positive - moderate water conservation"
    else "Neutral - standard water usage" in
  Savings.mk (py_round (py_max 0 water_savings_percent) 1)
             yield_impact environmental_impact.

Definition _determine_optimal_timing (stress_analysis : Stress.t)
    (weather_forecast : list WeatherData.t) : string :=
  let urgency := Stress.irrigation_urgency stress_analysis in
  if (urgency =? "critical")%string then "Immediate irrigation required"
  else if (urgency =? "high")%string then "Irrigate within 2-4 hours"
  else if (urgency =? "medium")%string then
    "Irrigate within 12-24 hours (preferably early morning)"
  else "Irrigate within 24-48 hours during optimal conditions".

Definition _generate_irrigation_schedule (stress_analysis : Stress.t)
    (initial_conditions : IC.t) (weather_forecast : list WeatherData.t)
    (crop_type soil_type irrigation_system : string)
    : M IrrigationRecommendation.t :=
  let needs_irrigation := Stress.irrigation_triggered stress_analysis in
  let confidence_base := 75 in
  if negb needs_irrigation then
    ret (IrrigationRecommendation.mk
           false
           (confidence_base + 15)
           NoStressText
           (Some 0)
           (Some "None required")
           (Some "Monitor conditions")
           None
           (Some 0)
           (Some 100)
           (Some "No impact expected")
           (Some "Positive - water conservation"))
  else
    let irrigation_requirements :=
      _calculate_irrigation_requirements stress_analysis initial_conditions
        crop_type soil_type in
    irrigation_events <-
      _plan_irrigation_events stress_analysis irrigation_requirements
        irrigation_system weather_forecast ;;
    today <- datetime_now ;;
    let urgency := Stress.irrigation_urgency stress_analysis in
    let schedule :=
      IrrigationSchedule.mk
        (strftime_date today)
        irrigation_events
        (Requirements.total_water irrigation_requirements)
        urgency
        (match irrigation_events with
         | first :: _ => Some (IrrigationEvent.datetime first)
         | [] => None
         end)
        (if ((urgency =? "high")%string || (urgency =? "critical")%string)%bool
         then "hourly" else "daily") in
    let cost_analysis :=
      _calculate_irrigation_costs irrigation_events irrigation_system in
    let efficiency_analysis :=
      _calculate_water_efficiency_savings irrigation_requirements
        irrigation_system crop_type in
    let reasoning :=
      StressText (Stress.stress_hours stress_analysis)
                 (Stress.max_deficit stress_analysis)
                 urgency irrigation_system in
    let severity := Stress.stress_severity stress_analysis in
    let confidence :=
      if (severity =? "critical")%string then confidence_base + 15
      else if (severity =? "high")%string then confidence_base + 10
      else if (severity =? "moderate")%string then confidence_base + 5
      else confidence_base in
    ret (IrrigationRecommendation.mk
           true
           (py_min 95 confidence)
           reasoning
           (Some (Requirements.total_water irrigation_requirements))
           (Some irrigation_system)
           (Some (_determine_optimal_timing stress_analysis weather_forecast))
           (Some schedule)
           (Some (Costs.total_cost cost_analysis))
           (Some (Savings.water_savings_percent efficiency_analysis))
           (Some (Savings.yield_impact efficiency_analysis))
           (Some (Savings.environmental_impact efficiency_analysis))).

(** ** Efficiency, accuracy and data quality *)

Definition _analyze_water_efficiency
    (irrigation_recommendation : IrrigationRecommendation.t)
    (stress_analysis : Stress.t) (crop_type soil_type : string)
    : Efficiency.t :=
  if negb (IrrigationRecommendation.needs_irrigation irrigation_recommendation)
  then
    Efficiency.mk 100 ["Continue monitoring"; "Maintain current practices"]
                  0 "Excellent"
  else
    let water_amount :=
      get (IrrigationRecommendation.water_amount irrigation_recommendation) 0 in
    let stress_severity := Stress.stress_severity stress_analysis in
    let base_efficiency := 75 in
    let base_efficiency :=
      if (stress_severity =? "low")%string then base_efficiency + 15
      else if (stress_severity =? "critical")%string then base_efficiency - 10
      else base_efficiency in
    let optimization_opportunities :=
      (if Qltb 30 water_amount
       then ["Consider split applications to improve efficiency"] else [])
      ++ (if ((stress_severity =? "high")%string
              || (stress_severity =? "critical")%string)%bool
          then ["Implement more frequent monitoring to prevent stress"]
          else []) in
    let sustainability_rating :=
      if Qltb 85 base_efficiency then "Excellent"
      else if Qltb base_efficiency 70 then "Needs improvement"
      else "Good" in
    Efficiency.mk base_efficiency optimization_opportunities
                  (py_round (water_amount / 25) 1) sustainability_rating.

Definition _calculate_model_accuracy (stress_analysis : Stress.t) : Q :=
  let base_accuracy := 85 in
  let stress_events := Stress.stress_events stress_analysis in
  let base_accuracy :=
    if (0 <? length stress_events)%nat
    then base_accuracy + py_min 10 (Qnat (length stress_events) / 5)
    else base_accuracy in
  py_min 95 base_accuracy.

Definition _assess_data_quality (lai_data : list Lai.t)
    (weather_data : list Obs.t) (satellite_data : Sat.t) : DataQuality.t :=
  let lai_scores :=
    match lai_data with
    | [] => []
    | _ :: _ => [py_min 100 (Qnat (length lai_data) * 5)]
    end in
  let weather_scores :=
    match weather_data with
    | [] => []
    | _ :: _ => [py_min 100 (Qnat (length weather_data) * 3.33)]
    end in
  let satellite_scores :=
    match Sat.ndvi satellite_data with
    | Some ((_ :: _) as ndvi) => [py_min 100 (Qnat (length ndvi) * 5)]
    | _ => []
    end in
  let quality_scores := lai_scores ++ weather_scores ++ satellite_scores in
  let overall_quality :=
    match quality_scores with
    | [] => 50
    | _ :: _ => np_mean quality_scores
    end in
  DataQuality.mk
    (py_round overall_quality 1)
    (length lai_data)
    (length weather_data)
    (length (get (Sat.ndvi satellite_data) []))
    (if Qltb 85 overall_quality then "Excellent"
     else if Qltb 70 overall_quality then "Good"
     else "Adequate").

(** ** The orchestrating call *)

(** The [FarmBounds] built from the dict [farm_bounds], with the validation
    of [__post_init__]. *)
Definition new_FarmBounds (farm_bounds : FarmBounds.t) : M FarmBounds.t :=
  let north := FarmBounds.north farm_bounds in
  let south := FarmBounds.south farm_bounds in
  let east := FarmBounds.east farm_bounds in
  let west := FarmBounds.west farm_bounds in
  if negb (Qle_bool (-90) south && Qle_bool south north
           && Qle_bool north 90)%bool
  then raise ValueError
  else if negb (Qle_bool (-180) west && Qle_bool west east
                && Qle_bool east 180)%bool
  then raise ValueError
  else ret farm_bounds.

Definition _get_fallback_irrigation_recommendation : M Response.t :=
  now1 <- datetime_now ;;
  now2 <- datetime_now ;;
  ret (Response.mk
         (FallbackId (Z.quot now1 1000000))
         now2
         None None None
         false
         50
         FallbackText
         None None None
         None None None None None None None
         None None
         (Some "Analysis incomplete")
         (Some "Unknown")
         None
         0
         0
         None
         (Some "Analysis failed - insufficient data or system error")).

(** The statements inside [try:]. *)
Definition analysis_body (start_time : Z) (lai_data : list Lai.t)
    (weather_data : list Obs.t) (satellite_data : Sat.t)
    (farm_bounds : FarmBounds.t)
    (crop_type soil_type irrigation_system : string) : M Response.t :=
  initial_conditions <-
    _get_initial_conditions_fest_ewb lai_data weather_data satellite_data
      crop_type soil_type ;;
  vegetation_params <-
    _extract_vegetation_parameters satellite_data lai_data crop_type ;;
  let stress_threshold_data :=
    _calculate_stress_threshold_fao56 crop_type soil_type vegetation_params in
  weather_forecast <- _generate_meteorological_forecast weather_data ;;
  soil_moisture_forecast <-
    _run_hydrological_model_fest_ewb initial_conditions weather_forecast
      vegetation_params crop_type soil_type ;;
  stress_analysis <-
    _analyze_stress_conditions_pregi soil_moisture_forecast
      stress_threshold_data ;;
  irrigation_recommendation <-
    _generate_irrigation_schedule stress_analysis initial_conditions
      weather_forecast crop_type soil_type irrigation_system ;;
  let efficiency_analysis :=
    _analyze_water_efficiency irrigation_recommendation stress_analysis
      crop_type soil_type in
  bounds <- new_FarmBounds farm_bounds ;;
  finish_time <- datetime_now ;;
  let processing_time :=
    inject_Z (finish_time - start_time) / 1000000 in
  let model_accuracy := _calculate_model_accuracy stress_analysis in
  id <- uuid4 ;;
  analysis_date <- datetime_now ;;
  let schedule := IrrigationRecommendation.schedule irrigation_recommendation in
  ret (Response.mk
         (Uuid id)
         analysis_date
         (Some crop_type)
         (Some soil_type)
         (Some irrigation_system)
         (IrrigationRecommendation.needs_irrigation irrigation_recommendation)
         (IrrigationRecommendation.confidence irrigation_recommendation)
         (IrrigationRecommendation.reasoning irrigation_recommendation)
         (IrrigationRecommendation.water_amount irrigation_recommendation)
         (IrrigationRecommendation.irrigation_method irrigation_recommendation)
         (IrrigationRecommendation.timing irrigation_recommendation)
         (Some soil_moisture_forecast)
         (Some stress_threshold_data)
         (Some vegetation_params)
         (Some weather_forecast)
         (Some (Stress.stress_events stress_analysis))
         schedule
         (match schedule with
          | Some sched => IrrigationSchedule.next_irrigation_time sched
          | None => None
          end)
         (IrrigationRecommendation.cost_estimate irrigation_recommendation)
         (IrrigationRecommendation.water_savings irrigation_recommendation)
         (IrrigationRecommendation.yield_impact irrigation_recommendation)
         (IrrigationRecommendation.environmental_impact
            irrigation_recommendation)
         (Some efficiency_analysis)
         processing_time
         model_accuracy
         (Some (_assess_data_quality lai_data weather_data satellite_data))
         None).

Definition analyze_smart_irrigation (lai_data : list Lai.t)
    (weather_data : list Obs.t) (satellite_data : Sat.t)
    (farm_bounds : FarmBounds.t)
    (crop_type soil_type irrigation_system : string) : M Response.t :=
  start_time <- datetime_now ;;
  try_except
    (analysis_body start_time lai_data weather_data satellite_data
       farm_bounds crop_type soil_type irrigation_system)
    (fun e => _get_fallback_irrigation_recommendation).

(** ** The other vegetation helpers *)

Definition _calculate_albedo_from_ndvi (ndvi : Q) : Q :=
  py_max 0.1 (py_min 0.4 (0.23 - 0.15 * ndvi + 0.05 * (ndvi ^ 2))).

Definition height_factors (key : string) : option Q :=
  if (key =? "asparagus")%string then Some 1.5
  else if (key =? "tomato")%string then Some 1.2
  else if (key =? "wheat")%string then Some 0.8
  else None.

Definition _estimate_vegetation_height (crop_type : string) (lai : Q) : Q :=
  let base_height := get (height_factors crop_type) 1.0 in
  base_height * py_min 1.0 (lai / 3.0).

(** The entry ['leaf_area_density'] that [_extract_vegetation_parameters]
    computes from the current LAI. *)
Definition leaf_area_density (crop_type : string) (current_lai : Q) : Q :=
  let vegetation_height := _estimate_vegetation_height crop_type current_lai in
  py_round (if Qltb 0 vegetation_height then current_lai / vegetation_height
            else 0) 2.

(** The means are numpy floats, whose division does not raise: on a zero
    [older_avg] the change is infinite with the sign of the numerator, or
    [nan] when the numerator is zero too, and every comparison with [nan] is
    false. *)
Definition _calculate_ndvi_trend (ndvi_values : list Q) : string :=
  if (length ndvi_values <? 2)%nat then "stable"
  else
    let recent_avg := np_mean (last_n 3 ndvi_values) in
    let older_avg := np_mean (firstn 3 ndvi_values) in
    if Qeq_bool older_avg 0 then
      if Qltb 0 (recent_avg - older_avg) then "increasing"
      else if Qltb (recent_avg - older_avg) 0 then "decreasing"
      else "stable"
    else
      let change := (recent_avg - older_avg) / older_avg * 100 in
      if Qltb 5 change then "increasing"
      else if Qltb change (-5) then "decreasing"
      else "stable".

(** ** The farm analysis *)

(** [FarmBounds.center_lat], [FarmBounds.center_lon] *)
Definition center_lat (self : FarmBounds.t) : Q :=
  (FarmBounds.north self + FarmBounds.south self) / 2.

Definition center_lon (self : FarmBounds.t) : Q :=
  (FarmBounds.east self + FarmBounds.west self) / 2.

(** [WeatherData.to_dict] *)
Definition WeatherData_to_dict (self : WeatherData.t) : WeatherDict.t :=
  WeatherDict.mk (Some (WeatherData.date self))
    (Some (WeatherData.temperature self))
    (Some (WeatherData.humidity self))
    (Some (WeatherData.rainfall self))
    (Some (WeatherData.wind_speed self))
    (Some (WeatherData.solar_radiation self)).

(** The methods below mutate [self]: they take the object and return it
    with their outcome, so that what was appended before an exception is
    kept. *)

(** [self.weather_data.append(weather)] *)
Definition append_weather (self : FarmAnalysis.t) (weather : WeatherData.t)
    : FarmAnalysis.t :=
  FarmAnalysis.mk (FarmAnalysis.id self) (FarmAnalysis.analysis_date self)
    (FarmAnalysis.bounds self) (FarmAnalysis.weather_data self ++ [weather])
    (FarmAnalysis.satellite_data self) (FarmAnalysis.lai_data self)
    (FarmAnalysis.data_quality_score self).

Fixpoint add_weather_data (self : FarmAnalysis.t)
    (weather_list : list WeatherDict.t) : result unit * FarmAnalysis.t :=
  match weather_list with
  | [] => (Ok tt, self)
  | weather_dict :: rest =>
      match WeatherDict.date weather_dict,
            WeatherDict.temperature weather_dict,
            WeatherDict.humidity weather_dict,
            WeatherDict.rainfall weather_dict with
      | Some date, Some temperature, Some humidity, Some rainfall =>
          let weather :=
            WeatherData.mk date temperature humidity rainfall
              (get (WeatherDict.wind_speed weather_dict) 0)
              (get (WeatherDict.solar_radiation weather_dict) 0) in
          add_weather_data (append_weather self weather) rest
      | _, _, _, _ => (Raise KeyError, self)
      end
  end.

(** [self.satellite_data.append(satellite)] *)
Definition append_satellite (self : FarmAnalysis.t)
    (satellite : SatelliteData.t) : FarmAnalysis.t :=
  FarmAnalysis.mk (FarmAnalysis.id self) (FarmAnalysis.analysis_date self)
    (FarmAnalysis.bounds self) (FarmAnalysis.weather_data self)
    (FarmAnalysis.satellite_data self ++ [satellite])
    (FarmAnalysis.lai_data self) (FarmAnalysis.data_quality_score self).

(** The body of [for i, date in enumerate(dates)]. *)
Fixpoint satellite_loop (satellite_dict : SatelliteDict.t)
    (ndvi_values evi_values : list Q) (i : nat) (dates : list Z)
    (self : FarmAnalysis.t) : FarmAnalysis.t :=
  match dates with
  | [] => self
  | date :: rest =>
      satellite_loop satellite_dict ndvi_values evi_values (S i) rest
        (match nth_error ndvi_values i with
         | Some ndvi =>
             append_satellite self
               (SatelliteData.mk date ndvi
                  (match nth_error evi_values i with
                   | Some evi => evi
                   | None => ndvi * 0.7
                   end)
                  None
                  (Some (get (SatelliteDict.satellite satellite_dict)
                             "Unknown")))
         | None => self
         end)
  end.

Definition add_satellite_data (self : FarmAnalysis.t)
    (satellite_dict : SatelliteDict.t) : FarmAnalysis.t :=
  let dates := get (SatelliteDict.dates satellite_dict) [] in
  let ndvi_values := get (SatelliteDict.ndvi satellite_dict) [] in
  let evi_values := get (SatelliteDict.evi satellite_dict) [] in
  satellite_loop satellite_dict ndvi_values evi_values 0 dates self.

(** The score is stored in [self.data_quality_score] and returned.  The
    lengths that divide are those of lists just found non-empty. *)
Definition calculate_data_quality_score (self : FarmAnalysis.t)
    : Q * FarmAnalysis.t :=
  let weather_scores :=
    match FarmAnalysis.weather_data self with
    | [] => []
    | _ :: _ =>
        [py_min 100 (Qnat (length (FarmAnalysis.weather_data self)) * 3.33)]
    end in
  let satellite_scores :=
    match FarmAnalysis.satellite_data self with
    | [] => []
    | _ :: _ =>
        let satellite_score :=
          py_min 100 (Qnat (length (FarmAnalysis.satellite_data self)) * 5) in
        let avg_cloud_cover :=
          Qsum (map (fun s => get (SatelliteData.cloud_cover s) 0)
                    (FarmAnalysis.satellite_data self))
          / Qnat (length (FarmAnalysis.satellite_data self)) in
        [satellite_score * (1 - avg_cloud_cover / 100)]
    end in
  let lai_scores :=
    match FarmAnalysis.lai_data self with
    | [] => []
    | _ :: _ =>
        let lai_score :=
          py_min 100 (Qnat (length (FarmAnalysis.lai_data self)) * 5) in
        let avg_confidence :=
          Qsum (map LAIData.confidence (FarmAnalysis.lai_data self))
          / Qnat (length (FarmAnalysis.lai_data self)) in
        [lai_score * (avg_confidence / 100)]
    end in
  let scores := weather_scores ++ satellite_scores ++ lai_scores in
  let data_quality_score :=
    match scores with
    | [] => 0
    | _ :: _ => Qsum scores / Qnat (length scores)
    end in
  (data_quality_score,
   FarmAnalysis.mk (FarmAnalysis.id self) (FarmAnalysis.analysis_date self)
     (FarmAnalysis.bounds self) (FarmAnalysis.weather_data self)
     (FarmAnalysis.satellite_data self) (FarmAnalysis.lai_data self)
     (Some data_quality_score)).

(** ** Views for the further properties *)

(** The coordinates that [FarmBounds.__post_init__] accepts. *)
Definition valid_bounds (b : FarmBounds.t) : Prop :=
  -90 <= FarmBounds.south b /\ FarmBounds.south b <= FarmBounds.north b
  /\ FarmBounds.north b <= 90
  /\ -180 <= FarmBounds.west b /\ FarmBounds.west b <= FarmBounds.east b
  /\ FarmBounds.east b <= 180.

(** The response is the fallback dict. *)
Definition is_fallback (r : Response.t) : Prop :=
  Response.needs_irrigation r = false
  /\ Response.confidence r = 50
  /\ Response.reasoning r = FallbackText
  /\ Response.water_amount r = None
  /\ Response.irrigation_schedule r = None
  /\ Response.next_irrigation r = None
  /\ Response.model_accuracy r = 0
  /\ Response.error r
     = Some "Analysis failed - insufficient data or system error".

(** The mean of a feature over the last fourteen days of the history. *)
Definition recent_mean (feature : Obs.t -> Q) (weather_data : list Obs.t) : Q :=
  np_mean (map feature (last_n 14 weather_data)).

(** A soil moisture below one of the trigger points. *)
Definition stressed (trigger_points : Trigger.t) (soil_moisture : Q) : bool :=
  (Qltb soil_moisture (Trigger.critical trigger_points)
   || Qltb soil_moisture (Trigger.high trigger_points)
   || Qltb soil_moisture (Trigger.medium trigger_points)
   || Qltb soil_moisture (Trigger.low trigger_points))%bool.

(** The four stress levels and their urgency scores. *)
Definition level_score (level : string) (score : Q) : Prop :=
  (level = "critical" /\ score = 1.0) \/ (level = "high" /\ score = 0.8)
  \/ (level = "medium" /\ score = 0.6) \/ (level = "low" /\ score = 0.4).

(** The ranges of a forecast day. *)
Definition within_forecast_ranges (d : WeatherData.t) : Prop :=
  20 <= WeatherData.humidity d /\ WeatherData.humidity d <= 100
  /\ 0 <= WeatherData.rainfall d
  /\ 0.5 <= WeatherData.wind_speed d
  /\ 5 <= WeatherData.solar_radiation d.

(** Two forecast days of which the second is no drier: the same
    temperature, humidity and solar radiation, and at least as much rain
    (the wind speed is free). *)
Definition no_drier (d1 d2 : WeatherData.t) : Prop :=
  WeatherData.temperature d1 = WeatherData.temperature d2
  /\ WeatherData.humidity d1 = WeatherData.humidity d2
  /\ WeatherData.solar_radiation d1 = WeatherData.solar_radiation d2
  /\ WeatherData.rainfall d1 <= WeatherData.rainfall d2.

(** The three days that the simulator reads of a forecast: the first three,
    the last one standing for the days that are missing. *)
Definition three_days (weather_forecast : list WeatherData.t)
    : list WeatherData.t :=
  match weather_forecast with
  | [] => []
  | [d1] => [d1; d1; d1]
  | [d1; d2] => [d1; d2; d2]
  | d1 :: d2 :: d3 :: _ => [d1; d2; d3]
  end.

(** The stress level of an event is high or critical. *)
Definition is_critical_period (event : StressEvent.t) : bool :=
  ((StressEvent.stress_level event =? "high")%string
   || (StressEvent.stress_level event =? "critical")%string)%bool.

(** The accumulator with which the stress analysis starts. *)
Definition empty_acc : Acc.t := Acc.mk [] 0 None 0 [].


(** The analysis with another list of weather records. *)
Definition with_weather_data (self : FarmAnalysis.t)
    (weather_data : list WeatherData.t) : FarmAnalysis.t :=
  FarmAnalysis.mk (FarmAnalysis.id self) (FarmAnalysis.analysis_date self)
    (FarmAnalysis.bounds self) weather_data
    (FarmAnalysis.satellite_data self) (FarmAnalysis.lai_data self)
    (FarmAnalysis.data_quality_score self).

(** A weather dict without one of the four keys that [add_weather_data]
    reads with [weather_dict[key]]. *)
Definition lacks_required_key (weather_dict : WeatherDict.t) : Prop :=
  WeatherDict.date weather_dict = None
  \/ WeatherDict.temperature weather_dict = None
  \/ WeatherDict.humidity weather_dict = None
  \/ WeatherDict.rainfall weather_dict = None.

(** The satellite records that [add_satellite_data] appends. *)
Definition added_satellite_data (self : FarmAnalysis.t)
    (satellite_dict : SatelliteDict.t) : list SatelliteData.t :=
  skipn (length (FarmAnalysis.satellite_data self))
    (FarmAnalysis.satellite_data (add_satellite_data self satellite_dict)).

(** Percentages. *)
Definition is_percentage (x : Q) : Prop := 0 <= x /\ x <= 100.

(** * Properties *)

(** ** Numeric facts *)

Lemma Qltb_true (x y : Q) : Qltb x y = true <-> x < y.
Proof.
  unfold Qltb. rewrite Qlt_alt. destruct (Qcompare x y); split; congruence.
Qed.

Lemma Qltb_false (x y : Q) : Qltb x y = false <-> y <= x.
Proof.
  unfold Qltb. rewrite Qle_alt, <- (Qcompare_antisym x y).
  destruct (Qcompare x y); simpl; split; intros; try discriminate; congruence.
Qed.

Lemma py_max_cases (a b : Q) :
  (a < b /\ py_max a b = b) \/ (b <= a /\ py_max a b = a).
Proof.
  unfold py_max. destruct (Qltb a b) eqn:E.
  - left. split; [now apply Qltb_true | reflexivity].
  - right. split; [now apply Qltb_false | reflexivity].
Qed.

Lemma py_min_cases (a b : Q) :
  (b < a /\ py_min a b = b) \/ (a <= b /\ py_min a b = a).
Proof.
  unfold py_min. destruct (Qltb b a) eqn:E.
  - left. split; [now apply Qltb_true | reflexivity].
  - right. split; [now apply Qltb_false | reflexivity].
Qed.

Lemma py_max_lower (a b : Q) : a <= py_max a b.
Proof. destruct (py_max_cases a b) as [[H ->]|[H ->]]; lra. Qed.

Lemma clamp_bounds (lo hi x : Q) :
  lo <= hi -> lo <= py_max lo (py_min hi x) <= hi.
Proof.
  intros H.
  destruct (py_max_cases lo (py_min hi x)) as [[H1 ->]|[H1 ->]];
  destruct (py_min_cases hi x) as [[H2 E]|[H2 E]]; rewrite ?E in *; lra.
Qed.

Lemma round_half_even_cases (q : Q) :
  round_half_even q = Qfloor q
  \/ round_half_even q = (Qfloor q + 1)%Z
     /\ 1 # 2 <= q - inject_Z (Qfloor q).
Proof.
  unfold round_half_even.
  destruct (Qcompare_spec (q - inject_Z (Qfloor q)) (1#2)) as [E|E|E].
  - destruct (Z.even (Qfloor q));
      [left; reflexivity | right; split; [reflexivity | lra]].
  - now left.
  - right. split; [reflexivity | lra].
Qed.

Lemma round_half_even_upper (q : Q) (n : Z) :
  q <= inject_Z n -> (round_half_even q <= n)%Z.
Proof.
  intros H.
  pose proof (Qfloor_le q) as Hf.
  assert (Hfn : (Qfloor q <= n)%Z).
  { rewrite <- (Qfloor_Z n). now apply Qfloor_resp_le. }
  destruct (round_half_even_cases q) as [-> | [-> Hh]]; [exact Hfn|].
  destruct (Z.eq_dec (Qfloor q) n) as [E|E]; [|lia].
  rewrite E in Hh. lra.
Qed.

Lemma round_half_even_lower (q : Q) (n : Z) :
  inject_Z n <= q -> (n <= round_half_even q)%Z.
Proof.
  intros H.
  assert (Hfn : (n <= Qfloor q)%Z).
  { rewrite <- (Qfloor_Z n). now apply Qfloor_resp_le. }
  destruct (round_half_even_cases q) as [-> | [-> Hh]]; lia.
Qed.

Lemma round_half_even_mono (x y : Q) :
  x <= y -> (round_half_even x <= round_half_even y)%Z.
Proof.
  intros H.
  pose proof (Qfloor_resp_le _ _ H) as Hf.
  destruct (Z.eq_dec (Qfloor x) (Qfloor y)) as [E|E].
  - unfold round_half_even. rewrite E.
    destruct (Qcompare_spec (x - inject_Z (Qfloor y)) (1#2)) as [Ex|Ex|Ex];
    destruct (Qcompare_spec (y - inject_Z (Qfloor y)) (1#2)) as [Ey|Ey|Ey];
    try destruct (Z.even (Qfloor y)); try lia; lra.
  - assert (Hlt : (Qfloor x + 1 <= Qfloor y)%Z) by lia.
    destruct (round_half_even_cases x) as [-> | [-> _]];
    destruct (round_half_even_cases y) as [-> | [-> _]]; lia.
Qed.

Lemma scale_pos (k : nat) : 0 < inject_Z (10 ^ Z.of_nat k).
Proof.
  replace 0 with (inject_Z 0) by reflexivity. rewrite <- Zlt_Qlt.
  apply Z.pow_pos_nonneg; lia.
Qed.

Lemma py_round_le (x c : Q) (k : nat) (n : Z) :
  c == inject_Z n / inject_Z (10 ^ Z.of_nat k) -> x <= c -> py_round x k <= c.
Proof.
  intros Hc Hx. unfold py_round. rewrite Hc.
  pose proof (scale_pos k) as Hs.
  apply Qmult_le_compat_r; [|apply Qlt_le_weak, Qinv_lt_0_compat, Hs].
  rewrite <- Zle_Qle. apply round_half_even_upper.
  rewrite Hc in Hx.
  apply (Qmult_le_compat_r _ _ (inject_Z (10 ^ Z.of_nat k))) in Hx; [|lra].
  eapply Qle_trans; [exact Hx|].
  apply Qle_lteq. right. field. lra.
Qed.

Lemma py_round_ge (x c : Q) (k : nat) (n : Z) :
  c == inject_Z n / inject_Z (10 ^ Z.of_nat k) -> c <= x -> c <= py_round x k.
Proof.
  intros Hc Hx. unfold py_round. rewrite Hc.
  pose proof (scale_pos k) as Hs.
  apply Qmult_le_compat_r; [|apply Qlt_le_weak, Qinv_lt_0_compat, Hs].
  rewrite <- Zle_Qle. apply round_half_even_lower.
  rewrite Hc in Hx.
  apply (Qmult_le_compat_r _ _ (inject_Z (10 ^ Z.of_nat k))) in Hx; [|lra].
  eapply Qle_trans; [|exact Hx].
  apply Qle_lteq. right. field. lra.
Qed.

Lemma py_round_mono (x y : Q) (k : nat) :
  x <= y -> py_round x k <= py_round y k.
Proof.
  intros H. unfold py_round. pose proof (scale_pos k) as Hs.
  apply Qmult_le_compat_r; [|apply Qlt_le_weak, Qinv_lt_0_compat, Hs].
  rewrite <- Zle_Qle. apply round_half_even_mono.
  apply Qmult_le_compat_r; lra.
Qed.

Lemma Qminus_0_r_eq (a : Q) : a - 0 = a.
Proof.
  destruct a as [n d]. unfold Qminus, Qplus, Qopp. simpl.
  rewrite Z.mul_1_r, Z.add_0_r, Pos.mul_1_r. reflexivity.
Qed.

(** ** The monad *)

Ltac inv_bind H :=
  unfold bind in H;
  match type of H with
  | context [match ?m ?w with _ => _ end] =>
      let a := fresh "a" in let e := fresh "e" in
      let w' := fresh "w'" in let E := fresh "E" in
      destruct (m w) as [[a|e] w'] eqn:E; [|discriminate H]
  end.

Lemma world_free_ret {A} (a : A) : world_free (ret a).
Proof. exists (Ok a). reflexivity. Qed.

Lemma world_free_raise {A} (e : exn) : world_free (@raise A e).
Proof. exists (Raise e). reflexivity. Qed.

Lemma world_free_bind {A B} (m : M A) (k : A -> M B) :
  world_free m -> (forall a, world_free (k a)) -> world_free (bind m k).
Proof.
  intros [r Hr] Hk. destruct r as [a|e].
  - destruct (Hk a) as [r' Hr']. exists r'. intros w. unfold bind.
    rewrite Hr. apply Hr'.
  - exists (Raise e). intros w. unfold bind. now rewrite Hr.
Qed.

Lemma world_free_pydiv (x y : Q) : world_free (pydiv x y).
Proof.
  unfold pydiv. destruct (Qeq_bool y 0);
  [apply world_free_raise | apply world_free_ret].
Qed.

Lemma world_free_run {A} (m : M A) (w : World) :
  world_free m -> m w = (fst (m w), w).
Proof. intros [r Hr]. now rewrite Hr. Qed.

Lemma world_free_pm (t h s : Q) :
  world_free (_calculate_reference_et_penman_monteith t h s).
Proof.
  unfold _calculate_reference_et_penman_monteith.
  repeat (apply world_free_bind; [apply world_free_pydiv | intros ?]).
  apply world_free_ret.
Qed.

Lemma pm_nonneg (t h s e : Q) (w w' : World) :
  _calculate_reference_et_penman_monteith t h s w = (Ok e, w') -> 0 <= e.
Proof.
  unfold _calculate_reference_et_penman_monteith. intros H.
  repeat inv_bind H. injection H as <- _. apply py_max_lower.
Qed.

Lemma world_free_hourly_et0 (t h wd s : Q) :
  world_free (_calculate_hourly_et0 t h wd s).
Proof.
  unfold _calculate_hourly_et0.
  apply world_free_bind; [apply world_free_pm | intros ?; apply world_free_ret].
Qed.

Lemma hourly_et0_nonneg (t h wd s e : Q) (w w' : World) :
  _calculate_hourly_et0 t h wd s w = (Ok e, w') -> 0 <= e.
Proof.
  unfold _calculate_hourly_et0. intros H. inv_bind H.
  injection H as <- _. apply pm_nonneg in E.
  apply Qle_shift_div_l; lra.
Qed.

Lemma world_free_last_item {A} (l : list A) : world_free (last_item l).
Proof.
  destruct l; [apply world_free_raise | apply world_free_ret].
Qed.

Lemma world_free_hourly_weather wf hour : world_free (hourly_weather wf hour).
Proof.
  unfold hourly_weather.
  destruct (_ <? _)%nat.
  - destruct (nth_error _ _); [apply world_free_ret | apply world_free_raise].
  - apply world_free_last_item.
Qed.


(** ** The tables *)

Lemma soil_cases (soil_type : string) :
  let soil_params := get (soil_types soil_type) soil_loamy in
  soil_params = soil_sandy \/ soil_params = soil_loamy
  \/ soil_params = soil_clay.
Proof.
  unfold soil_types.
  destruct (soil_type =? "sandy")%string; [now left|].
  destruct (soil_type =? "loamy")%string; [now right; left|].
  destruct (soil_type =? "clay")%string; [now right; right|].
  now right; left.
Qed.

Lemma crop_cases (crop_type : string) :
  let crop_params := get (crop_parameters crop_type) crop_asparagus in
  crop_params = crop_asparagus \/ crop_params = crop_tomato
  \/ crop_params = crop_wheat.
Proof.
  unfold crop_parameters.
  destruct (crop_type =? "asparagus")%string; [now left|].
  destruct (crop_type =? "tomato")%string; [now right; left|].
  destruct (crop_type =? "wheat")%string; [now right; right|].
  now left.
Qed.

(** What the proofs use of the soil table. *)
Lemma soil_facts (soil_type : string) :
  let soil_params := get (soil_types soil_type) soil_loamy in
  Soil.wilting_point soil_params < Soil.field_capacity soil_params
  /\ 0 < Soil.wilting_point soil_params
  /\ 0 < Soil.infiltration_rate soil_params
  /\ 0 < Soil.hydraulic_conductivity soil_params
  /\ (exists n, Soil.field_capacity soil_params
                 == inject_Z n / inject_Z (10 ^ Z.of_nat 4))
  /\ (exists n, Soil.wilting_point soil_params
                 == inject_Z n / inject_Z (10 ^ Z.of_nat 4)).
Proof.
  destruct (soil_cases soil_type) as [E|[E|E]]; cbv zeta in *; rewrite E;
    (repeat split; try reflexivity).
  - now exists 2500%Z.
  - now exists 1000%Z.
  - now exists 3500%Z.
  - now exists 1500%Z.
  - now exists 4500%Z.
  - now exists 2000%Z.
Qed.

Lemma crop_facts (crop_type : string) (lai : Q) :
  let crop_params := get (crop_parameters crop_type) crop_asparagus in
  0 < Crop.rooting_depth crop_params
  /\ 0 < _get_crop_coefficient crop_type lai.
Proof.
  unfold _get_crop_coefficient.
  destruct (crop_cases crop_type) as [E|[E|E]]; cbv zeta in *; rewrite E;
    (split; [reflexivity|]);
    destruct (Qltb lai 1.0); try reflexivity;
    destruct (Qltb lai 2.5); try reflexivity;
    destruct (Qltb lai 4.0); reflexivity.
Qed.


(** ** One hour of the simulator *)

Lemma datetime_now_run (w : World) :
  datetime_now w = (Ok (clock w (clock_pos w)), tick w).
Proof. reflexivity. Qed.

(** What a successful iteration computed. *)
Lemma hour_body_ok ic wf vp crop_type soil_type hour cur w step w' :
  hour_body ic wf vp crop_type soil_type hour cur w = (Ok step, w') ->
  let crop_params := get (crop_parameters crop_type) crop_asparagus in
  let soil_params := get (soil_types soil_type) soil_loamy in
  let field_capacity := Soil.field_capacity soil_params in
  let wilting_point := Soil.wilting_point soil_params in
  exists weather lai,
    hourly_weather wf hour w = (Ok weather, w)
    /\ Veg.lai vp = Some lai
    /\ w' = tick w
    /\ 0 <= Step.et0_hourly step
    /\ Step.crop_et step
       = Step.et0_hourly step * _get_crop_coefficient crop_type lai
    /\ Step.infiltration step
       = py_min (WeatherData.rainfall weather / 24)
                (Soil.infiltration_rate soil_params)
    /\ Step.deep_percolation step
       = _calculate_deep_percolation cur field_capacity
           (Soil.hydraulic_conductivity soil_params)
    /\ Step.new_moisture step
       = py_max wilting_point
           (py_min field_capacity
              (cur + (Step.infiltration step - Step.crop_et step
                      - Step.deep_percolation step)
                     / (Crop.rooting_depth crop_params * 1000)))
    /\ Step.soil_moisture_data step
       = SoilMoistureData.mk
           (plus_hours (clock w (clock_pos w)) (Z.of_nat hour))
           (py_round (Step.new_moisture step) 4)
           field_capacity
           wilting_point
           (get (IC.stress_threshold ic)
                (field_capacity
                 - Crop.p crop_params * (field_capacity - wilting_point)))
           (py_round (py_max 0 (field_capacity - Step.new_moisture step)) 4)
           (Crop.rooting_depth crop_params * 100).
Proof.
  intros H. unfold hour_body in H.
  inv_bind H.
  rewrite (world_free_run _ w (world_free_hourly_weather wf hour)) in E.
  injection E as E <-.
  inv_bind H.
  pose proof (hourly_et0_nonneg _ _ _ _ _ _ _ E0) as Hpos.
  rewrite (world_free_run _ w (world_free_hourly_et0 _ _ _ _)) in E0.
  injection E0 as E0 <-.
  destruct (Veg.lai vp) as [lai|] eqn:Elai; [|discriminate H].
  unfold bind, ret in H. cbn [datetime_now] in H.
  injection H as <- <-.
  exists a, lai. cbn. repeat split; try reflexivity; assumption.
Qed.

Lemma hour_body_bounds ic wf vp crop_type soil_type hour cur w step w' :
  hour_body ic wf vp crop_type soil_type hour cur w = (Ok step, w') ->
  let soil_params := get (soil_types soil_type) soil_loamy in
  Soil.wilting_point soil_params <= Step.new_moisture step
  /\ Step.new_moisture step <= Soil.field_capacity soil_params.
Proof.
  intros H soil_params.
  destruct (hour_body_ok _ _ _ _ _ _ _ _ _ _ H)
    as (weather & lai & _ & _ & _ & _ & _ & _ & _ & -> & _).
  apply clamp_bounds.
  destruct (soil_facts soil_type) as (Hlt & _). apply Qlt_le_weak, Hlt.
Qed.

Lemma hour_body_in_bounds ic wf vp crop_type soil_type hour cur w step w' :
  hour_body ic wf vp crop_type soil_type hour cur w = (Ok step, w') ->
  in_bounds (Step.soil_moisture_data step).
Proof.
  intros H.
  pose proof (hour_body_bounds _ _ _ _ _ _ _ _ _ _ H) as [Hlo Hhi].
  destruct (hour_body_ok _ _ _ _ _ _ _ _ _ _ H)
    as (weather & lai & _ & _ & _ & _ & _ & _ & _ & _ & ->).
  destruct (soil_facts soil_type) as (_ & _ & _ & _ & [n Hn] & [m Hm]).
  unfold in_bounds. cbn. split.
  - eapply py_round_ge; eassumption.
  - eapply py_round_le; eassumption.
Qed.

(** ** The loop *)

Lemma hydro_loop_length bd hours cur acc w res w' :
  hydro_loop bd hours cur acc w = (Ok res, w') ->
  length res = (length acc + length hours)%nat.
Proof.
  revert cur acc w. induction hours as [|hour rest IH]; intros cur acc w H.
  - cbn in H. injection H as <- _. cbn. lia.
  - cbn [hydro_loop] in H. inv_bind H. apply IH in H.
    rewrite H, length_app. cbn. lia.
Qed.

(** A property of the emitted states that every iteration establishes
    holds of the whole series; [J] is what the iterations keep true of the
    running moisture. *)
Lemma hydro_loop_invariant (J : Q -> Prop) (P : SoilMoistureData.t -> Prop)
    bd hours :
  (forall hour cur w step w',
      In hour hours -> J cur -> bd hour cur w = (Ok step, w') ->
      J (Step.new_moisture step) /\ P (Step.soil_moisture_data step)) ->
  forall cur acc w res w',
    J cur -> Forall P acc ->
    hydro_loop bd hours cur acc w = (Ok res, w') -> Forall P res.
Proof.
  induction hours as [|hour rest IH]; intros Hbd cur acc w res w' Hcur Hacc H.
  - cbn in H. now injection H as <- _.
  - cbn [hydro_loop] in H. inv_bind H.
    destruct (Hbd hour cur w a w'0 (or_introl eq_refl) Hcur E) as [HJ HP].
    eapply IH; [| | |exact H].
    + intros. eapply Hbd; [right| |]; eassumption.
    + exact HJ.
    + apply Forall_app. split; [assumption|]. now repeat constructor.
Qed.

(** C1.  Every state that the hydrological simulator emits lies between the
    wilting point and the field capacity, at each of the 72 hours, whatever
    the initial conditions and the forecast. *)
Theorem C1_moisture_within_bounds ic wf vp crop_type soil_type w series w' :
  _run_hydrological_model_fest_ewb ic wf vp crop_type soil_type w
    = (Ok series, w') ->
  length series = 72%nat /\ Forall in_bounds series.
Proof.
  unfold _run_hydrological_model_fest_ewb. intros H. split.
  - apply hydro_loop_length in H. exact H.
  - eapply (hydro_loop_invariant (fun _ => True)); [| | |exact H].
    + intros hour cur w0 step w0' _ _ Hstep. split; [exact I|].
      eapply hour_body_in_bounds, Hstep.
    + exact I.
    + constructor.
Qed.


(** ** A forecast without rain *)

Lemma last_cons {A : Type} (l : list A) (a x : A) :
  last (a :: l) x = last l a.
Proof.
  revert a x. induction l as [|b l IH]; intros a x; [reflexivity|].
  change (last (a :: b :: l) x) with (last (b :: l) x).
  rewrite !IH. reflexivity.
Qed.

Lemma last_In {A : Type} (l : list A) (x : A) : In (last l x) (x :: l).
Proof.
  revert x. induction l as [|a l IH]; intros x; [now left|].
  right. rewrite last_cons. apply IH.
Qed.

Lemma hourly_weather_In wf hour w weather w' :
  hourly_weather wf hour w = (Ok weather, w') -> In weather wf.
Proof.
  unfold hourly_weather. destruct (_ <? _)%nat.
  - destruct (nth_error wf (hour / 24)) eqn:E; [|discriminate].
    intros H. injection H as <- _. eapply nth_error_In, E.
  - destruct wf as [|x l]; [discriminate|].
    intros H. injection H as <- _. apply last_In.
Qed.

Lemma deep_percolation_nonneg (moisture field_capacity conductivity : Q) :
  0 < conductivity ->
  0 <= _calculate_deep_percolation moisture field_capacity conductivity.
Proof.
  intros Hk. unfold _calculate_deep_percolation.
  destruct (Qle_bool moisture field_capacity) eqn:E; [lra|].
  assert (Hgt : field_capacity < moisture).
  { apply Qnot_le_lt. intros Hle. apply Qle_bool_iff in Hle. congruence. }
  destruct (py_min_cases ((moisture - field_capacity) * 1000)
                         (conductivity / 24)) as [[_ ->]|[_ ->]].
  - apply Qle_shift_div_l; lra.
  - nra.
Qed.

Lemma deep_percolation_zero (moisture field_capacity conductivity : Q) :
  moisture <= field_capacity ->
  _calculate_deep_percolation moisture field_capacity conductivity = 0.
Proof.
  intros H. unfold _calculate_deep_percolation.
  apply Qle_bool_iff in H. now rewrite H.
Qed.

(** Without rain the water balance of an hour is never positive. *)
Lemma hour_body_dry ic wf vp crop_type soil_type hour cur w step w' :
  Forall (fun day => WeatherData.rainfall day == 0) wf ->
  hour_body ic wf vp crop_type soil_type hour cur w = (Ok step, w') ->
  Soil.wilting_point (get (soil_types soil_type) soil_loamy) <= cur ->
  Step.new_moisture step <= cur.
Proof.
  intros Hdry H Hcur.
  destruct (hour_body_ok _ _ _ _ _ _ _ _ _ _ H)
    as (weather & lai & Hw & _ & _ & Het & Hcrop & Hinf & Hperc & -> & _).
  apply hourly_weather_In in Hw.
  rewrite Forall_forall in Hdry. specialize (Hdry _ Hw).
  destruct (soil_facts soil_type) as (_ & _ & Hrate & Hk & _).
  destruct (crop_facts crop_type lai) as (Hdepth & Hkc).
  set (soil_params := get (soil_types soil_type) soil_loamy) in *.
  assert (Hi : Step.infiltration step == 0).
  { rewrite Hinf.
    destruct (py_min_cases (WeatherData.rainfall weather / 24)
                (Soil.infiltration_rate soil_params)) as [[Hlt ->]|[_ ->]].
    - rewrite Hdry in Hlt.
      setoid_replace (0 / 24) with 0 in Hlt by reflexivity. lra.
    - rewrite Hdry. reflexivity. }
  assert (Hc : 0 <= Step.crop_et step).
  { rewrite Hcrop. apply Qmult_le_0_compat; lra. }
  assert (Hp : 0 <= Step.deep_percolation step).
  { rewrite Hperc. now apply deep_percolation_nonneg. }
  set (depth := Crop.rooting_depth
                  (get (crop_parameters crop_type) crop_asparagus)) in *.
  assert (Hchange :
    (Step.infiltration step - Step.crop_et step - Step.deep_percolation step)
    / (depth * 1000) <= 0).
  { apply Qle_shift_div_r; lra. }
  set (change := (Step.infiltration step - Step.crop_et step
                  - Step.deep_percolation step) / (depth * 1000)) in *.
  destruct (py_max_cases (Soil.wilting_point soil_params)
              (py_min (Soil.field_capacity soil_params) (cur + change)))
    as [[_ ->]|[_ ->]]; [|exact Hcur].
  destruct (py_min_cases (Soil.field_capacity soil_params) (cur + change))
    as [[_ ->]|[Hle ->]]; lra.
Qed.

Lemma non_increasing_snoc (l : list Q) (x : Q) :
  non_increasing l -> (l = [] \/ x <= last l 0) ->
  non_increasing (l ++ [x]).
Proof.
  induction l as [|a l IH]; intros Hl Hx; [exact I|].
  destruct l as [|b l].
  - cbn in *. destruct Hx as [Hx|Hx]; [discriminate|]. now split.
  - destruct Hl as [Hba Hl]. split; [exact Hba|].
    apply IH; [exact Hl|]. right.
    destruct Hx as [Hx|Hx]; [discriminate|exact Hx].
Qed.

Lemma hydro_loop_non_increasing ic wf vp crop_type soil_type hours :
  Forall (fun day => WeatherData.rainfall day == 0) wf ->
  forall cur acc w res w',
    non_increasing (map SoilMoistureData.soil_moisture acc) ->
    (acc = []
     \/ (Soil.wilting_point (get (soil_types soil_type) soil_loamy) <= cur
         /\ last (map SoilMoistureData.soil_moisture acc) 0
            = py_round cur 4)) ->
    hydro_loop (hour_body ic wf vp crop_type soil_type) hours cur acc w
      = (Ok res, w') ->
    non_increasing (map SoilMoistureData.soil_moisture res).
Proof.
  intros Hdry. induction hours as [|hour rest IH];
    intros cur acc w res w' Hacc Hlast H.
  - cbn in H. now injection H as <- _.
  - cbn [hydro_loop] in H. inv_bind H.
    pose proof (hour_body_bounds _ _ _ _ _ _ _ _ _ _ E) as [Hlo _].
    destruct (hour_body_ok _ _ _ _ _ _ _ _ _ _ E)
      as (_ & _ & _ & _ & _ & _ & _ & _ & _ & _ & Hsmd).
    assert (Hsm : SoilMoistureData.soil_moisture (Step.soil_moisture_data a)
                  = py_round (Step.new_moisture a) 4)
      by now rewrite Hsmd.
    eapply IH; [| |exact H].
    + rewrite map_app. apply non_increasing_snoc; [exact Hacc|].
      destruct Hlast as [->|[Hcur Hl]]; [now left|right].
      rewrite Hl. cbn [map]. rewrite Hsm. apply py_round_mono.
      eapply hour_body_dry; eassumption.
    + right. split; [exact Hlo|].
      rewrite map_app. cbn [map]. rewrite last_last. exact Hsm.
Qed.

(** C10.  When every day of the forecast has no rain, the simulated moisture
    never rises from one hour to the next. *)
Theorem C10_dry_forecast_non_increasing ic wf vp crop_type soil_type w
    series w' :
  Forall (fun day => WeatherData.rainfall day == 0) wf ->
  _run_hydrological_model_fest_ewb ic wf vp crop_type soil_type w
    = (Ok series, w') ->
  non_increasing (map SoilMoistureData.soil_moisture series).
Proof.
  intros Hdry H. unfold _run_hydrological_model_fest_ewb in H.
  eapply hydro_loop_non_increasing; [exact Hdry| | |exact H].
  - exact I.
  - now left.
Qed.


(** ** The percolation term *)

Lemma hour_body_no_percolation_eq ic wf vp crop_type soil_type hour cur w :
  cur <= Soil.field_capacity (get (soil_types soil_type) soil_loamy) ->
  hour_body ic wf vp crop_type soil_type hour cur w
  = hour_body_no_percolation ic wf vp crop_type soil_type hour cur w.
Proof.
  intros Hcur. unfold hour_body, hour_body_no_percolation, bind.
  destruct (hourly_weather wf hour w) as [[weather|e] w1]; [|reflexivity].
  destruct (_calculate_hourly_et0 _ _ _ _ w1) as [[et0|e] w2]; [|reflexivity].
  destruct (Veg.lai vp) as [lai|]; [|reflexivity].
  unfold ret at 1 3.
  rewrite (deep_percolation_zero _ _ _ Hcur), !Qminus_0_r_eq.
  reflexivity.
Qed.

Lemma hydro_loop_no_percolation ic wf vp crop_type soil_type hours :
  forall cur acc w,
    cur <= Soil.field_capacity (get (soil_types soil_type) soil_loamy) ->
    hydro_loop (hour_body ic wf vp crop_type soil_type) hours cur acc w
    = hydro_loop (hour_body_no_percolation ic wf vp crop_type soil_type)
                 hours cur acc w.
Proof.
  induction hours as [|hour rest IH]; intros cur acc w Hcur; [reflexivity|].
  cbn [hydro_loop]. unfold bind.
  rewrite <- (hour_body_no_percolation_eq _ _ _ _ _ _ _ _ Hcur).
  destruct (hour_body ic wf vp crop_type soil_type hour cur w)
    as [[step|e] w1] eqn:E; [|reflexivity].
  apply IH. eapply hour_body_bounds, E.
Qed.

Lemma hydro_trace_percolation ic wf vp crop_type soil_type hours :
  forall cur w steps w',
    cur <= Soil.field_capacity (get (soil_types soil_type) soil_loamy) ->
    hydro_trace (hour_body ic wf vp crop_type soil_type) hours cur w
      = (Ok steps, w') ->
    Forall (fun step => Step.deep_percolation step = 0) steps.
Proof.
  induction hours as [|hour rest IH]; intros cur w steps w' Hcur H.
  - cbn in H. injection H as <- _. constructor.
  - cbn [hydro_trace] in H. inv_bind H. inv_bind H.
    unfold ret in H. injection H as <- _.
    constructor.
    + destruct (hour_body_ok _ _ _ _ _ _ _ _ _ _ E)
        as (_ & _ & _ & _ & _ & _ & _ & _ & -> & _).
      now apply deep_percolation_zero.
    + eapply IH; [|exact E0]. eapply hour_body_bounds, E.
Qed.

(** The traced loop is the loop: it emits the same states. *)
Lemma hydro_loop_trace bd hours :
  forall cur acc w,
    hydro_loop bd hours cur acc w
    = match hydro_trace bd hours cur w with
      | (Ok steps, w') =>
          (Ok (acc ++ map Step.soil_moisture_data steps), w')
      | (Raise e, w') => (Raise e, w')
      end.
Proof.
  induction hours as [|hour rest IH]; intros cur acc w.
  - cbn. unfold ret. now rewrite app_nil_r.
  - cbn [hydro_loop hydro_trace]. unfold bind.
    destruct (bd hour cur w) as [[step|e] w1]; [|reflexivity].
    rewrite IH.
    destruct (hydro_trace bd rest (Step.new_moisture step) w1)
      as [[steps|e] w2]; [|reflexivity].
    unfold ret. cbn [map]. now rewrite <- app_assoc.
Qed.

(** The initial moisture of either constructor is a moisture between the
    wilting point and the field capacity of the soil. *)
Lemma initial_moisture_bounds lai_data weather_data satellite_data
    crop_type soil_type w ic w' :
  _get_initial_conditions_fest_ewb lai_data weather_data satellite_data
    crop_type soil_type w = (Ok ic, w') ->
  let soil_params := get (soil_types soil_type) soil_loamy in
  Soil.wilting_point soil_params <= IC.soil_water_content ic
  /\ IC.soil_water_content ic <= Soil.field_capacity soil_params.
Proof.
  intros H.
  assert (Hdefault :
    let soil_params := get (soil_types soil_type) soil_loamy in
    Soil.wilting_point soil_params
      <= IC.soil_water_content
           (_get_default_initial_conditions crop_type soil_type)
    /\ IC.soil_water_content
         (_get_default_initial_conditions crop_type soil_type)
       <= Soil.field_capacity soil_params).
  { unfold _get_default_initial_conditions. cbn.
    destruct (soil_cases soil_type) as [E|[E|E]]; cbv zeta in E; rewrite E;
      split; discriminate. }
  unfold _get_initial_conditions_fest_ewb in H.
  destruct weather_data as [|day weather_data];
    [injection H as <- _; exact Hdefault|].
  destruct lai_data as [|record lai_data];
    [injection H as <- _; exact Hdefault|].
  inv_bind H. inv_bind H. unfold ret in H. injection H as <- _.
  cbn [IC.soil_water_content].
  destruct (soil_facts soil_type) as (Hlt & _ & _ & _ & [n Hn] & [m Hm]).
  split.
  - eapply py_round_ge; [exact Hm|]. apply clamp_bounds. lra.
  - eapply py_round_le; [exact Hn|]. apply clamp_bounds. lra.
Qed.

(** C9.  The initial moisture that the service computes never exceeds the
    field capacity and every hour clamps the moisture again, so the deep
    percolation term is 0 at each of the hours of the simulation, and the
    simulator returns what the simulator without the percolation term
    returns. *)
Theorem C9_percolation_term_is_zero lai_data weather_data satellite_data
    crop_type soil_type w0 ic w1 :
  _get_initial_conditions_fest_ewb lai_data weather_data satellite_data
    crop_type soil_type w0 = (Ok ic, w1) ->
  forall wf vp w,
    _run_hydrological_model_fest_ewb ic wf vp crop_type soil_type w
    = run_without_percolation ic wf vp crop_type soil_type w
    /\ forall steps w',
         hydro_trace (hour_body ic wf vp crop_type soil_type)
           (seq 0 forecast_horizon) (IC.soil_water_content ic) w
         = (Ok steps, w') ->
         length steps = 72%nat
         /\ Forall (fun step => Step.deep_percolation step = 0) steps.
Proof.
  intros Hic wf vp w.
  destruct (initial_moisture_bounds _ _ _ _ _ _ _ _ Hic) as [_ Hfc].
  split.
  - unfold _run_hydrological_model_fest_ewb, run_without_percolation.
    now apply hydro_loop_no_percolation.
  - intros steps w' H. split.
    + pose proof (hydro_loop_trace
                    (hour_body ic wf vp crop_type soil_type)
                    (seq 0 forecast_horizon) (IC.soil_water_content ic) [] w)
        as Hloop.
      rewrite H in Hloop. apply hydro_loop_length in Hloop.
      cbn [app] in Hloop. rewrite length_map in Hloop. exact Hloop.
    + eapply hydro_trace_percolation; eassumption.
Qed.


(** ** Two runs of the simulator *)

Lemma hour_body_agree ic1 ic2 wf vp1 vp2 crop_type soil_type hour cur w1 w2 :
  option_map (_get_crop_coefficient crop_type) (Veg.lai vp1)
  = option_map (_get_crop_coefficient crop_type) (Veg.lai vp2) ->
  match fst (hour_body ic1 wf vp1 crop_type soil_type hour cur w1),
        fst (hour_body ic2 wf vp2 crop_type soil_type hour cur w2) with
  | Ok step1, Ok step2 =>
      Step.new_moisture step1 = Step.new_moisture step2
      /\ SoilMoistureData.soil_moisture (Step.soil_moisture_data step1)
         = SoilMoistureData.soil_moisture (Step.soil_moisture_data step2)
  | Raise e1, Raise e2 => e1 = e2
  | _, _ => False
  end.
Proof.
  intros Hkc. unfold hour_body, bind.
  destruct (world_free_hourly_weather wf hour) as [r Hr]. rewrite !Hr.
  destruct r as [weather|e]; [|reflexivity].
  match goal with
  | |- context [_calculate_hourly_et0 ?a ?b ?c ?d w1] =>
      destruct (world_free_hourly_et0 a b c d) as [r Hr2]
  end.
  rewrite !Hr2. destruct r as [et0|e]; [|reflexivity].
  destruct (Veg.lai vp1) as [lai1|], (Veg.lai vp2) as [lai2|];
    try discriminate Hkc; [|reflexivity].
  injection Hkc as Hkc. cbn. rewrite Hkc. split; reflexivity.
Qed.

Lemma hydro_loop_agree ic1 ic2 wf vp1 vp2 crop_type soil_type hours :
  option_map (_get_crop_coefficient crop_type) (Veg.lai vp1)
  = option_map (_get_crop_coefficient crop_type) (Veg.lai vp2) ->
  forall cur acc1 acc2 w1 w2,
    map SoilMoistureData.soil_moisture acc1
    = map SoilMoistureData.soil_moisture acc2 ->
    moisture_series
      (fst (hydro_loop (hour_body ic1 wf vp1 crop_type soil_type)
                       hours cur acc1 w1))
    = moisture_series
        (fst (hydro_loop (hour_body ic2 wf vp2 crop_type soil_type)
                         hours cur acc2 w2)).
Proof.
  intros Hkc. induction hours as [|hour rest IH];
    intros cur acc1 acc2 w1 w2 Hacc.
  - cbn. now rewrite Hacc.
  - cbn [hydro_loop]. unfold bind.
    pose proof (hour_body_agree ic1 ic2 wf vp1 vp2 crop_type soil_type
                  hour cur w1 w2 Hkc) as H.
    destruct (hour_body ic1 wf vp1 crop_type soil_type hour cur w1)
      as [[step1|e1] w1'];
    destruct (hour_body ic2 wf vp2 crop_type soil_type hour cur w2)
      as [[step2|e2] w2']; cbn [fst] in H; try contradiction.
    + destruct H as [Hnew Hsm]. rewrite Hnew. apply IH.
      rewrite !map_app. cbn [map]. now rewrite Hacc, Hsm.
    + cbn. now rewrite H.
Qed.

(** The simulator reads the clock and nothing else of the world. *)
Lemma hour_body_world ic wf vp crop_type soil_type hour cur w :
  let w' := snd (hour_body ic wf vp crop_type soil_type hour cur w) in
  draws w' = draws w /\ draw_pos w' = draw_pos w
  /\ entropy w' = entropy w /\ entropy_pos w' = entropy_pos w.
Proof.
  unfold hour_body, bind.
  destruct (world_free_hourly_weather wf hour) as [r Hr]. rewrite Hr.
  destruct r as [weather|e]; [|now cbn].
  match goal with
  | |- context [_calculate_hourly_et0 ?a ?b ?c ?d w] =>
      destruct (world_free_hourly_et0 a b c d) as [r Hr2]
  end.
  rewrite Hr2. destruct r as [et0|e]; [|now cbn].
  destruct (Veg.lai vp); now cbn.
Qed.

Lemma hydro_loop_world ic wf vp crop_type soil_type hours :
  forall cur acc w,
    let w' := snd (hydro_loop (hour_body ic wf vp crop_type soil_type)
                              hours cur acc w) in
    draws w' = draws w /\ draw_pos w' = draw_pos w
    /\ entropy w' = entropy w /\ entropy_pos w' = entropy_pos w.
Proof.
  induction hours as [|hour rest IH]; intros cur acc w; [now cbn|].
  cbn [hydro_loop]. unfold bind.
  pose proof (hour_body_world ic wf vp crop_type soil_type hour cur w) as H.
  destruct (hour_body ic wf vp crop_type soil_type hour cur w)
    as [[step|e] w1]; cbn [snd] in H.
  - specialize (IH (Step.new_moisture step)
                   (acc ++ [Step.soil_moisture_data step]) w1).
    cbv zeta in IH |- *. destruct H as (H1 & H2 & H3 & H4).
    destruct IH as (I1 & I2 & I3 & I4). repeat split; congruence.
  - exact H.
Qed.

(** C3.  Two runs of the simulator that start from the same moisture, on the
    same forecast, crop and soil, and with the same crop coefficient in
    force, produce the same moisture series (or stop on the same exception),
    whatever the clock, the random state and the remaining entries of their
    arguments; and the simulator leaves the random state as it found it. *)
Theorem C3_simulation_is_deterministic ic1 ic2 wf vp1 vp2 crop_type
    soil_type w1 w2 :
  IC.soil_water_content ic1 = IC.soil_water_content ic2 ->
  option_map (_get_crop_coefficient crop_type) (Veg.lai vp1)
  = option_map (_get_crop_coefficient crop_type) (Veg.lai vp2) ->
  moisture_series
    (fst (_run_hydrological_model_fest_ewb ic1 wf vp1 crop_type soil_type w1))
  = moisture_series
      (fst (_run_hydrological_model_fest_ewb ic2 wf vp2 crop_type soil_type
              w2))
  /\ draws (snd (_run_hydrological_model_fest_ewb ic1 wf vp1 crop_type
                   soil_type w1)) = draws w1
  /\ draw_pos (snd (_run_hydrological_model_fest_ewb ic1 wf vp1 crop_type
                      soil_type w1)) = draw_pos w1.
Proof.
  intros Hinit Hkc. unfold _run_hydrological_model_fest_ewb.
  rewrite Hinit. split.
  - now apply hydro_loop_agree.
  - pose proof (hydro_loop_world ic1 wf vp1 crop_type soil_type
                  (seq 0 forecast_horizon) (IC.soil_water_content ic2) [] w1)
      as H.
    cbv zeta in H. tauto.
Qed.


(** ** The trigger points *)

(** C2.  For every crop and soil of the tables (an unknown key selects
    asparagus or loamy) and every LAI, the trigger points that the threshold
    calculator returns are strictly ordered:
    critical < high < medium < low. *)
Theorem C2_trigger_points_ordered (crop_type soil_type : string)
    (vegetation_params : Veg.t) :
  let trigger_points :=
    Threshold.trigger_points
      (_calculate_stress_threshold_fao56 crop_type soil_type
         vegetation_params) in
  Trigger.critical trigger_points < Trigger.high trigger_points
  /\ Trigger.high trigger_points < Trigger.medium trigger_points
  /\ Trigger.medium trigger_points < Trigger.low trigger_points.
Proof.
  unfold _calculate_stress_threshold_fao56, _calculate_vegetation_adjustment.
  cbn.
  destruct (soil_cases soil_type) as [Es|[Es|Es]]; cbv zeta in Es; rewrite Es;
  destruct (crop_cases crop_type) as [Ec|[Ec|Ec]]; cbv zeta in Ec; rewrite Ec;
  destruct (Qltb (get (Veg.lai vegetation_params) 2.5) 1.0);
  try destruct (Qltb 4.0 (get (Veg.lai vegetation_params) 2.5));
  repeat split; reflexivity.
Qed.

(** ** The schedule without stress *)

(** C6.  When the stress analysis finds no stress event, the schedule
    generator returns the recommendation that needs no irrigation, with
    confidence 75 + 15 = 90, a water amount of 0 and water savings of 100. *)
Theorem C6_no_stress_recommendation soil_moisture_forecast
    stress_threshold_data w stress w1 initial_conditions weather_forecast
    crop_type soil_type irrigation_system w2 :
  _analyze_stress_conditions_pregi soil_moisture_forecast
    stress_threshold_data w = (Ok stress, w1) ->
  Stress.stress_events stress = [] ->
  exists recommendation,
    _generate_irrigation_schedule stress initial_conditions weather_forecast
      crop_type soil_type irrigation_system w2 = (Ok recommendation, w2)
    /\ recommendation
       = IrrigationRecommendation.mk false (75 + 15) NoStressText (Some 0)
           (Some "None required") (Some "Monitor conditions") None (Some 0)
           (Some 100) (Some "No impact expected")
           (Some "Positive - water conservation")
    /\ IrrigationRecommendation.needs_irrigation recommendation = false
    /\ IrrigationRecommendation.confidence recommendation == 90
    /\ IrrigationRecommendation.water_amount recommendation = Some 0
    /\ IrrigationRecommendation.water_savings recommendation = Some 100.
Proof.
  intros H Hnone.
  unfold _analyze_stress_conditions_pregi in H. inv_bind H.
  unfold ret in H. injection H as <- _.
  cbn [Stress.stress_events] in Hnone.
  unfold _generate_irrigation_schedule.
  cbn [Stress.irrigation_triggered]. rewrite Hnone. cbn.
  eexists. split; [reflexivity|]. repeat split; reflexivity.
Qed.

(** ** The orchestrating call *)

(** C7.  The orchestrating call always returns a response: the one its body
    built or, when any stage of the body raised, the fallback
    recommendation, which needs no irrigation, has confidence 50, the
    explanatory text and the entry [error]. *)
Theorem C7_exceptions_become_fallback lai_data weather_data satellite_data
    farm_bounds crop_type soil_type irrigation_system w :
  exists response w',
    analyze_smart_irrigation lai_data weather_data satellite_data farm_bounds
      crop_type soil_type irrigation_system w = (Ok response, w')
    /\ match fst (analysis_body (clock w (clock_pos w)) lai_data weather_data
                    satellite_data farm_bounds crop_type soil_type
                    irrigation_system (tick w)) with
       | Ok built => response = built
       | Raise _ =>
           Response.needs_irrigation response = false
           /\ Response.confidence response = 50
           /\ Response.reasoning response = FallbackText
           /\ Response.error response
              = Some "Analysis failed - insufficient data or system error"
       end.
Proof.
  unfold analyze_smart_irrigation, bind, try_except.
  rewrite datetime_now_run.
  destruct (analysis_body _ _ _ _ _ _ _ _ _) as [[built|e] w1].
  - exists built, w1. split; reflexivity.
  - cbn. eexists. eexists. split; [reflexivity|]. repeat split; reflexivity.
Qed.


(** ** The forecast generator *)

Lemma last_nth {A : Type} (l : list A) (d : A) :
  last l d = nth (length l - 1) l d.
Proof.
  induction l as [|a l IH]; [reflexivity|].
  destruct l as [|b l]; [reflexivity|].
  change (last (a :: b :: l) d) with (last (b :: l) d). rewrite IH.
  replace (length (a :: b :: l) - 1)%nat with (S (length (b :: l) - 1))
    by (cbn [length]; lia).
  reflexivity.
Qed.

Lemma last_n_length {A : Type} (n : nat) (l : list A) :
  (n <= length l)%nat -> length (last_n n l) = n.
Proof. intros H. unfold last_n. rewrite length_skipn. lia. Qed.

(** The first and the last of the last 30 values of a history. *)
Lemma last_30_ends (f : Obs.t -> Q) (weather_data : list Obs.t) :
  (30 <= length weather_data)%nat ->
  let values := map f (last_n 30 weather_data) in
  hd 0 values = f (nth (length weather_data - 30) weather_data empty_obs)
  /\ last values 0
     = f (nth (length weather_data - 1) weather_data empty_obs).
Proof.
  intros Hn values.
  assert (Hlen : length values = 30%nat).
  { unfold values. rewrite length_map. now apply last_n_length. }
  split.
  - transitivity (nth 0 values 0); [now destruct values|].
    rewrite (nth_indep values 0 (f empty_obs)) by lia.
    unfold values, last_n. rewrite map_nth, nth_skipn. f_equal. f_equal. lia.
  - rewrite last_nth, Hlen.
    rewrite (nth_indep values 0 (f empty_obs)) by lia.
    unfold values, last_n. rewrite map_nth, nth_skipn. f_equal. f_equal. lia.
Qed.

Lemma np_random_normal_ok loc scale w v w' :
  np_random_normal loc scale w = (Ok v, w') ->
  v = loc + scale * draws w (draw_pos w) /\ w' = advance w.
Proof.
  unfold np_random_normal. destruct (Qltb scale 0); [discriminate|].
  unfold bind, next_draw, ret. intros H. injection H as <- <-.
  split; reflexivity.
Qed.

Lemma np_random_exponential_ok scale w v w' :
  np_random_exponential scale w = (Ok v, w') ->
  v = scale * Qabs (draws w (draw_pos w)) /\ w' = advance w.
Proof.
  unfold np_random_exponential. destruct (Qltb scale 0); [discriminate|].
  unfold bind, next_draw, ret. intros H. injection H as <- <-.
  split; reflexivity.
Qed.

(** One forecast day, in closed form: [z k] is the k-th draw of the day. *)
Lemma forecast_day_ok recent_data seasonal_trends base_date day w fw w' :
  forecast_day recent_data seasonal_trends base_date day w = (Ok fw, w') ->
  let mean f := np_mean (map f recent_data) in
  let base_temp := mean (fun d => get (Obs.temperature d) 20) in
  let base_humidity := mean (fun d => get (Obs.humidity d) 50) in
  let base_rainfall := mean (fun d => get (Obs.rainfall d) 0) in
  let base_wind := mean (fun d => get (Obs.wind_speed d) 2) in
  let base_solar := mean (fun d => get (Obs.solar_radiation d) 20) in
  let z k := draws w (draw_pos w + k)%nat in
  fw = WeatherData.mk
         (strftime_date (plus_days base_date (Z.of_nat day + 1)))
         (py_round (base_temp
                    + Trends.temperature_trend seasonal_trends * Qnat day
                    + (0 + 2.5 * z 0%nat)) 1)
         (py_round
            (py_max 20
               (py_min 100
                  (base_humidity
                   + Trends.humidity_trend seasonal_trends * Qnat day
                   + (0 + 8 * z 1%nat)))) 1)
         (py_round (py_max 0 (base_rainfall * 0.8 * Qabs (z 2%nat))) 1)
         (py_round (py_max 0.5 (base_wind + base_wind * 0.3 * z 3%nat)) 1)
         (py_round (py_max 5 (base_solar + base_solar * 0.2 * z 4%nat)) 1)
  /\ draws w' = draws w
  /\ draw_pos w' = (draw_pos w + 5)%nat
  /\ clock w' = clock w /\ clock_pos w' = clock_pos w.
Proof.
  unfold forecast_day. intros H.
  inv_bind H. apply np_random_normal_ok in E as [-> ->].
  inv_bind H. apply np_random_normal_ok in E as [-> ->].
  inv_bind H. apply np_random_exponential_ok in E as [-> ->].
  inv_bind H. apply np_random_normal_ok in E as [-> ->].
  inv_bind H. apply np_random_normal_ok in E as [-> ->].
  unfold ret in H. injection H as <- <-. cbn.
  rewrite Nat.add_0_r, !Nat.add_succ_r, Nat.add_0_r.
  repeat split; reflexivity.
Qed.


(** C5 (as amended).  The seasonal trend of temperature and of humidity is
    the last value minus the first value of the last 30 days, divided by 30
    (0 when fewer than 30 days are available).  The generator returns three
    days; for the day of index [day] in 0, 1, 2 (dated [day + 1] days ahead)
    the temperature is round(baseline + trend * day + noise, 1) and the
    humidity is round(clamp(baseline + trend * day + noise, 20, 100), 1),
    where the baseline is the mean of the last 14 days; rainfall, wind and
    solar radiation carry no trend: they are round(max(floor, draw), 1) for
    the draws Exponential(0.8 * baseline), Normal(baseline, 0.3 * baseline)
    and Normal(baseline, 0.2 * baseline) and the floors 0, 0.5 and 5. *)
Theorem C5_trend_is_end_to_end_difference weather_data w forecast w' :
  weather_data <> [] ->
  _generate_meteorological_forecast weather_data w = (Ok forecast, w') ->
  let n := length weather_data in
  let trends := _analyze_seasonal_patterns weather_data in
  let temperature i :=
    get (Obs.temperature (nth i weather_data empty_obs)) 20 in
  let humidity i := get (Obs.humidity (nth i weather_data empty_obs)) 50 in
  let mean f := np_mean (map f (last_n 14 weather_data)) in
  let base_temp := mean (fun d => get (Obs.temperature d) 20) in
  let base_humidity := mean (fun d => get (Obs.humidity d) 50) in
  let base_rainfall := mean (fun d => get (Obs.rainfall d) 0) in
  let base_wind := mean (fun d => get (Obs.wind_speed d) 2) in
  let base_solar := mean (fun d => get (Obs.solar_radiation d) 20) in
  trends
  = (if (n <? 30)%nat then Trends.mk 0 0
     else Trends.mk
            ((temperature (n - 1)%nat - temperature (n - 30)%nat) / 30)
            ((humidity (n - 1)%nat - humidity (n - 30)%nat) / 30))
  /\ length forecast = 3%nat
  /\ forall day, (day < 3)%nat ->
       let z k := draws w (draw_pos w + 5 * day + k)%nat in
       nth_error forecast day
       = Some
           (WeatherData.mk
              (strftime_date
                 (plus_days (clock w (clock_pos w)) (Z.of_nat day + 1)))
              (py_round (base_temp
                         + Trends.temperature_trend trends * Qnat day
                         + (0 + 2.5 * z 0%nat)) 1)
              (py_round
                 (py_max 20
                    (py_min 100
                       (base_humidity
                        + Trends.humidity_trend trends * Qnat day
                        + (0 + 8 * z 1%nat)))) 1)
              (py_round (py_max 0 (base_rainfall * 0.8 * Qabs (z 2%nat))) 1)
              (py_round
                 (py_max 0.5 (base_wind + base_wind * 0.3 * z 3%nat)) 1)
              (py_round
                 (py_max 5 (base_solar + base_solar * 0.2 * z 4%nat)) 1)).
Proof.
  intros Hne H. cbv zeta. split; [|].
  - unfold _analyze_seasonal_patterns.
    destruct (length weather_data <? 30)%nat eqn:En; [reflexivity|].
    apply Nat.ltb_ge in En.
    destruct (last_30_ends (fun d => get (Obs.temperature d) 20)
                weather_data En) as [-> ->].
    destruct (last_30_ends (fun d => get (Obs.humidity d) 50)
                weather_data En) as [-> ->].
    reflexivity.
  - unfold _generate_meteorological_forecast in H.
    destruct weather_data as [|obs rest]; [contradiction|].
    set (history := obs :: rest) in *.
    inv_bind H. rewrite datetime_now_run in E. injection E as <- <-.
    cbn [seq forecast_loop] in H.
    inv_bind H. apply forecast_day_ok in E
      as (-> & Hd0 & Hp0 & Hc0 & Hq0).
    inv_bind H. apply forecast_day_ok in E
      as (-> & Hd1 & Hp1 & Hc1 & Hq1).
    inv_bind H. apply forecast_day_ok in E
      as (-> & Hd2 & Hp2 & Hc2 & Hq2).
    unfold ret in H. injection H as <- _.
    split; [reflexivity|].
    intros day Hday.
    rewrite Hd1, Hd0, Hp1, Hp0.
    cbn [tick draws draw_pos].
    destruct day as [|[|[|day]]]; [| | |lia]; cbn [nth_error app];
      rewrite <- ?Nat.add_assoc; cbn [Nat.add Nat.mul]; reflexivity.
Qed.


(** ** Two invocations from the same random state *)

Lemma lockstep_ret {A : Type} (R : A -> A -> Prop) (a1 a2 : A) :
  R a1 a2 -> lockstep R (ret a1) (ret a2).
Proof. intros H w1 w2 Hw. cbn. now split. Qed.

Lemma lockstep_raise {A : Type} (R : A -> A -> Prop) (e : exn) :
  lockstep R (raise e) (raise e).
Proof. intros w1 w2 Hw. cbn. now split. Qed.

Lemma lockstep_bind {A B : Type} (R : A -> A -> Prop) (S : B -> B -> Prop)
    (m1 m2 : M A) (k1 k2 : A -> M B) :
  lockstep R m1 m2 ->
  (forall a1 a2, R a1 a2 -> lockstep S (k1 a1) (k2 a2)) ->
  lockstep S (bind m1 k1) (bind m2 k2).
Proof.
  intros Hm Hk w1 w2 Hw. unfold bind. specialize (Hm w1 w2 Hw).
  destruct (m1 w1) as [[a1|e1] w1'], (m2 w2) as [[a2|e2] w2'];
    try contradiction.
  - destruct Hm as [HR Hw']. now apply Hk.
  - exact Hm.
Qed.

Lemma lockstep_world_free {A : Type} (m : M A) :
  world_free m -> lockstep eq m m.
Proof. intros [r Hr] w1 w2 Hw. rewrite !Hr. destruct r; now split. Qed.

Lemma lockstep_try {A : Type} (R : A -> A -> Prop) (b1 b2 : M A)
    (h1 h2 : exn -> M A) :
  lockstep R b1 b2 -> (forall e, lockstep R (h1 e) (h2 e)) ->
  lockstep R (try_except b1 h1) (try_except b2 h2).
Proof.
  intros Hb Hh w1 w2 Hw. unfold try_except. specialize (Hb w1 w2 Hw).
  destruct (b1 w1) as [[a1|e1] w1'], (b2 w2) as [[a2|e2] w2'];
    try contradiction.
  - exact Hb.
  - destruct Hb as [-> Hw']. now apply Hh.
Qed.

Lemma lockstep_now : lockstep (fun _ _ => True) datetime_now datetime_now.
Proof. intros w1 w2 Hw. cbn. split; [exact I|exact Hw]. Qed.

Lemma lockstep_uuid4 : lockstep (fun _ _ => True) uuid4 uuid4.
Proof. intros w1 w2 Hw. cbn. split; [exact I|exact Hw]. Qed.

Lemma lockstep_normal (loc scale : Q) :
  lockstep eq (np_random_normal loc scale) (np_random_normal loc scale).
Proof.
  intros w1 w2 [Hd Hp]. unfold np_random_normal.
  destruct (Qltb scale 0); cbn; [now repeat split|].
  rewrite Hd, Hp. repeat split; cbn; congruence.
Qed.

Lemma lockstep_exponential (scale : Q) :
  lockstep eq (np_random_exponential scale) (np_random_exponential scale).
Proof.
  intros w1 w2 [Hd Hp]. unfold np_random_exponential.
  destruct (Qltb scale 0); cbn; [now repeat split|].
  rewrite Hd, Hp. repeat split; cbn; congruence.
Qed.

(** *** The stages that do not touch the world *)

Lemma world_free_latest_lai lai_data : world_free (latest_lai lai_data).
Proof.
  unfold latest_lai. apply world_free_bind; [apply world_free_last_item|].
  intros latest. destruct (Lai.lai latest);
    [apply world_free_ret|apply world_free_raise].
Qed.

Lemma world_free_initial_conditions lai_data weather_data satellite_data
    crop_type soil_type :
  world_free (_get_initial_conditions_fest_ewb lai_data weather_data
                satellite_data crop_type soil_type).
Proof.
  unfold _get_initial_conditions_fest_ewb.
  destruct weather_data; [apply world_free_ret|].
  destruct lai_data; [apply world_free_ret|].
  apply world_free_bind; [apply world_free_pm|intros et0].
  apply world_free_bind; [apply world_free_latest_lai|intros lai].
  apply world_free_ret.
Qed.

Lemma world_free_vegetation_parameters satellite_data lai_data crop_type :
  world_free (_extract_vegetation_parameters satellite_data lai_data
                crop_type).
Proof.
  unfold _extract_vegetation_parameters.
  apply world_free_bind; [|intros lai; apply world_free_ret].
  destruct lai_data; [|apply world_free_latest_lai].
  destruct (get (Sat.ndvi satellite_data) [0.6]); apply world_free_ret.
Qed.

Lemma world_free_new_FarmBounds farm_bounds :
  world_free (new_FarmBounds farm_bounds).
Proof.
  unfold new_FarmBounds.
  destruct (negb _); [apply world_free_raise|].
  destruct (negb _); [apply world_free_raise|apply world_free_ret].
Qed.


(** *** The forecast generator *)

Lemma lockstep_forecast_day recent_data seasonal_trends base1 base2 day :
  lockstep (fun a b => timeless_weather a = timeless_weather b)
    (forecast_day recent_data seasonal_trends base1 day)
    (forecast_day recent_data seasonal_trends base2 day).
Proof.
  unfold forecast_day.
  eapply lockstep_bind; [apply lockstep_normal|intros ? ? <-].
  eapply lockstep_bind; [apply lockstep_normal|intros ? ? <-].
  eapply lockstep_bind; [apply lockstep_exponential|intros ? ? <-].
  eapply lockstep_bind; [apply lockstep_normal|intros ? ? <-].
  eapply lockstep_bind; [apply lockstep_normal|intros ? ? <-].
  apply lockstep_ret. reflexivity.
Qed.

Lemma lockstep_forecast_loop body1 body2 days :
  (forall day,
      lockstep (fun a b => timeless_weather a = timeless_weather b)
               (body1 day) (body2 day)) ->
  forall acc1 acc2,
    map timeless_weather acc1 = map timeless_weather acc2 ->
    lockstep (fun f1 f2 => map timeless_weather f1 = map timeless_weather f2)
      (forecast_loop body1 days acc1) (forecast_loop body2 days acc2).
Proof.
  intros Hbody. induction days as [|day rest IH]; intros acc1 acc2 Hacc.
  - now apply lockstep_ret.
  - cbn [forecast_loop]. eapply lockstep_bind; [apply Hbody|].
    intros a b Hab. apply IH. rewrite !map_app. cbn [map].
    now rewrite Hacc, Hab.
Qed.

Lemma lockstep_forecast weather_data :
  lockstep (fun f1 f2 => map timeless_weather f1 = map timeless_weather f2)
    (_generate_meteorological_forecast weather_data)
    (_generate_meteorological_forecast weather_data).
Proof.
  unfold _generate_meteorological_forecast, _get_default_weather_forecast.
  destruct weather_data as [|obs rest];
    (eapply lockstep_bind; [apply lockstep_now|intros base1 base2 _]);
    (apply lockstep_forecast_loop; [intros day|reflexivity]).
  - cbv beta zeta. apply lockstep_ret. reflexivity.
  - apply lockstep_forecast_day.
Qed.

(** *** The simulator *)

Lemma map_eq_length {A B : Type} (f : A -> B) (l1 l2 : list A) :
  map f l1 = map f l2 -> length l1 = length l2.
Proof.
  intros H. apply (f_equal (@length B)) in H. now rewrite !length_map in H.
Qed.

Lemma map_eq_last {A B : Type} (f : A -> B) (l1 l2 : list A) (d1 d2 : A) :
  f d1 = f d2 -> map f l1 = map f l2 -> f (last l1 d1) = f (last l2 d2).
Proof.
  revert l2 d1 d2. induction l1 as [|a1 l1 IH]; intros [|a2 l2] d1 d2 Hd H;
    try discriminate H; [exact Hd|].
  cbn [map] in H. rewrite !last_cons. apply IH; congruence.
Qed.

Lemma lockstep_hourly_weather wf1 wf2 hour :
  map timeless_weather wf1 = map timeless_weather wf2 ->
  lockstep (fun a b => timeless_weather a = timeless_weather b)
    (hourly_weather wf1 hour) (hourly_weather wf2 hour).
Proof.
  intros H. unfold hourly_weather.
  rewrite (map_eq_length _ _ _ H).
  destruct (_ <? _)%nat.
  - apply (f_equal (fun l => nth_error l (hour / 24)%nat)) in H.
    rewrite !nth_error_map in H.
    destruct (nth_error wf1 (hour / 24)), (nth_error wf2 (hour / 24));
      cbn [option_map] in H; try discriminate H.
    + apply lockstep_ret. congruence.
    + apply lockstep_raise.
  - destruct wf1 as [|a1 l1], wf2 as [|a2 l2]; try discriminate H.
    + apply lockstep_raise.
    + cbn [map] in H. apply lockstep_ret.
      apply map_eq_last; congruence.
Qed.

Lemma lockstep_hour_body ic wf1 wf2 vp crop_type soil_type hour cur :
  map timeless_weather wf1 = map timeless_weather wf2 ->
  lockstep
    (fun step1 step2 =>
       Step.new_moisture step1 = Step.new_moisture step2
       /\ timeless_state (Step.soil_moisture_data step1)
          = timeless_state (Step.soil_moisture_data step2))
    (hour_body ic wf1 vp crop_type soil_type hour cur)
    (hour_body ic wf2 vp crop_type soil_type hour cur).
Proof.
  intros H. unfold hour_body.
  eapply lockstep_bind; [apply lockstep_hourly_weather, H|].
  intros [d1 t1 h1 r1 v1 s1] [d2 t2 h2 r2 v2 s2] Hw.
  unfold timeless_weather in Hw. cbn in Hw.
  injection Hw as -> -> -> -> ->.
  cbn [WeatherData.temperature WeatherData.humidity WeatherData.rainfall
       WeatherData.wind_speed WeatherData.solar_radiation].
  eapply lockstep_bind;
    [apply lockstep_world_free, world_free_hourly_et0|intros et0 ? <-].
  eapply lockstep_bind.
  { apply lockstep_world_free.
    destruct (Veg.lai vp); [apply world_free_ret|apply world_free_raise]. }
  intros lai ? <-.
  eapply lockstep_bind; [apply lockstep_now|intros now1 now2 _].
  apply lockstep_ret. split; reflexivity.
Qed.

Lemma lockstep_hydro_loop body1 body2 hours :
  (forall hour cur,
      lockstep
        (fun step1 step2 =>
           Step.new_moisture step1 = Step.new_moisture step2
           /\ timeless_state (Step.soil_moisture_data step1)
              = timeless_state (Step.soil_moisture_data step2))
        (body1 hour cur) (body2 hour cur)) ->
  forall cur acc1 acc2,
    map timeless_state acc1 = map timeless_state acc2 ->
    lockstep (fun s1 s2 => map timeless_state s1 = map timeless_state s2)
      (hydro_loop body1 hours cur acc1) (hydro_loop body2 hours cur acc2).
Proof.
  intros Hbody. induction hours as [|hour rest IH]; intros cur acc1 acc2 Hacc.
  - now apply lockstep_ret.
  - cbn [hydro_loop]. eapply lockstep_bind; [apply Hbody|].
    intros step1 step2 [Hnew Hsmd]. rewrite Hnew. apply IH.
    rewrite !map_app. cbn [map]. now rewrite Hacc, Hsmd.
Qed.

Lemma lockstep_run ic wf1 wf2 vp crop_type soil_type :
  map timeless_weather wf1 = map timeless_weather wf2 ->
  lockstep (fun s1 s2 => map timeless_state s1 = map timeless_state s2)
    (_run_hydrological_model_fest_ewb ic wf1 vp crop_type soil_type)
    (_run_hydrological_model_fest_ewb ic wf2 vp crop_type soil_type).
Proof.
  intros H. unfold _run_hydrological_model_fest_ewb.
  apply lockstep_hydro_loop; [|reflexivity].
  intros hour cur. now apply lockstep_hour_body.
Qed.


(** *** The stress analysis *)

Lemma stress_body_timeless tp i f1 f2 acc1 acc2 :
  timeless_state f1 = timeless_state f2 ->
  timeless_acc acc1 = timeless_acc acc2 ->
  timeless_acc (stress_body tp i f1 acc1)
  = timeless_acc (stress_body tp i f2 acc2).
Proof.
  destruct f1 as [d1 m1 fc1 wp1 th1 def1 dep1],
           f2 as [d2 m2 fc2 wp2 th2 def2 dep2],
           acc1 as [ev1 hours1 min1 max1 per1],
           acc2 as [ev2 hours2 min2 max2 per2].
  unfold timeless_state, timeless_acc. cbn. intros Hf Hacc.
  injection Hf as -> -> -> -> -> ->. injection Hacc as Hev -> -> -> ->.
  unfold stress_body. cbn.
  destruct (Qltb m2 (Trigger.critical tp)); cbn;
    [rewrite !map_app, Hev; reflexivity|].
  destruct (Qltb m2 (Trigger.high tp)); cbn;
    [rewrite !map_app, Hev; reflexivity|].
  destruct (Qltb m2 (Trigger.medium tp)); cbn;
    [rewrite !map_app, Hev; reflexivity|].
  destruct (Qltb m2 (Trigger.low tp)); cbn;
    [rewrite !map_app, Hev; reflexivity|].
  now rewrite Hev.
Qed.

Lemma stress_loop_timeless tp l1 :
  forall l2 i acc1 acc2,
    map timeless_state l1 = map timeless_state l2 ->
    timeless_acc acc1 = timeless_acc acc2 ->
    timeless_acc (stress_loop tp i l1 acc1)
    = timeless_acc (stress_loop tp i l2 acc2).
Proof.
  induction l1 as [|f1 l1 IH]; intros [|f2 l2] i acc1 acc2 Hl Hacc;
    try discriminate Hl; [exact Hacc|].
  cbn [map] in Hl. cbn [stress_loop].
  apply IH; [congruence|]. apply stress_body_timeless; congruence.
Qed.

Lemma count_level_timeless level events :
  count_level level (map timeless_stress_event events)
  = count_level level events.
Proof.
  unfold count_level. induction events as [|e events IH]; [reflexivity|].
  cbn [map filter]. cbn [timeless_stress_event StressEvent.stress_level].
  destruct (_ =? _)%string; cbn [length]; congruence.
Qed.

Lemma severity_timeless events :
  _classify_overall_stress_severity (map timeless_stress_event events)
  = _classify_overall_stress_severity events.
Proof.
  unfold _classify_overall_stress_severity.
  rewrite <- !(count_level_timeless _ events).
  destruct events; reflexivity.
Qed.

Lemma lockstep_stress series1 series2 thr :
  map timeless_state series1 = map timeless_state series2 ->
  lockstep (fun a b => timeless_stress a = timeless_stress b)
    (_analyze_stress_conditions_pregi series1 thr)
    (_analyze_stress_conditions_pregi series2 thr).
Proof.
  intros H. unfold _analyze_stress_conditions_pregi.
  rewrite (map_eq_length _ _ _ H).
  pose proof (stress_loop_timeless (Threshold.trigger_points thr)
                series1 series2 0%nat (Acc.mk [] 0 None 0 [])
                (Acc.mk [] 0 None 0 []) H eq_refl) as Hacc.
  destruct (stress_loop _ 0 series1 _) as [ev1 hours1 min1 max1 per1],
           (stress_loop _ 0 series2 _) as [ev2 hours2 min2 max2 per2].
  unfold timeless_acc in Hacc. cbn in Hacc.
  injection Hacc as Hev -> -> -> ->. cbn.
  eapply lockstep_bind;
    [apply lockstep_world_free, world_free_pydiv|intros fraction ? <-].
  apply lockstep_ret. unfold timeless_stress. cbn.
  rewrite <- (severity_timeless ev1), <- (severity_timeless ev2), Hev.
  unfold _determine_irrigation_urgency.
  rewrite (map_eq_length _ _ _ Hev). reflexivity.
Qed.

(** *** The schedule generator *)

Lemma lockstep_plan stress1 stress2 requirements irrigation_system wf1 wf2 :
  Stress.irrigation_urgency stress1 = Stress.irrigation_urgency stress2 ->
  lockstep
    (fun a b => map timeless_irrigation_event a
                = map timeless_irrigation_event b)
    (_plan_irrigation_events stress1 requirements irrigation_system wf1)
    (_plan_irrigation_events stress2 requirements irrigation_system wf2).
Proof.
  intros H. unfold _plan_irrigation_events. rewrite H.
  destruct (_ =? "critical")%string.
  { eapply lockstep_bind; [apply lockstep_now|intros ? ? _].
    now apply lockstep_ret. }
  destruct (_ =? "high")%string.
  { eapply lockstep_bind; [apply lockstep_now|intros ? ? _].
    eapply lockstep_bind; [apply lockstep_now|intros ? ? _].
    now apply lockstep_ret. }
  destruct (_ =? "medium")%string.
  { eapply lockstep_bind; [apply lockstep_now|intros ? ? _].
    eapply lockstep_bind; [apply lockstep_now|intros ? ? _].
    now apply lockstep_ret. }
  eapply lockstep_bind; [apply lockstep_now|intros ? ? _].
  now apply lockstep_ret.
Qed.

Lemma costs_timeless events irrigation_system :
  _calculate_irrigation_costs (map timeless_irrigation_event events)
    irrigation_system
  = _calculate_irrigation_costs events irrigation_system.
Proof.
  unfold _calculate_irrigation_costs. now rewrite !map_map.
Qed.

Lemma lockstep_schedule stress1 stress2 ic wf1 wf2 crop_type soil_type
    irrigation_system :
  timeless_stress stress1 = timeless_stress stress2 ->
  lockstep
    (fun a b => timeless_recommendation a = timeless_recommendation b)
    (_generate_irrigation_schedule stress1 ic wf1 crop_type soil_type
       irrigation_system)
    (_generate_irrigation_schedule stress2 ic wf2 crop_type soil_type
       irrigation_system).
Proof.
  destruct stress1 as [ev1 hours1 pct1 min1 max1 per1 trig1 urg1 sev1],
           stress2 as [ev2 hours2 pct2 min2 max2 per2 trig2 urg2 sev2].
  unfold timeless_stress. cbn. intros H.
  injection H as Hev -> -> -> -> -> -> -> ->.
  unfold _generate_irrigation_schedule, _calculate_irrigation_requirements,
    _determine_optimal_timing.
  cbn [Stress.irrigation_triggered Stress.irrigation_urgency
       Stress.stress_severity Stress.stress_hours Stress.max_deficit].
  destruct trig2; cbn [negb]; [|now apply lockstep_ret].
  eapply lockstep_bind;
    [now apply lockstep_plan|intros events1 events2 Hevents].
  eapply lockstep_bind; [apply lockstep_now|intros ? ? _].
  apply lockstep_ret.
  rewrite <- (costs_timeless events1), <- (costs_timeless events2), Hevents.
  unfold timeless_recommendation, timeless_schedule.
  cbn [IrrigationRecommendation.needs_irrigation
       IrrigationRecommendation.confidence IrrigationRecommendation.reasoning
       IrrigationRecommendation.water_amount
       IrrigationRecommendation.irrigation_method
       IrrigationRecommendation.timing IrrigationRecommendation.schedule
       IrrigationRecommendation.cost_estimate
       IrrigationRecommendation.water_savings
       IrrigationRecommendation.yield_impact
       IrrigationRecommendation.environmental_impact option_map
       IrrigationSchedule.recommended_events
       IrrigationSchedule.total_water_needed IrrigationSchedule.urgency_level
       IrrigationSchedule.next_irrigation_time
       IrrigationSchedule.monitoring_frequency].
  rewrite Hevents.
  destruct events1, events2; try discriminate Hevents; reflexivity.
Qed.


(** *** The orchestrating call *)

Lemma lockstep_analysis_body start1 start2 lai_data weather_data
    satellite_data farm_bounds crop_type soil_type irrigation_system :
  lockstep (fun a b => timeless_response a = timeless_response b)
    (analysis_body start1 lai_data weather_data satellite_data farm_bounds
       crop_type soil_type irrigation_system)
    (analysis_body start2 lai_data weather_data satellite_data farm_bounds
       crop_type soil_type irrigation_system).
Proof.
  unfold analysis_body.
  eapply lockstep_bind;
    [apply lockstep_world_free, world_free_initial_conditions
    |intros ic ? <-].
  eapply lockstep_bind;
    [apply lockstep_world_free, world_free_vegetation_parameters
    |intros vp ? <-].
  cbv zeta.
  eapply lockstep_bind; [apply lockstep_forecast|intros wf1 wf2 Hwf].
  eapply lockstep_bind; [apply lockstep_run, Hwf|intros s1 s2 Hs].
  eapply lockstep_bind; [apply lockstep_stress, Hs|intros st1 st2 Hst].
  eapply lockstep_bind; [apply lockstep_schedule, Hst|intros r1 r2 Hr].
  eapply lockstep_bind;
    [apply lockstep_world_free, world_free_new_FarmBounds|intros b ? <-].
  eapply lockstep_bind; [apply lockstep_now|intros f1 f2 _].
  eapply lockstep_bind; [apply lockstep_uuid4|intros id1 id2 _].
  eapply lockstep_bind; [apply lockstep_now|intros d1 d2 _].
  apply lockstep_ret.
  destruct st1 as [ev1 hours1 pct1 min1 max1 per1 trig1 urg1 sev1],
           st2 as [ev2 hours2 pct2 min2 max2 per2 trig2 urg2 sev2].
  unfold timeless_stress in Hst. cbn in Hst.
  injection Hst as Hev -> -> -> -> -> -> -> ->.
  destruct r1 as [need1 conf1 text1 amount1 method1 timing1 sched1 cost1
                  sav1 yield1 env1],
           r2 as [need2 conf2 text2 amount2 method2 timing2 sched2 cost2
                  sav2 yield2 env2].
  unfold timeless_recommendation in Hr. cbn in Hr.
  injection Hr as -> -> -> -> -> -> Hsched -> -> -> ->.
  unfold timeless_response, _analyze_water_efficiency,
    _calculate_model_accuracy.
  cbn -[timeless_schedule]. rewrite Hs, Hwf, Hev, Hsched.
  rewrite (map_eq_length _ _ _ Hev).
  destruct sched1 as [sched1|], sched2 as [sched2|];
    try discriminate Hsched; [|reflexivity].
  cbn in Hsched. injection Hsched as _ _ _ Hnext _.
  now rewrite Hnext.
Qed.

(** The orchestrating call never raises. *)
Lemma analyze_returns lai_data weather_data satellite_data farm_bounds
    crop_type soil_type irrigation_system w :
  exists response w',
    analyze_smart_irrigation lai_data weather_data satellite_data farm_bounds
      crop_type soil_type irrigation_system w = (Ok response, w').
Proof.
  unfold analyze_smart_irrigation, bind, try_except.
  rewrite datetime_now_run.
  destruct (analysis_body _ _ _ _ _ _ _ _ _) as [[built|e] w1].
  - now exists built, w1.
  - cbn. eexists. eexists. reflexivity.
Qed.

(** C4 (as amended).  The forecast generator takes no generator and no seed:
    its noise is drawn from the process-wide random state.  Two invocations
    of the analysis with identical arguments that start from the same random
    state return responses that are identical up to the entries read from
    the clock or the entropy (identifier, timestamps, dates, processing
    time), and leave the same random state. *)
Theorem C4_same_random_state_same_outputs lai_data weather_data
    satellite_data farm_bounds crop_type soil_type irrigation_system w1 w2 :
  same_rng w1 w2 ->
  exists response1 w1' response2 w2',
    analyze_smart_irrigation lai_data weather_data satellite_data farm_bounds
      crop_type soil_type irrigation_system w1 = (Ok response1, w1')
    /\ analyze_smart_irrigation lai_data weather_data satellite_data
         farm_bounds crop_type soil_type irrigation_system w2
       = (Ok response2, w2')
    /\ timeless_response response1 = timeless_response response2
    /\ same_rng w1' w2'.
Proof.
  intros Hw.
  assert (H : lockstep (fun a b => timeless_response a = timeless_response b)
                (analyze_smart_irrigation lai_data weather_data
                   satellite_data farm_bounds crop_type soil_type
                   irrigation_system)
                (analyze_smart_irrigation lai_data weather_data
                   satellite_data farm_bounds crop_type soil_type
                   irrigation_system)).
  { unfold analyze_smart_irrigation.
    eapply lockstep_bind; [apply lockstep_now|intros start1 start2 _].
    apply lockstep_try; [apply lockstep_analysis_body|intros e].
    unfold _get_fallback_irrigation_recommendation.
    eapply lockstep_bind; [apply lockstep_now|intros ? ? _].
    eapply lockstep_bind; [apply lockstep_now|intros ? ? _].
    now apply lockstep_ret. }
  specialize (H w1 w2 Hw).
  destruct (analyze_returns lai_data weather_data satellite_data farm_bounds
              crop_type soil_type irrigation_system w1) as (r1 & w1' & E1).
  destruct (analyze_returns lai_data weather_data satellite_data farm_bounds
              crop_type soil_type irrigation_system w2) as (r2 & w2' & E2).
  rewrite E1, E2 in H. exists r1, w1', r2, w2'. tauto.
Qed.


(** * Further properties *)

(** Drops the math functions from the context of a proof whose statement
    does not mention them. *)
Ltac forget_math :=
  try clear math_sin; try clear math_exp; try clear math_pi.

(** ** More numeric facts *)

Lemma py_min_le_l (a b : Q) : py_min a b <= a.
Proof. destruct (py_min_cases a b) as [[H ->]|[H ->]]; lra. Qed.

Lemma py_min_le_r (a b : Q) : py_min a b <= b.
Proof. destruct (py_min_cases a b) as [[H ->]|[H ->]]; lra. Qed.

Lemma py_max_upper (a b : Q) : b <= py_max a b.
Proof. destruct (py_max_cases a b) as [[H ->]|[H ->]]; lra. Qed.

Lemma py_min_mono (c x y : Q) : x <= y -> py_min c x <= py_min c y.
Proof.
  intros H.
  destruct (py_min_cases c x) as [[H1 ->]|[H1 ->]],
           (py_min_cases c y) as [[H2 ->]|[H2 ->]]; lra.
Qed.

Lemma py_max_mono (c x y : Q) : x <= y -> py_max c x <= py_max c y.
Proof.
  intros H.
  destruct (py_max_cases c x) as [[H1 ->]|[H1 ->]],
           (py_max_cases c y) as [[H2 ->]|[H2 ->]]; lra.
Qed.

Lemma Qsum_from (l : list Q) (a : Q) : fold_left Qplus l a == a + Qsum l.
Proof.
  unfold Qsum. revert a. induction l as [|x l IH]; intros a; cbn.
  - lra.
  - rewrite IH, (IH (0 + x)). lra.
Qed.

Lemma Qsum_cons (x : Q) (l : list Q) : Qsum (x :: l) == x + Qsum l.
Proof. unfold Qsum at 1. cbn. rewrite Qsum_from. lra. Qed.

Lemma Qnat_pos (n : nat) : (0 < n)%nat -> 0 < Qnat n.
Proof.
  intros H. unfold Qnat. change 0 with (inject_Z 0).
  rewrite <- Zlt_Qlt. lia.
Qed.

Lemma Qnat_nonneg (n : nat) : 0 <= Qnat n.
Proof.
  unfold Qnat. change 0 with (inject_Z 0). rewrite <- Zle_Qle. lia.
Qed.

Lemma Qnat_le (n m : nat) : (n <= m)%nat -> Qnat n <= Qnat m.
Proof. intros H. unfold Qnat. rewrite <- Zle_Qle. lia. Qed.

Lemma Qnat_S (n : nat) : Qnat (S n) == Qnat n + 1.
Proof.
  unfold Qnat. rewrite Nat2Z.inj_succ, <- Z.add_1_r, inject_Z_plus.
  reflexivity.
Qed.

Lemma Qsum_bounds (lo hi : Q) (l : list Q) :
  Forall (fun x => lo <= x /\ x <= hi) l ->
  lo * Qnat (length l) <= Qsum l /\ Qsum l <= hi * Qnat (length l).
Proof.
  induction 1 as [|x l [Hlo Hhi] _ [IH1 IH2]].
  - unfold Qsum, Qnat. cbn. change (inject_Z 0) with 0. split; lra.
  - rewrite Qsum_cons. cbn [length]. rewrite Qnat_S. split; lra.
Qed.

(** The mean of a non-empty list lies between any bounds of its items. *)
Lemma np_mean_bounds (lo hi : Q) (l : list Q) :
  l <> [] -> Forall (fun x => lo <= x /\ x <= hi) l ->
  lo <= np_mean l /\ np_mean l <= hi.
Proof.
  intros Hne Hall. destruct (Qsum_bounds lo hi l Hall) as [H1 H2].
  assert (Hpos : 0 < Qnat (length l)).
  { apply Qnat_pos. destruct l; [contradiction|cbn; lia]. }
  unfold np_mean. fold (Qnat (length l)). split.
  - apply Qle_shift_div_l; assumption.
  - apply Qle_shift_div_r; assumption.
Qed.

(** ** The days since the last rain and the growing degree days *)

Lemma days_since_rain_loop_spec (l : list Obs.t) (days : nat) :
  exists k,
    days_since_rain_loop l days = (days + k)%nat
    /\ (k <= length l)%nat
    /\ Forall (fun day => get (Obs.rainfall day) 0 <= 5) (firstn k l)
    /\ ((k < length l)%nat ->
        5 < get (Obs.rainfall (nth k l empty_obs)) 0).
Proof.
  revert days. induction l as [|day l IH]; intros days.
  - exists 0%nat. cbn. repeat split; [lia|lia|constructor|lia].
  - cbn [days_since_rain_loop].
    destruct (Qltb 5 (get (Obs.rainfall day) 0)) eqn:E.
    + exists 0%nat. cbn. repeat split; [lia|lia|constructor|].
      intros _. now apply Qltb_true.
    + destruct (IH (S days)) as (k & Hk & Hlen & Hdry & Hwet).
      exists (S k). cbn [length firstn nth].
      repeat split; [lia|lia| |intros H; apply Hwet; lia].
      constructor; [now apply Qltb_false|exact Hdry].
Qed.

(** X1.  [_calculate_days_since_rain] counts the days at the end of the
    history whose rainfall (0 when the entry is absent) is at most 5 mm, and
    stops at 30: the result is at most 30 and at most the length of the
    history, the last [days] days are all dry, and unless the cap or the
    start of the history was reached the day before them had more than
    5 mm. *)
Theorem days_since_rain_counts_trailing_dry_days (weather_data : list Obs.t) :
  let days := _calculate_days_since_rain weather_data in
  (days <= 30)%nat
  /\ (days <= length weather_data)%nat
  /\ Forall (fun day => get (Obs.rainfall day) 0 <= 5)
            (last_n days weather_data)
  /\ ((days < 30)%nat -> (days < length weather_data)%nat ->
      5 < get (Obs.rainfall
                 (nth (length weather_data - S days) weather_data empty_obs))
              0).
Proof.
  forget_math.
  cbv zeta. unfold _calculate_days_since_rain.
  destruct (days_since_rain_loop_spec (rev weather_data) 0)
    as (k & Hk & Hlen & Hdry & Hwet).
  rewrite Hk, Nat.add_0_l. rewrite length_rev in Hlen, Hwet.
  split; [apply Nat.le_min_r|]. split; [lia|]. split.
  - unfold last_n.
    rewrite firstn_rev in Hdry. apply Forall_rev in Hdry.
    rewrite rev_involutive in Hdry.
    assert (Hsplit : skipn (length weather_data - k) weather_data
                     = firstn (k - Nat.min k 30)
                         (skipn (length weather_data - k) weather_data)
                       ++ skipn (length weather_data - Nat.min k 30)
                            weather_data).
    { rewrite <- (firstn_skipn (k - Nat.min k 30)
                    (skipn (length weather_data - k) weather_data)) at 1.
      f_equal. rewrite skipn_skipn. f_equal. lia. }
    rewrite Hsplit in Hdry. apply Forall_app in Hdry. tauto.
  - intros H30 Hk'.
    assert (Nat.min k 30 = k) as E by lia. rewrite E in *.
    specialize (Hwet Hk'). rewrite rev_nth in Hwet by exact Hk'.
    exact Hwet.
Qed.

Lemma growing_degree_days_from (l : list Obs.t) (a : Q) :
  fold_left
    (fun gdd day =>
       if Qltb 10 (get (Obs.temperature day) 20)
       then gdd + (get (Obs.temperature day) 20 - 10) else gdd) l a
  == a + _calculate_growing_degree_days l.
Proof.
  unfold _calculate_growing_degree_days. cbv zeta.
  revert a. induction l as [|day l IH]; intros a; cbn [fold_left].
  - lra.
  - rewrite IH. symmetry. rewrite IH. symmetry.
    destruct (Qltb 10 (get (Obs.temperature day) 20)); lra.
Qed.

Lemma growing_degree_days_cons (day : Obs.t) (l : list Obs.t) :
  _calculate_growing_degree_days (day :: l)
  == py_max 0 (get (Obs.temperature day) 20 - 10)
     + _calculate_growing_degree_days l.
Proof.
  unfold _calculate_growing_degree_days at 1. cbv zeta. cbn [fold_left].
  rewrite growing_degree_days_from.
  destruct (Qltb 10 (get (Obs.temperature day) 20)) eqn:E.
  - apply Qltb_true in E.
    destruct (py_max_cases 0 (get (Obs.temperature day) 20 - 10))
      as [[H ->]|[H ->]]; lra.
  - apply Qltb_false in E.
    destruct (py_max_cases 0 (get (Obs.temperature day) 20 - 10))
      as [[H ->]|[H ->]]; lra.
Qed.

Lemma growing_degree_days_nonneg (l : list Obs.t) :
  0 <= _calculate_growing_degree_days l.
Proof.
  induction l as [|day l IH].
  - unfold _calculate_growing_degree_days. cbn. lra.
  - rewrite growing_degree_days_cons.
    pose proof (py_max_lower 0 (get (Obs.temperature day) 20 - 10)). lra.
Qed.


(** ** The initial conditions *)

(** X3.  The initial conditions that [_get_initial_conditions_fest_ewb]
    returns, computed or default, are consistent: the world is untouched,
    the field capacity and the wilting point are those of the soil table
    (not of the crop table), the soil water content lies between them, the
    canopy cover is at most 1, the days since rain at most 30, the growing
    degree days are not negative and no stress threshold is set. *)
Theorem initial_conditions_are_consistent lai_data weather_data
    satellite_data crop_type soil_type w ic w' :
  _get_initial_conditions_fest_ewb lai_data weather_data satellite_data
    crop_type soil_type w = (Ok ic, w') ->
  let soil_params := get (soil_types soil_type) soil_loamy in
  w' = w
  /\ IC.field_capacity ic = Soil.field_capacity soil_params
  /\ IC.wilting_point ic = Soil.wilting_point soil_params
  /\ IC.wilting_point ic <= IC.soil_water_content ic
  /\ IC.soil_water_content ic <= IC.field_capacity ic
  /\ IC.canopy_cover ic <= 1
  /\ (IC.days_since_rain ic <= 30)%nat
  /\ 0 <= IC.growing_degree_days ic
  /\ IC.stress_threshold ic = None.
Proof.
  intros H. cbv zeta.
  pose proof (initial_moisture_bounds _ _ _ _ _ _ _ _ H) as [Hlo Hhi].
  cbv zeta in Hlo, Hhi.
  assert (Hw : w' = w).
  { rewrite (world_free_run _ w
               (world_free_initial_conditions lai_data weather_data
                  satellite_data crop_type soil_type)) in H.
    now injection H. }
  split; [exact Hw|].
  assert (Hdefault :
    forall ic0, ic0 = _get_default_initial_conditions crop_type soil_type ->
    IC.field_capacity ic0
    = Soil.field_capacity (get (soil_types soil_type) soil_loamy)
    /\ IC.wilting_point ic0
       = Soil.wilting_point (get (soil_types soil_type) soil_loamy)
    /\ IC.canopy_cover ic0 <= 1
    /\ (IC.days_since_rain ic0 <= 30)%nat
    /\ 0 <= IC.growing_degree_days ic0
    /\ IC.stress_threshold ic0 = None).
  { intros ic0 ->. unfold _get_default_initial_conditions. cbn.
    repeat split; try reflexivity; try lia; discriminate. }
  unfold _get_initial_conditions_fest_ewb in H.
  destruct weather_data as [|day weather_data].
  { injection H as <- _.
    destruct (Hdefault _ eq_refl) as (-> & -> & ? & ? & ? & ?).
    repeat split; assumption. }
  destruct lai_data as [|record lai_data].
  { injection H as <- _.
    destruct (Hdefault _ eq_refl) as (-> & -> & ? & ? & ? & ?).
    repeat split; assumption. }
  inv_bind H. inv_bind H. unfold ret in H. injection H as <- _.
  cbn [IC.soil_water_content IC.field_capacity IC.wilting_point
       IC.canopy_cover IC.days_since_rain IC.growing_degree_days
       IC.stress_threshold] in *.
  repeat split; try assumption.
  - pose proof (py_min_le_l 1.0 (a0 / 3.0)). lra.
  - apply Nat.le_min_r.
  - apply growing_degree_days_nonneg.
Qed.

(** ** The forecast generator: ranges, effects and errors *)

Lemma np_random_normal_run loc scale w :
  0 <= scale ->
  np_random_normal loc scale w
  = (Ok (loc + scale * draws w (draw_pos w)), advance w).
Proof.
  intros H. unfold np_random_normal.
  apply Qltb_false in H. rewrite H. reflexivity.
Qed.

Lemma np_random_exponential_run scale w :
  0 <= scale ->
  np_random_exponential scale w
  = (Ok (scale * Qabs (draws w (draw_pos w))), advance w).
Proof.
  intros H. unfold np_random_exponential.
  apply Qltb_false in H. rewrite H. reflexivity.
Qed.

Lemma np_random_normal_raises loc scale w :
  scale < 0 -> np_random_normal loc scale w = (Raise ValueError, w).
Proof.
  intros H. unfold np_random_normal.
  apply Qltb_true in H. rewrite H. reflexivity.
Qed.

Lemma np_random_exponential_raises scale w :
  scale < 0 -> np_random_exponential scale w = (Raise ValueError, w).
Proof.
  intros H. unfold np_random_exponential.
  apply Qltb_true in H. rewrite H. reflexivity.
Qed.

Lemma forecast_day_ranges recent_data seasonal_trends base_date day w fw w' :
  forecast_day recent_data seasonal_trends base_date day w = (Ok fw, w') ->
  within_forecast_ranges fw.
Proof.
  intros H. apply forecast_day_ok in H as (-> & _).
  unfold within_forecast_ranges.
  cbn [WeatherData.humidity WeatherData.rainfall WeatherData.wind_speed
       WeatherData.solar_radiation].
  repeat split.
  - apply (py_round_ge _ 20 1 200); [reflexivity|]. apply py_max_lower.
  - apply (py_round_le _ 100 1 1000); [reflexivity|].
    apply clamp_bounds. discriminate.
  - apply (py_round_ge _ 0 1 0); [reflexivity|]. apply py_max_lower.
  - apply (py_round_ge _ 0.5 1 5); [reflexivity|]. apply py_max_lower.
  - apply (py_round_ge _ 5 1 50); [reflexivity|]. apply py_max_lower.
Qed.

(** X4.  Whatever the history and the draws, a forecast that the generator
    returns (generated or default) has three days, each with a humidity
    between 20 and 100, a rainfall that is not negative, a wind speed of at
    least 0.5 and a solar radiation of at least 5. *)
Theorem forecast_values_in_range weather_data w forecast w' :
  _generate_meteorological_forecast weather_data w = (Ok forecast, w') ->
  length forecast = 3%nat /\ Forall within_forecast_ranges forecast.
Proof.
  intros H. unfold _generate_meteorological_forecast in H.
  destruct weather_data as [|obs rest].
  - unfold _get_default_weather_forecast in H.
    inv_bind H. cbn [seq forecast_loop] in H. unfold bind, ret in H.
    injection H as <- _. split; [reflexivity|].
    repeat constructor; cbn; discriminate.
  - inv_bind H. cbn [seq forecast_loop] in H.
    inv_bind H. apply forecast_day_ranges in E0.
    inv_bind H. apply forecast_day_ranges in E1.
    inv_bind H. apply forecast_day_ranges in E2.
    unfold ret in H. injection H as <- _. split; [reflexivity|].
    cbn [app]. repeat (apply Forall_cons; [assumption|]). apply Forall_nil.
Qed.



Ltac draw_ok :=
  unfold bind at 1;
  first [rewrite np_random_normal_run by lra
        |rewrite np_random_exponential_run by lra];
  cbv beta iota.

Lemma forecast_day_total recent_data seasonal_trends base_date day w :
  0 <= np_mean (map (fun d => get (Obs.rainfall d) 0) recent_data) ->
  0 <= np_mean (map (fun d => get (Obs.wind_speed d) 2) recent_data) ->
  0 <= np_mean (map (fun d => get (Obs.solar_radiation d) 20) recent_data) ->
  exists fw w',
    forecast_day recent_data seasonal_trends base_date day w = (Ok fw, w').
Proof.
  intros Hrain Hwind Hsolar. unfold forecast_day. cbv zeta.
  do 5 draw_ok. unfold ret. eexists. eexists. reflexivity.
Qed.

Lemma forecast_day_raises recent_data seasonal_trends base_date day w :
  np_mean (map (fun d => get (Obs.rainfall d) 0) recent_data) < 0
  \/ np_mean (map (fun d => get (Obs.wind_speed d) 2) recent_data) < 0
  \/ np_mean (map (fun d => get (Obs.solar_radiation d) 20) recent_data) < 0 ->
  exists w',
    forecast_day recent_data seasonal_trends base_date day w
    = (Raise ValueError, w').
Proof.
  intros H. unfold forecast_day. cbv zeta. do 2 draw_ok.
  destruct (Qlt_le_dec
              (np_mean (map (fun d => get (Obs.rainfall d) 0) recent_data)) 0)
    as [Hrain|Hrain].
  { unfold bind at 1. rewrite np_random_exponential_raises by lra.
    eexists. reflexivity. }
  draw_ok.
  destruct (Qlt_le_dec
              (np_mean (map (fun d => get (Obs.wind_speed d) 2) recent_data))
              0) as [Hwind|Hwind].
  { unfold bind at 1. rewrite np_random_normal_raises by lra.
    eexists. reflexivity. }
  draw_ok.
  unfold bind at 1. rewrite np_random_normal_raises by lra.
  eexists. reflexivity.
Qed.

(** X6.  The generator returns a forecast of three days when the history is
    empty (the default forecast) and when the means of the rainfall, of the
    wind speed and of the solar radiation over the last fourteen days are
    not negative. *)
Theorem forecast_returns_on_nonnegative_means weather_data w :
  weather_data = []
  \/ (0 <= recent_mean (fun d => get (Obs.rainfall d) 0) weather_data
      /\ 0 <= recent_mean (fun d => get (Obs.wind_speed d) 2) weather_data
      /\ 0 <= recent_mean (fun d => get (Obs.solar_radiation d) 20)
                weather_data) ->
  exists forecast w',
    _generate_meteorological_forecast weather_data w = (Ok forecast, w')
    /\ length forecast = 3%nat.
Proof.
  intros H. unfold _generate_meteorological_forecast.
  assert (Hdefault : exists forecast w',
            _get_default_weather_forecast w = (Ok forecast, w')
            /\ length forecast = 3%nat).
  { unfold _get_default_weather_forecast, bind.
    rewrite datetime_now_run. cbn [seq forecast_loop]. unfold bind, ret.
    eexists. eexists. split; reflexivity. }
  destruct weather_data as [|obs rest]; [exact Hdefault|].
  destruct H as [H|(Hrain & Hwind & Hsolar)]; [discriminate H|].
  unfold recent_mean in *.
  set (history := obs :: rest) in *.
  unfold bind at 1. rewrite datetime_now_run. cbv beta iota.
  cbn [seq forecast_loop].
  unfold bind at 1.
  destruct (forecast_day_total (last_n 14 history)
              (_analyze_seasonal_patterns history)
              (clock w (clock_pos w)) 0 (tick w) Hrain Hwind Hsolar)
    as (fw0 & w0 & ->).
  unfold bind at 1.
  destruct (forecast_day_total (last_n 14 history)
              (_analyze_seasonal_patterns history)
              (clock w (clock_pos w)) 1 w0 Hrain Hwind Hsolar)
    as (fw1 & w1 & ->).
  unfold bind at 1.
  destruct (forecast_day_total (last_n 14 history)
              (_analyze_seasonal_patterns history)
              (clock w (clock_pos w)) 2 w1 Hrain Hwind Hsolar)
    as (fw2 & w2 & ->).
  unfold ret. eexists. eexists. split; reflexivity.
Qed.

(** X7.  With a history whose mean rainfall, mean wind speed or mean solar
    radiation over the last fourteen days is negative the generator raises
    [ValueError]: numpy refuses the negative scale of the first day's
    draw. *)
Theorem forecast_raises_on_a_negative_mean weather_data w :
  weather_data <> [] ->
  recent_mean (fun d => get (Obs.rainfall d) 0) weather_data < 0
  \/ recent_mean (fun d => get (Obs.wind_speed d) 2) weather_data < 0
  \/ recent_mean (fun d => get (Obs.solar_radiation d) 20) weather_data < 0 ->
  exists w',
    _generate_meteorological_forecast weather_data w = (Raise ValueError, w').
Proof.
  intros Hne H. unfold _generate_meteorological_forecast.
  destruct weather_data as [|obs rest]; [contradiction|].
  unfold recent_mean in H. set (history := obs :: rest) in *.
  unfold bind at 1. rewrite datetime_now_run. cbv beta iota.
  cbn [seq forecast_loop]. unfold bind at 1.
  destruct (forecast_day_raises (last_n 14 history)
              (_analyze_seasonal_patterns history)
              (clock w (clock_pos w)) 0 (tick w) H) as (w' & ->).
  eexists. reflexivity.
Qed.

(** ** The simulator: monotonicity and the days it reads *)

Lemma deep_percolation_lipschitz (cur1 cur2 fc k : Q) :
  0 < k -> cur1 <= cur2 ->
  _calculate_deep_percolation cur2 fc k - _calculate_deep_percolation cur1 fc k
  <= (cur2 - cur1) * 1000.
Proof.
  intros Hk Hle. unfold _calculate_deep_percolation.
  destruct (Qle_bool cur1 fc) eqn:E1, (Qle_bool cur2 fc) eqn:E2.
  - lra.
  - apply Qle_bool_iff in E1.
    pose proof (py_min_le_l ((cur2 - fc) * 1000) (k / 24)). lra.
  - apply Qle_bool_iff in E2.
    assert (fc < cur1).
    { apply Qnot_le_lt. intros H. apply Qle_bool_iff in H. congruence. }
    lra.
  - destruct (py_min_cases ((cur2 - fc) * 1000) (k / 24)) as [[H2 ->]|[H2 ->]],
             (py_min_cases ((cur1 - fc) * 1000) (k / 24)) as [[H1 ->]|[H1 ->]];
      lra.
Qed.

Lemma rooting_depth_at_least_one (crop_type : string) :
  1 <= Crop.rooting_depth (get (crop_parameters crop_type) crop_asparagus).
Proof.
  destruct (crop_cases crop_type) as [E|[E|E]]; cbv zeta in E; rewrite E;
    discriminate.
Qed.

Lemma Forall2_nth_error_both {A : Type} (R : A -> A -> Prop) (l1 l2 : list A) :
  Forall2 R l1 l2 ->
  forall n a b, nth_error l1 n = Some a -> nth_error l2 n = Some b -> R a b.
Proof.
  induction 1 as [|x y l1 l2 Hxy _ IH]; intros n a b Ha Hb.
  - destruct n; discriminate Ha.
  - destruct n as [|n]; cbn in Ha, Hb.
    + injection Ha as <-. injection Hb as <-. exact Hxy.
    + eapply IH; eassumption.
Qed.

Lemma Forall2_last {A : Type} (R : A -> A -> Prop) (l1 l2 : list A) :
  Forall2 R l1 l2 -> forall x y, R x y -> R (last l1 x) (last l2 y).
Proof.
  induction 1 as [|a b l1 l2 Hab _ IH]; intros x y Hxy; [exact Hxy|].
  rewrite !last_cons. now apply IH.
Qed.

Lemma hourly_weather_related (R : WeatherData.t -> WeatherData.t -> Prop)
    wf1 wf2 hour w1 w2 d1 d2 w1' w2' :
  Forall2 R wf1 wf2 ->
  hourly_weather wf1 hour w1 = (Ok d1, w1') ->
  hourly_weather wf2 hour w2 = (Ok d2, w2') ->
  R d1 d2.
Proof.
  intros Hwf H1 H2. unfold hourly_weather in H1, H2.
  rewrite <- (Forall2_length Hwf) in H2.
  destruct (hour / 24 <? length wf1)%nat.
  - destruct (nth_error wf1 (hour / 24)) as [a|] eqn:Ea; [|discriminate H1].
    destruct (nth_error wf2 (hour / 24)) as [b|] eqn:Eb; [|discriminate H2].
    injection H1 as <- _. injection H2 as <- _.
    eapply Forall2_nth_error_both; eassumption.
  - destruct Hwf as [|a b l1 l2 Hab Hl]; [discriminate H1|].
    cbn in H1, H2. injection H1 as <- _. injection H2 as <- _.
    now apply Forall2_last.
Qed.

Lemma hour_body_monotone ic1 ic2 wf1 wf2 vp crop_type soil_type hour
    cur1 cur2 w1 w2 step1 step2 w1' w2' :
  Forall2 no_drier wf1 wf2 ->
  cur1 <= cur2 ->
  hour_body ic1 wf1 vp crop_type soil_type hour cur1 w1 = (Ok step1, w1') ->
  hour_body ic2 wf2 vp crop_type soil_type hour cur2 w2 = (Ok step2, w2') ->
  Step.new_moisture step1 <= Step.new_moisture step2
  /\ SoilMoistureData.soil_moisture (Step.soil_moisture_data step1)
     <= SoilMoistureData.soil_moisture (Step.soil_moisture_data step2).
Proof.
  intros Hwf Hcur H1 H2.
  assert (Hnew : Step.new_moisture step1 <= Step.new_moisture step2).
  { unfold hour_body in H1, H2.
    inv_bind H1. inv_bind H2.
    destruct (hourly_weather_related _ _ _ _ _ _ _ _ _ _ Hwf E E0)
      as (Ht & Hh & Hs & Hr).
    inv_bind H1. inv_bind H2.
    rewrite <- Ht, <- Hh, <- Hs in E2.
    unfold _calculate_hourly_et0, bind in E1, E2.
    match type of E1 with
    | context [_calculate_reference_et_penman_monteith ?t ?h ?s _] =>
        destruct (world_free_pm t h s) as [r Hr0]
    end.
    rewrite Hr0 in E1, E2. destruct r as [et0|e]; [|discriminate E1].
    unfold ret in E1, E2. injection E1 as <- _. injection E2 as <- _.
    destruct (Veg.lai vp) as [lai|]; [|discriminate H1].
    unfold bind, ret in H1, H2. cbn [datetime_now] in H1, H2.
    injection H1 as <- _. injection H2 as <- _.
    cbn [Step.new_moisture].
    destruct (soil_facts soil_type) as (_ & _ & _ & Hk & _).
    pose proof (rooting_depth_at_least_one crop_type) as Hdepth.
    set (soil_params := get (soil_types soil_type) soil_loamy) in *.
    set (depth := Crop.rooting_depth
                    (get (crop_parameters crop_type) crop_asparagus)) in *.
    pose proof (deep_percolation_lipschitz cur1 cur2
                  (Soil.field_capacity soil_params)
                  (Soil.hydraulic_conductivity soil_params) Hk Hcur) as Hp.
    set (p1 := _calculate_deep_percolation cur1 _ _) in *.
    set (p2 := _calculate_deep_percolation cur2 _ _) in *.
    set (crop_et := et0 / 24 * _get_crop_coefficient crop_type lai).
    assert (Hinf : py_min (WeatherData.rainfall a / 24)
                          (Soil.infiltration_rate soil_params)
                   <= py_min (WeatherData.rainfall a0 / 24)
                             (Soil.infiltration_rate soil_params)).
    { assert (Hdiv : WeatherData.rainfall a / 24
                     <= WeatherData.rainfall a0 / 24).
      { unfold Qdiv. apply Qmult_le_compat_r; [exact Hr|discriminate]. }
      destruct (py_min_cases (WeatherData.rainfall a / 24)
                  (Soil.infiltration_rate soil_params)) as [[Ha ->]|[Ha ->]],
               (py_min_cases (WeatherData.rainfall a0 / 24)
                  (Soil.infiltration_rate soil_params)) as [[Hb ->]|[Hb ->]];
        lra. }
    set (i1 := py_min (WeatherData.rainfall a / 24) _) in *.
    set (i2 := py_min (WeatherData.rainfall a0 / 24) _) in *.
    apply py_max_mono, py_min_mono.
    assert (Hd : 0 < depth * 1000) by lra.
    assert (Hgoal : (i1 - crop_et - p1) / (depth * 1000) - cur2
                    <= (i2 - crop_et - p2) / (depth * 1000) - cur1
                    -> cur1 + (i1 - crop_et - p1) / (depth * 1000)
                       <= cur2 + (i2 - crop_et - p2) / (depth * 1000))
      by (intros; lra).
    apply Hgoal. clear Hgoal.
    assert (Hdiff : (i1 - crop_et - p1) / (depth * 1000)
                    - (i2 - crop_et - p2) / (depth * 1000)
                    == (i1 - i2 + (p2 - p1)) / (depth * 1000))
      by (field; lra).
    assert (Hbound : (i1 - i2 + (p2 - p1)) / (depth * 1000) <= cur2 - cur1).
    { apply Qle_shift_div_r; [exact Hd|]. nra. }
    lra. }
  split; [exact Hnew|].
  destruct (hour_body_ok _ _ _ _ _ _ _ _ _ _ H1)
    as (_ & _ & _ & _ & _ & _ & _ & _ & _ & _ & ->).
  destruct (hour_body_ok _ _ _ _ _ _ _ _ _ _ H2)
    as (_ & _ & _ & _ & _ & _ & _ & _ & _ & _ & ->).
  cbn [SoilMoistureData.soil_moisture]. now apply py_round_mono.
Qed.

(** Two runs of the loop whose bodies keep a relation [R] between the
    running moistures and establish [P] between the emitted states. *)
Lemma hydro_loop_related (R : Q -> Q -> Prop)
    (P : SoilMoistureData.t -> SoilMoistureData.t -> Prop) bd1 bd2 hours :
  (forall hour cur1 cur2 w1 w2 step1 step2 w1' w2',
      In hour hours -> R cur1 cur2 ->
      bd1 hour cur1 w1 = (Ok step1, w1') ->
      bd2 hour cur2 w2 = (Ok step2, w2') ->
      R (Step.new_moisture step1) (Step.new_moisture step2)
      /\ P (Step.soil_moisture_data step1) (Step.soil_moisture_data step2)) ->
  forall cur1 cur2 acc1 acc2 w1 w2 res1 res2 w1' w2',
    R cur1 cur2 -> Forall2 P acc1 acc2 ->
    hydro_loop bd1 hours cur1 acc1 w1 = (Ok res1, w1') ->
    hydro_loop bd2 hours cur2 acc2 w2 = (Ok res2, w2') ->
    Forall2 P res1 res2.
Proof.
  induction hours as [|hour rest IH];
    intros Hbd cur1 cur2 acc1 acc2 w1 w2 res1 res2 w1' w2' Hcur Hacc H1 H2.
  - cbn in H1, H2. injection H1 as <- _. injection H2 as <- _. exact Hacc.
  - cbn [hydro_loop] in H1, H2. inv_bind H1. inv_bind H2.
    destruct (Hbd hour cur1 cur2 w1 w2 _ _ _ _ (or_introl eq_refl)
                Hcur E E0) as [HR HP].
    eapply (IH (fun h c1 c2 v1 v2 s1 s2 v1' v2' Hin =>
                  Hbd h c1 c2 v1 v2 s1 s2 v1' v2' (or_intror Hin)));
      [exact HR| |exact H1|exact H2].
    apply Forall2_app; [exact Hacc|]. now repeat constructor.
Qed.

(** X8.  The simulated moisture is monotone in the initial moisture and in
    the rainfall: of two runs on the same crop, soil and LAI, the one that
    starts no drier on a forecast with the same temperature, humidity and
    solar radiation and at least as much rain emits, hour by hour, a soil
    moisture that is at least that of the other.  The wind speed of the
    forecast plays no part. *)
Theorem wetter_conditions_never_give_drier_soil ic1 ic2 wf1 wf2 vp
    crop_type soil_type w1 w2 series1 w1' series2 w2' :
  IC.soil_water_content ic1 <= IC.soil_water_content ic2 ->
  Forall2 no_drier wf1 wf2 ->
  _run_hydrological_model_fest_ewb ic1 wf1 vp crop_type soil_type w1
    = (Ok series1, w1') ->
  _run_hydrological_model_fest_ewb ic2 wf2 vp crop_type soil_type w2
    = (Ok series2, w2') ->
  Forall2 (fun s1 s2 => SoilMoistureData.soil_moisture s1
                        <= SoilMoistureData.soil_moisture s2)
          series1 series2.
Proof.
  intros Hinit Hwf H1 H2. unfold _run_hydrological_model_fest_ewb in H1, H2.
  eapply (hydro_loop_related (fun c1 c2 => c1 <= c2));
    [|exact Hinit|constructor|exact H1|exact H2].
  intros hour cur1 cur2 v1 v2 step1 step2 v1' v2' _ Hcur E1 E2.
  eapply hour_body_monotone; eassumption.
Qed.

Lemma hydro_loop_ext bd1 bd2 hours :
  (forall hour cur w, In hour hours -> bd1 hour cur w = bd2 hour cur w) ->
  forall cur acc w,
    hydro_loop bd1 hours cur acc w = hydro_loop bd2 hours cur acc w.
Proof.
  induction hours as [|hour rest IH]; intros Hbd cur acc w; [reflexivity|].
  cbn [hydro_loop]. unfold bind.
  rewrite (Hbd hour cur w (or_introl eq_refl)).
  destruct (bd2 hour cur w) as [[step|e] w1]; [|reflexivity].
  apply IH. intros. apply Hbd. now right.
Qed.

Lemma hourly_weather_three_days wf hour :
  (hour < 72)%nat ->
  hourly_weather wf hour = hourly_weather (three_days wf) hour.
Proof.
  intros Hhour. unfold hourly_weather.
  assert (Hday : (hour / 24 < 3)%nat)
    by (apply Nat.Div0.div_lt_upper_bound; lia).
  destruct wf as [|d1 [|d2 [|d3 rest]]]; [reflexivity| | |];
    destruct (hour / 24)%nat as [|[|[|day]]]; try lia; reflexivity.
Qed.

(** X9.  Of its forecast the simulator reads three days and no more: the
    entries after the third are ignored, and a forecast of one or two days
    is continued by its last day.  On an empty forecast it raises
    [IndexError] at the first hour, before reading the clock. *)
Theorem simulator_reads_three_days ic wf vp crop_type soil_type w :
  _run_hydrological_model_fest_ewb ic wf vp crop_type soil_type w
  = _run_hydrological_model_fest_ewb ic (three_days wf) vp crop_type
      soil_type w
  /\ _run_hydrological_model_fest_ewb ic [] vp crop_type soil_type w
     = (Raise IndexError, w).
Proof.
  split; [|reflexivity].
  unfold _run_hydrological_model_fest_ewb. apply hydro_loop_ext.
  intros hour cur w0 Hin. apply in_seq in Hin.
  unfold hour_body. rewrite (hourly_weather_three_days wf hour); [reflexivity|].
  unfold forecast_horizon in Hin. lia.
Qed.

(** ** The stress analysis *)

Lemma stress_body_cases tp i s acc :
  let soil_moisture := SoilMoistureData.soil_moisture s in
  let acc' := stress_body tp i s acc in
  (stressed tp soil_moisture = false
   /\ Acc.stress_events acc' = Acc.stress_events acc
   /\ Acc.stress_hours acc' = Acc.stress_hours acc
   /\ Acc.critical_periods acc' = Acc.critical_periods acc)
  \/ (stressed tp soil_moisture = true
      /\ exists event,
           Acc.stress_events acc' = Acc.stress_events acc ++ [event]
           /\ event
              = StressEvent.mk i (SoilMoistureData.datetime s) soil_moisture
                  (SoilMoistureData.deficit s) (StressEvent.stress_level event)
                  (_calculate_urgency_score soil_moisture tp)
           /\ level_score (StressEvent.stress_level event)
                          (StressEvent.urgency_score event)
           /\ Acc.stress_hours acc'
              = Acc.stress_hours acc
                + (if (StressEvent.stress_level event =? "low")%string
                   then 0.5 else 1)
           /\ Acc.critical_periods acc'
              = if is_critical_period event
                then Acc.critical_periods acc ++ [i]
                else Acc.critical_periods acc).
Proof.
  forget_math.
  cbv zeta.
  unfold stress_body, stressed, _calculate_urgency_score, level_score,
    is_critical_period.
  destruct (Qltb (SoilMoistureData.soil_moisture s) (Trigger.critical tp));
  [|destruct (Qltb (SoilMoistureData.soil_moisture s) (Trigger.high tp));
    [|destruct (Qltb (SoilMoistureData.soil_moisture s) (Trigger.medium tp));
      [|destruct (Qltb (SoilMoistureData.soil_moisture s) (Trigger.low tp))]]];
    cbn;
    try (left; repeat split; reflexivity);
    right; (split; [reflexivity|]); eexists;
    (split; [reflexivity|]); cbn; (split; [reflexivity|]);
    (split; [|split; reflexivity]); tauto.
Qed.

(** What the loop of the stress analysis adds to its accumulator over the
    states [l], of which the first has index [i]. *)
Lemma stress_loop_spec tp l :
  forall i acc,
    let acc' := stress_loop tp i l acc in
    exists new,
      Acc.stress_events acc' = Acc.stress_events acc ++ new
      /\ map (fun e => (StressEvent.hour e, StressEvent.datetime e,
                        StressEvent.soil_moisture e, StressEvent.deficit e))
             new
         = map (fun p => (fst p, SoilMoistureData.datetime (snd p),
                          SoilMoistureData.soil_moisture (snd p),
                          SoilMoistureData.deficit (snd p)))
               (filter (fun p => stressed tp
                                   (SoilMoistureData.soil_moisture (snd p)))
                       (combine (seq i (length l)) l))
      /\ Forall (fun e => level_score (StressEvent.stress_level e)
                                      (StressEvent.urgency_score e)
                          /\ StressEvent.urgency_score e
                             = _calculate_urgency_score
                                 (StressEvent.soil_moisture e) tp) new
      /\ Acc.critical_periods acc'
         = Acc.critical_periods acc
           ++ map StressEvent.hour (filter is_critical_period new)
      /\ Acc.stress_hours acc'
         == Acc.stress_hours acc + Qnat (length new)
            - Qnat (count_level "low" new) / 2.
Proof.
  induction l as [|s l IH]; intros i acc; cbv zeta.
  - exists []. cbn. rewrite !app_nil_r. repeat split; try constructor.
    unfold Qnat. cbn. change (inject_Z 0) with 0. field.
  - cbn [stress_loop length seq combine filter snd].
    destruct (IH (S i) (stress_body tp i s acc))
      as (new & Hev & Hproj & Hlev & Hcp & Hh).
    destruct (stress_body_cases tp i s acc)
      as [(Hs & E1 & E2 & E3)|(Hs & event & E1 & Eev & Hls & E2 & E3)];
      cbv zeta in *; rewrite Hs.
    + exists new. rewrite Hev, Hcp, Hh, E1, E2, E3.
      repeat split; try assumption; reflexivity.
    + exists (event :: new). rewrite Hev, Hcp, Hh, E1, E2, E3.
      rewrite <- !app_assoc. cbn [app map fst snd filter].
      split; [reflexivity|]. split.
      { rewrite Hproj. f_equal. rewrite Eev. reflexivity. }
      split.
      { constructor; [|exact Hlev]. split; [exact Hls|].
        rewrite Eev. reflexivity. }
      split.
      { destruct (is_critical_period event); [|reflexivity].
        rewrite <- app_assoc. cbn [app map]. repeat f_equal.
        rewrite Eev. reflexivity. }
      unfold count_level. cbn [filter length].
      destruct (StressEvent.stress_level event =? "low")%string;
        cbn [length]; rewrite !Qnat_S; field.
Qed.

(** The stress analysis opened: it returns on a non-empty forecast only,
    leaves the world alone and fills its dict from the accumulator of the
    loop. *)
Lemma stress_analysis_ok soil_moisture_forecast stress_threshold_data w
    stress w' :
  _analyze_stress_conditions_pregi soil_moisture_forecast
    stress_threshold_data w = (Ok stress, w') ->
  let acc :=
    stress_loop (Threshold.trigger_points stress_threshold_data) 0
                soil_moisture_forecast empty_acc in
  w' = w
  /\ soil_moisture_forecast <> []
  /\ stress
     = Stress.mk
         (Acc.stress_events acc)
         (Acc.stress_hours acc)
         (py_round (Acc.stress_hours acc
                    / Qnat (length soil_moisture_forecast) * 100) 1)
         (option_map (fun m => py_round m 4) (Acc.min_moisture acc))
         (py_round (Acc.max_deficit acc) 4)
         (Acc.critical_periods acc)
         (0 <? length (Acc.stress_events acc))%nat
         (_determine_irrigation_urgency (Acc.stress_events acc)
                                        (Acc.critical_periods acc))
         (_classify_overall_stress_severity (Acc.stress_events acc)).
Proof.
  intros H. cbv zeta. unfold _analyze_stress_conditions_pregi in H.
  inv_bind H. unfold ret in H. injection H as <- <-.
  unfold pydiv in E.
  destruct (Qeq_bool (Qnat (length soil_moisture_forecast)) 0) eqn:Ez;
    [discriminate E|].
  unfold ret in E. injection E as <- <-.
  split; [reflexivity|]. split; [|reflexivity].
  intros ->. discriminate Ez.
Qed.

(** X10.  The stress analysis raises [ZeroDivisionError] on an empty
    forecast (the stress hours are divided by its length) and on no other:
    on a non-empty forecast it returns, and it never touches the world. *)
Theorem stress_analysis_raises_on_empty_forecast_only soil_moisture_forecast
    stress_threshold_data w :
  (soil_moisture_forecast = [] ->
   _analyze_stress_conditions_pregi soil_moisture_forecast
     stress_threshold_data w = (Raise ZeroDivisionError, w))
  /\ (soil_moisture_forecast <> [] ->
      exists stress,
        _analyze_stress_conditions_pregi soil_moisture_forecast
          stress_threshold_data w = (Ok stress, w)).
Proof.
  split.
  - intros ->. reflexivity.
  - intros Hne. unfold _analyze_stress_conditions_pregi, bind, pydiv.
    destruct (Qeq_bool (Qnat (length soil_moisture_forecast)) 0) eqn:Ez.
    + apply Qeq_bool_iff in Ez.
      pose proof (Qnat_pos (length soil_moisture_forecast)) as Hpos.
      destruct soil_moisture_forecast; [contradiction|].
      cbn [length] in *. specialize (Hpos ltac:(lia)). lra.
    + unfold ret. eexists. reflexivity.
Qed.

(** X11.  The stress events are, in order, the states of the forecast whose
    soil moisture is below one of the trigger points, each with the index,
    the timestamp, the moisture and the deficit of its state; the level of
    an event and its urgency score go together (critical 1.0, high 0.8,
    medium 0.6, low 0.4); and the critical periods are the hours of the
    events of level high or critical. *)
Theorem stress_events_are_the_stressed_states soil_moisture_forecast
    stress_threshold_data w stress w' :
  _analyze_stress_conditions_pregi soil_moisture_forecast
    stress_threshold_data w = (Ok stress, w') ->
  let trigger_points := Threshold.trigger_points stress_threshold_data in
  map (fun e => (StressEvent.hour e, StressEvent.datetime e,
                 StressEvent.soil_moisture e, StressEvent.deficit e))
      (Stress.stress_events stress)
  = map (fun p => (fst p, SoilMoistureData.datetime (snd p),
                   SoilMoistureData.soil_moisture (snd p),
                   SoilMoistureData.deficit (snd p)))
        (filter (fun p => stressed trigger_points
                            (SoilMoistureData.soil_moisture (snd p)))
                (combine (seq 0 (length soil_moisture_forecast))
                         soil_moisture_forecast))
  /\ Forall (fun e => level_score (StressEvent.stress_level e)
                                  (StressEvent.urgency_score e)
                      /\ StressEvent.urgency_score e
                         = _calculate_urgency_score
                             (StressEvent.soil_moisture e) trigger_points)
            (Stress.stress_events stress)
  /\ Stress.critical_periods stress
     = map StressEvent.hour
           (filter is_critical_period (Stress.stress_events stress)).
Proof.
  intros H. cbv zeta.
  destruct (stress_analysis_ok _ _ _ _ _ H) as (_ & _ & ->).
  cbn [Stress.stress_events Stress.critical_periods].
  destruct (stress_loop_spec (Threshold.trigger_points stress_threshold_data)
              soil_moisture_forecast 0 empty_acc)
    as (new & Hev & Hproj & Hlev & Hcp & _).
  cbv zeta in *. rewrite Hev, Hcp. cbn [empty_acc Acc.stress_events
    Acc.critical_periods app].
  repeat split; assumption.
Qed.

Lemma critical_periods_count (events : list StressEvent.t) :
  length (filter is_critical_period events)
  = (count_level "critical" events + count_level "high" events)%nat.
Proof.
  unfold count_level, is_critical_period.
  induction events as [|e events IH]; [reflexivity|].
  cbn [filter].
  destruct (String.eqb_spec (StressEvent.stress_level e) "high") as [E|E].
  - rewrite E. cbn. rewrite IH. lia.
  - destruct (StressEvent.stress_level e =? "critical")%string; cbn;
      rewrite IH; lia.
Qed.

Lemma severity_unfold (events : list StressEvent.t) :
  events <> [] ->
  _classify_overall_stress_severity events
  = if (6 <? count_level "critical" events)%nat then "critical"
    else if ((0 <? count_level "critical" events)%nat
             || (12 <? count_level "high" events)%nat)%bool then "high"
    else if (0 <? count_level "high" events)%nat then "moderate"
    else "low".
Proof. destruct events; [contradiction|reflexivity]. Qed.

(** X12.  The urgency and the severity that the stress analysis reports
    agree with each other and with the events: irrigation is triggered
    exactly when there is an event; urgency and severity are 'none' exactly
    when there is none; the severity is 'low' exactly when the urgency is
    'medium' or 'low'; a 'moderate' severity comes with a 'high' urgency, a
    'critical' severity with a 'high' or 'critical' urgency, and a
    'critical' urgency with a 'high' or 'critical' severity. *)
Theorem urgency_and_severity_agree soil_moisture_forecast
    stress_threshold_data w stress w' :
  _analyze_stress_conditions_pregi soil_moisture_forecast
    stress_threshold_data w = (Ok stress, w') ->
  let urgency := Stress.irrigation_urgency stress in
  let severity := Stress.stress_severity stress in
  (Stress.irrigation_triggered stress = true
   <-> Stress.stress_events stress <> [])
  /\ (urgency = "none" <-> Stress.stress_events stress = [])
  /\ (severity = "none" <-> Stress.stress_events stress = [])
  /\ (severity = "low" <-> urgency = "medium" \/ urgency = "low")
  /\ (severity = "moderate" -> urgency = "high")
  /\ (severity = "critical" -> urgency = "high" \/ urgency = "critical")
  /\ (urgency = "critical" -> severity = "high" \/ severity = "critical").
Proof.
  intros H. cbv zeta.
  destruct (stress_analysis_ok _ _ _ _ _ H) as (_ & _ & ->).
  cbn [Stress.stress_events Stress.irrigation_triggered
       Stress.irrigation_urgency Stress.stress_severity].
  destruct (stress_loop_spec (Threshold.trigger_points stress_threshold_data)
              soil_moisture_forecast 0 empty_acc)
    as (new & Hev & _ & _ & Hcp & _).
  cbv zeta in *.
  cbn [empty_acc Acc.stress_events Acc.critical_periods app] in Hev, Hcp.
  rewrite Hev, Hcp. unfold _determine_irrigation_urgency.
  rewrite length_map, critical_periods_count.
  destruct new as [|e new'].
  - cbn. repeat split; intros; try reflexivity; try discriminate;
      try contradiction; try tauto.
    destruct H0; discriminate.
  - rewrite severity_unfold by discriminate.
    pose proof (filter_length_le is_critical_period (e :: new')) as Hle.
    rewrite critical_periods_count in Hle.
    set (c := count_level "critical" (e :: new')) in *.
    set (h := count_level "high" (e :: new')) in *.
    assert (Hn : (0 < length (e :: new'))%nat) by (cbn; lia).
    set (n := length (e :: new')) in *. clearbody c h n.
    destruct (Nat.ltb_spec 12 (c + h)), (Nat.ltb_spec 0 (c + h)),
             (Nat.ltb_spec 24 n), (Nat.ltb_spec 0 n),
             (Nat.ltb_spec 6 c), (Nat.ltb_spec 0 c),
             (Nat.ltb_spec 12 h), (Nat.ltb_spec 0 h);
      try lia; cbn [orb];
      repeat split; intros; try discriminate; try reflexivity;
      try (left; reflexivity); try (right; reflexivity);
      try match goal with
          | Hor : _ \/ _ |- _ => destruct Hor; discriminate
          end.
Qed.

(** X13.  Every stress event counts for one stress hour, except an event of
    level low, which counts for half an hour; there are at most as many
    events as states, and the stress percentage lies between 0 and 100. *)
Theorem stress_hours_count_low_events_half soil_moisture_forecast
    stress_threshold_data w stress w' :
  _analyze_stress_conditions_pregi soil_moisture_forecast
    stress_threshold_data w = (Ok stress, w') ->
  Stress.stress_hours stress
  == Qnat (length (Stress.stress_events stress))
     - Qnat (count_level "low" (Stress.stress_events stress)) / 2
  /\ (length (Stress.stress_events stress)
      <= length soil_moisture_forecast)%nat
  /\ 0 <= Stress.stress_percentage stress
  /\ Stress.stress_percentage stress <= 100.
Proof.
  intros H.
  destruct (stress_analysis_ok _ _ _ _ _ H) as (_ & Hne & ->).
  cbn [Stress.stress_events Stress.stress_hours Stress.stress_percentage].
  destruct (stress_loop_spec (Threshold.trigger_points stress_threshold_data)
              soil_moisture_forecast 0 empty_acc)
    as (new & Hev & Hproj & _ & _ & Hh).
  cbv zeta in *.
  cbn [empty_acc Acc.stress_events Acc.stress_hours app] in Hev, Hh.
  rewrite Hev.
  assert (Hlen : (length new <= length soil_moisture_forecast)%nat).
  { apply (f_equal (@length _)) in Hproj. rewrite !length_map in Hproj.
    rewrite Hproj.
    etransitivity; [apply filter_length_le|].
    rewrite length_combine, length_seq. lia. }
  pose proof (filter_length_le
                (fun event => (StressEvent.stress_level event =? "low")%string)
                new) as Hlow.
  fold (count_level "low" new) in Hlow.
  pose proof (Qnat_le _ _ Hlen) as Hlen'.
  apply Qnat_le in Hlow.
  pose proof (Qnat_nonneg (count_level "low" new)) as Hlow0.
  assert (Hpos : 0 < Qnat (length soil_moisture_forecast)).
  { apply Qnat_pos. destruct soil_moisture_forecast; [contradiction|].
    cbn. lia. }
  assert (Hhalf : Qnat (count_level "low" new) / 2
                  == Qnat (count_level "low" new) * (1 # 2)) by field.
  set (hours := Acc.stress_hours _) in *.
  set (n := Qnat (length soil_moisture_forecast)) in *.
  split; [rewrite Hh; lra|]. split; [exact Hlen|].
  assert (Hfrac : 0 <= hours / n /\ hours / n <= 1).
  { split.
    - apply Qle_shift_div_l; [exact Hpos|]. lra.
    - apply Qle_shift_div_r; [exact Hpos|]. lra. }
  split.
  - apply (py_round_ge _ 0 1 0); [reflexivity|]. lra.
  - apply (py_round_le _ 100 1 1000); [reflexivity|]. lra.
Qed.

Lemma stress_body_extremes tp i s acc :
  Acc.min_moisture (stress_body tp i s acc)
  = Some (match Acc.min_moisture acc with
          | None => SoilMoistureData.soil_moisture s
          | Some m => py_min m (SoilMoistureData.soil_moisture s)
          end)
  /\ Acc.max_deficit (stress_body tp i s acc)
     = py_max (Acc.max_deficit acc) (SoilMoistureData.deficit s).
Proof.
  unfold stress_body.
  match goal with
  | |- context [if negb ?b then _ else _] => destruct b
  end; split; reflexivity.
Qed.

Lemma stress_loop_extremes tp l :
  forall i acc,
    let acc' := stress_loop tp i l acc in
    match Acc.min_moisture acc' with
    | None => l = [] /\ Acc.min_moisture acc = None
    | Some m' =>
        Forall (fun s => m' <= SoilMoistureData.soil_moisture s) l
        /\ ((exists s, In s l /\ m' = SoilMoistureData.soil_moisture s)
            \/ Acc.min_moisture acc = Some m')
        /\ match Acc.min_moisture acc with
           | Some m => m' <= m
           | None => True
           end
    end
    /\ Acc.max_deficit acc <= Acc.max_deficit acc'
    /\ Forall (fun s => SoilMoistureData.deficit s <= Acc.max_deficit acc') l.
Proof.
  induction l as [|s l IH]; intros i acc; cbv zeta.
  - cbn [stress_loop]. split.
    + destruct (Acc.min_moisture acc) as [m|]; [|now split].
      split; [constructor|]. split; [now right|apply Qle_refl].
    + split; [apply Qle_refl|constructor].
  - cbn [stress_loop].
    destruct (IH (S i) (stress_body tp i s acc)) as (Hmin & Hmax & Hall).
    destruct (stress_body_extremes tp i s acc) as [Emin Emax].
    cbv zeta in *. rewrite Emin, Emax in *.
    set (acc' := stress_loop tp (S i) l (stress_body tp i s acc)) in *.
    split.
    + destruct (Acc.min_moisture acc') as [m'|]; [|destruct Hmin; discriminate].
      destruct Hmin as (Hl & Hin & Hle).
      set (sm := SoilMoistureData.soil_moisture s) in *.
      assert (Hfirst : m' <= sm
                       /\ match Acc.min_moisture acc with
                          | Some m => m' <= m
                          | None => True
                          end).
      { destruct (Acc.min_moisture acc) as [m|].
        - pose proof (py_min_le_l m sm). pose proof (py_min_le_r m sm).
          split; lra.
        - split; [exact Hle|exact I]. }
      destruct Hfirst as [Hsm Hacc].
      split; [constructor; assumption|]. split; [|exact Hacc].
      destruct Hin as [(s' & Hin & E)|E].
      * left. exists s'. split; [now right|exact E].
      * injection E as E.
        destruct (Acc.min_moisture acc) as [m|].
        -- destruct (py_min_cases m sm) as [[_ E']|[_ E']]; rewrite E' in E.
           ++ left. exists s. split; [now left|]. symmetry. exact E.
           ++ right. now rewrite E.
        -- left. exists s. split; [now left|]. symmetry. exact E.
    + pose proof (py_max_lower (Acc.max_deficit acc)
                    (SoilMoistureData.deficit s)).
      pose proof (py_max_upper (Acc.max_deficit acc)
                    (SoilMoistureData.deficit s)).
      split; [lra|]. constructor; [lra|exact Hall].
Qed.

(** X14.  The minimum forecasted moisture that the stress analysis reports
    is the soil moisture of one of the states, rounded to four decimals, and
    no state has a smaller rounded moisture; the maximum deficit is not
    negative and no state has a larger rounded deficit. *)
Theorem stress_analysis_reports_the_extremes soil_moisture_forecast
    stress_threshold_data w stress w' :
  _analyze_stress_conditions_pregi soil_moisture_forecast
    stress_threshold_data w = (Ok stress, w') ->
  exists s minimum,
    In s soil_moisture_forecast
    /\ Stress.min_forecasted_moisture stress = Some minimum
    /\ minimum = py_round (SoilMoistureData.soil_moisture s) 4
    /\ Forall (fun s' => minimum
                         <= py_round (SoilMoistureData.soil_moisture s') 4)
              soil_moisture_forecast
    /\ Forall (fun s' => py_round (SoilMoistureData.deficit s') 4
                         <= Stress.max_deficit stress)
              soil_moisture_forecast
    /\ 0 <= Stress.max_deficit stress.
Proof.
  intros H.
  destruct (stress_analysis_ok _ _ _ _ _ H) as (_ & Hne & ->).
  cbn [Stress.min_forecasted_moisture Stress.max_deficit].
  destruct (stress_loop_extremes
              (Threshold.trigger_points stress_threshold_data)
              soil_moisture_forecast 0 empty_acc) as (Hmin & Hmax & Hall).
  cbv zeta in *. cbn [empty_acc Acc.min_moisture Acc.max_deficit] in *.
  set (acc := stress_loop _ _ _ _) in *.
  destruct (Acc.min_moisture acc) as [m|];
    [|destruct Hmin; contradiction].
  destruct Hmin as (Hl & [(s & Hin & E)|E] & _); [|discriminate E].
  exists s, (py_round m 4). cbn [option_map].
  split; [exact Hin|]. split; [reflexivity|]. split; [now rewrite E|].
  split; [|split].
  - eapply Forall_impl; [|exact Hl]. intros s' Hs'. now apply py_round_mono.
  - eapply Forall_impl; [|exact Hall]. intros s' Hs'. now apply py_round_mono.
  - apply (py_round_ge _ 0 4 0); [reflexivity|exact Hmax].
Qed.

(** ** The trigger points and the stress they detect *)

Lemma trigger_points_chain (crop_type soil_type : string)
    (vegetation_params : Veg.t) :
  let soil_params := get (soil_types soil_type) soil_loamy in
  let threshold :=
    _calculate_stress_threshold_fao56 crop_type soil_type vegetation_params in
  let trigger_points := Threshold.trigger_points threshold in
  Soil.wilting_point soil_params < Trigger.critical trigger_points
  /\ Trigger.critical trigger_points < Trigger.high trigger_points
  /\ Trigger.high trigger_points < Trigger.medium trigger_points
  /\ Trigger.medium trigger_points < Trigger.low trigger_points
  /\ Trigger.low trigger_points < Soil.field_capacity soil_params
  /\ Soil.wilting_point soil_params < Threshold.theta_critical_base threshold
  /\ Threshold.theta_critical_base threshold < Soil.field_capacity soil_params
  /\ Threshold.mad_percentage threshold
     == 100 * Crop.p (get (crop_parameters crop_type) crop_asparagus).
Proof.
  unfold _calculate_stress_threshold_fao56, _calculate_vegetation_adjustment.
  cbn.
  destruct (soil_cases soil_type) as [Es|[Es|Es]]; cbv zeta in Es; rewrite Es;
  destruct (crop_cases crop_type) as [Ec|[Ec|Ec]]; cbv zeta in Ec; rewrite Ec;
  destruct (Qltb (get (Veg.lai vegetation_params) 2.5) 1.0);
  try destruct (Qltb 4.0 (get (Veg.lai vegetation_params) 2.5));
  repeat split; reflexivity.
Qed.

(** X15.  For every crop, soil and LAI the trigger points lie strictly
    inside the available water: the critical one is above the wilting point
    of the soil and the low one below its field capacity, as is the
    unadjusted critical moisture; the threshold dict carries the field
    capacity and the wilting point of the soil table, and the management
    allowed depletion is the depletion fraction of the crop in per cent. *)
Theorem trigger_points_inside_available_water (crop_type soil_type : string)
    (vegetation_params : Veg.t) :
  let threshold :=
    _calculate_stress_threshold_fao56 crop_type soil_type vegetation_params in
  let trigger_points := Threshold.trigger_points threshold in
  Threshold.wilting_point threshold
  = Soil.wilting_point (get (soil_types soil_type) soil_loamy)
  /\ Threshold.field_capacity threshold
     = Soil.field_capacity (get (soil_types soil_type) soil_loamy)
  /\ Threshold.wilting_point threshold < Trigger.critical trigger_points
  /\ Trigger.low trigger_points < Threshold.field_capacity threshold
  /\ Threshold.wilting_point threshold < Threshold.theta_critical_base threshold
  /\ Threshold.theta_critical_base threshold
     < Threshold.field_capacity threshold
  /\ Threshold.mad_percentage threshold
     == 100 * Crop.p (get (crop_parameters crop_type) crop_asparagus).
Proof.
  cbv zeta.
  destruct (trigger_points_chain crop_type soil_type vegetation_params)
    as (H1 & _ & _ & _ & H5 & H6 & H7 & H8).
  cbv zeta in *. repeat split; assumption.
Qed.

Lemma stressed_below_low (crop_type soil_type : string)
    (vegetation_params : Veg.t) (soil_moisture : Q) :
  let trigger_points :=
    Threshold.trigger_points
      (_calculate_stress_threshold_fao56 crop_type soil_type
         vegetation_params) in
  stressed trigger_points soil_moisture = true
  <-> soil_moisture < Trigger.low trigger_points.
Proof.
  forget_math.
  cbv zeta.
  destruct (trigger_points_chain crop_type soil_type vegetation_params)
    as (_ & H2 & H3 & H4 & _).
  cbv zeta in *. unfold stressed.
  set (tp := Threshold.trigger_points _) in *.
  rewrite !orb_true_iff, !Qltb_true. split; [|tauto].
  intros [[[H|H]|H]|H]; lra.
Qed.

(** X16.  With the trigger points that the threshold calculator returns,
    the stress analysis reports no event exactly when every state of the
    forecast is at or above the low trigger point; a forecast that stays at
    the field capacity of the soil is such a forecast. *)
Theorem no_stress_above_the_low_trigger (crop_type soil_type : string)
    (vegetation_params : Veg.t) soil_moisture_forecast w stress w' :
  let threshold :=
    _calculate_stress_threshold_fao56 crop_type soil_type vegetation_params in
  _analyze_stress_conditions_pregi soil_moisture_forecast threshold w
    = (Ok stress, w') ->
  (Stress.stress_events stress = []
   <-> Forall (fun s => Trigger.low (Threshold.trigger_points threshold)
                        <= SoilMoistureData.soil_moisture s)
              soil_moisture_forecast)
  /\ (Forall (fun s => SoilMoistureData.soil_moisture s
                       == Threshold.field_capacity threshold)
             soil_moisture_forecast ->
      Stress.stress_events stress = []
      /\ Stress.irrigation_triggered stress = false
      /\ Stress.irrigation_urgency stress = "none").
Proof.
  cbv zeta. intros H.
  destruct (stress_analysis_ok _ _ _ _ _ H) as (_ & _ & ->).
  cbn [Stress.stress_events Stress.irrigation_triggered
       Stress.irrigation_urgency].
  destruct (stress_loop_spec
              (Threshold.trigger_points
                 (_calculate_stress_threshold_fao56 crop_type soil_type
                    vegetation_params))
              soil_moisture_forecast 0 empty_acc)
    as (new & Hev & Hproj & _ & Hcp & _).
  cbv zeta in *.
  cbn [empty_acc Acc.stress_events Acc.critical_periods app] in Hev, Hcp.
  rewrite Hev, Hcp.
  set (threshold := _calculate_stress_threshold_fao56 _ _ _) in *.
  set (tp := Threshold.trigger_points threshold) in *.
  assert (Hiff : new = []
                 <-> Forall (fun s => Trigger.low tp
                                      <= SoilMoistureData.soil_moisture s)
                            soil_moisture_forecast).
  { clear Hev Hcp H. revert new Hproj. generalize 0%nat.
    induction soil_moisture_forecast as [|s l IH]; intros i new Hproj.
    - cbn in Hproj. destruct new; [|discriminate Hproj].
      split; [constructor|reflexivity].
    - cbn [length seq combine filter snd] in Hproj.
      destruct (stressed tp (SoilMoistureData.soil_moisture s)) eqn:Es.
      + apply (stressed_below_low crop_type soil_type vegetation_params) in Es.
        fold threshold tp in Es.
        destruct new as [|e new]; [discriminate Hproj|].
        split; [discriminate|]. intros Hall. inversion Hall; subst. lra.
      + assert (Hs : Trigger.low tp <= SoilMoistureData.soil_moisture s).
        { apply Qnot_lt_le. intros Hlt.
          apply (stressed_below_low crop_type soil_type vegetation_params)
            in Hlt. fold threshold tp in Hlt. congruence. }
        specialize (IH (S i) new Hproj). rewrite IH.
        split; [now constructor|]. intros Hall. now inversion Hall. }
  split; [exact Hiff|].
  intros Hfc.
  assert (Hnew : new = []).
  { apply Hiff. eapply Forall_impl; [|exact Hfc]. intros s Hs.
    destruct (trigger_points_chain crop_type soil_type vegetation_params)
      as (_ & _ & _ & _ & Hlow & _).
    cbv zeta in Hlow. fold threshold tp in Hlow.
    change (Threshold.field_capacity threshold)
      with (Soil.field_capacity (get (soil_types soil_type) soil_loamy))
      in Hs.
    rewrite Hs. apply Qlt_le_weak. exact Hlow. }
  rewrite Hnew. repeat split; reflexivity.
Qed.

Ltac Qltb_facts :=
  repeat match goal with
         | H : Qltb _ _ = true |- _ => apply Qltb_true in H
         | H : Qltb _ _ = false |- _ => apply Qltb_false in H
         end.

(** X17.  With the trigger points that the threshold calculator returns,
    the urgency score never increases with the soil moisture: of two
    moistures the drier one scores at least as much, and every score lies
    between 0 and 1. *)
Theorem drier_soil_never_scores_lower (crop_type soil_type : string)
    (vegetation_params : Veg.t) (moisture1 moisture2 : Q) :
  let trigger_points :=
    Threshold.trigger_points
      (_calculate_stress_threshold_fao56 crop_type soil_type
         vegetation_params) in
  moisture1 <= moisture2 ->
  _calculate_urgency_score moisture2 trigger_points
  <= _calculate_urgency_score moisture1 trigger_points
  /\ 0 <= _calculate_urgency_score moisture2 trigger_points
  /\ _calculate_urgency_score moisture1 trigger_points <= 1.
Proof.
  cbv zeta. intros Hle.
  destruct (trigger_points_chain crop_type soil_type vegetation_params)
    as (_ & H2 & H3 & H4 & _).
  cbv zeta in *. set (tp := Threshold.trigger_points _) in *.
  unfold _calculate_urgency_score.
  destruct (Qltb moisture1 (Trigger.critical tp)) eqn:A1,
           (Qltb moisture1 (Trigger.high tp)) eqn:A2,
           (Qltb moisture1 (Trigger.medium tp)) eqn:A3,
           (Qltb moisture1 (Trigger.low tp)) eqn:A4,
           (Qltb moisture2 (Trigger.critical tp)) eqn:B1,
           (Qltb moisture2 (Trigger.high tp)) eqn:B2,
           (Qltb moisture2 (Trigger.medium tp)) eqn:B3,
           (Qltb moisture2 (Trigger.low tp)) eqn:B4;
    Qltb_facts; repeat split; lra.
Qed.

(** ** The schedule under stress *)

Lemma plan_irrigation_events_run stress_analysis irrigation_requirements
    irrigation_system weather_forecast w :
  let system_params := get (irrigation_systems irrigation_system) system_drip in
  let total_water := Requirements.total_water irrigation_requirements in
  let urgency := Stress.irrigation_urgency stress_analysis in
  let now1 := clock w (clock_pos w) in
  let now2 := clock w (S (clock_pos w)) in
  let event := irrigation_event system_params irrigation_system in
  _plan_irrigation_events stress_analysis irrigation_requirements
    irrigation_system weather_forecast w
  = if (urgency =? "critical")%string then
      (Ok [event (plus_hours now1 1) total_water], tick w)
    else if (urgency =? "high")%string then
      (Ok [event (plus_hours now1 2) (total_water * 0.6);
           event (plus_hours now2 24) (total_water * 0.4)], tick (tick w))
    else if (urgency =? "medium")%string then
      (Ok [event (if (plus_days (replace_6am now1) 1 <? now2)%Z
                  then plus_days (plus_days (replace_6am now1) 1) 1
                  else plus_days (replace_6am now1) 1) total_water],
       tick (tick w))
    else
      (Ok [event (plus_days (replace_6am now1) 2) total_water], tick w).
Proof.
  cbv zeta. unfold _plan_irrigation_events.
  destruct (Stress.irrigation_urgency stress_analysis =? "critical")%string;
    [reflexivity|].
  destruct (Stress.irrigation_urgency stress_analysis =? "high")%string;
    [reflexivity|].
  destruct (Stress.irrigation_urgency stress_analysis =? "medium")%string;
    reflexivity.
Qed.

Lemma replace_6am_ahead (t : Z) :
  (t + 6 * us_per_hour < plus_days (replace_6am t) 1)%Z
  /\ (plus_days (replace_6am t) 1 <= t + 30 * us_per_hour)%Z.
Proof.
  unfold plus_days, replace_6am, us_per_day, us_per_hour.
  pose proof (Z.div_mod t 86400000000 ltac:(discriminate)) as Hdm.
  pose proof (Z.mod_pos_bound t 86400000000 ltac:(reflexivity)) as Hday.
  pose proof (Z.mod_pos_bound t 1000000 ltac:(reflexivity)) as Hus.
  assert (Hle : (t mod 1000000 <= t mod 86400000000)%Z).
  { rewrite <- (Z.mod_mod_divide t 86400000000 1000000).
    - apply Z.mod_le; lia.
    - exists 86400%Z. reflexivity. }
  lia.
Qed.

Lemma replace_6am_time_of_day (t k : Z) :
  (plus_days (replace_6am t) k mod us_per_day
   = 6 * us_per_hour + t mod 1000000)%Z.
Proof.
  unfold plus_days, replace_6am, us_per_day, us_per_hour.
  pose proof (Z.mod_pos_bound t 1000000 ltac:(reflexivity)) as Hus.
  replace (t / 86400000000 * 86400000000 + 6 * 3600000000 + t mod 1000000
           + k * 86400000000)%Z
    with (6 * 3600000000 + t mod 1000000
          + (t / 86400000000 + k) * 86400000000)%Z by ring.
  rewrite Z.mod_add by discriminate. apply Z.mod_small. lia.
Qed.

(** X18.  The planner schedules every event at least one hour after the
    clock reading it starts from, provided the clock does not run backwards
    between its two readings; and when the urgency is neither critical nor
    high its single event falls at six o'clock in the morning (the
    microseconds of the reading are kept). *)
Theorem planned_events_lie_ahead stress_analysis irrigation_requirements
    irrigation_system weather_forecast w events w' :
  (clock w (clock_pos w) <= clock w (S (clock_pos w)))%Z ->
  _plan_irrigation_events stress_analysis irrigation_requirements
    irrigation_system weather_forecast w = (Ok events, w') ->
  let now := clock w (clock_pos w) in
  let urgency := Stress.irrigation_urgency stress_analysis in
  Forall (fun e => (now + us_per_hour <= IrrigationEvent.datetime e)%Z) events
  /\ (urgency <> "critical" -> urgency <> "high" ->
      Forall (fun e => (IrrigationEvent.datetime e mod us_per_day
                        = 6 * us_per_hour + now mod 1000000)%Z) events).
Proof.
  intros Hclock H. cbv zeta.
  rewrite plan_irrigation_events_run in H. cbv zeta in H.
  pose proof (replace_6am_ahead (clock w (clock_pos w))) as [Hlo Hhi].
  set (now := clock w (clock_pos w)) in *.
  set (now2 := clock w (S (clock_pos w))) in *.
  destruct (String.eqb_spec (Stress.irrigation_urgency stress_analysis)
              "critical") as [Ec|Ec].
  { injection H as <- _. split; [|contradiction].
    repeat constructor.
      cbn [IrrigationEvent.datetime irrigation_event].
      unfold plus_hours, us_per_hour. lia. }
  destruct (String.eqb_spec (Stress.irrigation_urgency stress_analysis)
              "high") as [Eh|Eh].
  { injection H as <- _. split; [|contradiction].
    repeat constructor; cbn [IrrigationEvent.datetime irrigation_event];
      unfold plus_hours, us_per_hour; lia. }
  destruct (Stress.irrigation_urgency stress_analysis =? "medium")%string.
  - injection H as <- _. split.
    + repeat constructor.
      cbn [IrrigationEvent.datetime irrigation_event].
      set (optimal_time := plus_days (replace_6am now) 1) in *.
      clearbody optimal_time.
      destruct (optimal_time <? now2)%Z;
        unfold plus_days, us_per_hour, us_per_day in *; lia.
    + intros _ _. repeat constructor.
      cbn [IrrigationEvent.datetime irrigation_event].
      destruct (plus_days (replace_6am now) 1 <? now2)%Z.
      * unfold plus_days at 1 2.
        replace (replace_6am now + 1 * us_per_day + 1 * us_per_day)%Z
          with (plus_days (replace_6am now) 2)
          by (unfold plus_days; ring).
        apply replace_6am_time_of_day.
      * apply replace_6am_time_of_day.
  - injection H as <- _. split.
    + repeat constructor.
      cbn [IrrigationEvent.datetime irrigation_event].
      unfold plus_days, us_per_hour, us_per_day in *. lia.
    + intros _ _. repeat constructor.
      cbn [IrrigationEvent.datetime irrigation_event].
      apply replace_6am_time_of_day.
Qed.


(** The schedule generator under stress, opened. *)
Lemma generate_schedule_stressed stress_analysis
    initial_conditions weather_forecast crop_type soil_type irrigation_system
    w :
  Stress.irrigation_triggered stress_analysis = true ->
  let urgency := Stress.irrigation_urgency stress_analysis in
  exists recommendation schedule first rest w',
    _generate_irrigation_schedule stress_analysis initial_conditions
      weather_forecast crop_type soil_type irrigation_system w
    = (Ok recommendation, w')
    /\ IrrigationRecommendation.needs_irrigation recommendation = true
    /\ 75 <= IrrigationRecommendation.confidence recommendation
    /\ IrrigationRecommendation.confidence recommendation <= 90
    /\ IrrigationRecommendation.schedule recommendation = Some schedule
    /\ IrrigationSchedule.recommended_events schedule = first :: rest
    /\ (rest = [] \/ (urgency = "high" /\ exists second, rest = [second]))
    /\ IrrigationSchedule.next_irrigation_time schedule
       = Some (IrrigationEvent.datetime first)
    /\ IrrigationRecommendation.water_amount recommendation
       = Some (IrrigationSchedule.total_water_needed schedule)
    /\ IrrigationSchedule.total_water_needed schedule
       = Requirements.total_water
           (_calculate_irrigation_requirements stress_analysis
              initial_conditions crop_type soil_type)
    /\ IrrigationRecommendation.irrigation_method recommendation
       = Some irrigation_system
    /\ Forall (fun e =>
                 IrrigationEvent.irrigation_type e = irrigation_system
                 /\ IrrigationEvent.efficiency e
                    = Sys.efficiency
                        (get (irrigation_systems irrigation_system)
                             system_drip))
              (first :: rest)
    /\ (IrrigationSchedule.monitoring_frequency schedule = "hourly"
        <-> urgency = "high" \/ urgency = "critical").
Proof.
  intros Htrig. cbv zeta. unfold _generate_irrigation_schedule.
  rewrite Htrig. cbn [negb]. unfold bind at 1.
  rewrite plan_irrigation_events_run. cbv zeta.
  assert (Hconf :
    75 <= py_min 95
            (if (Stress.stress_severity stress_analysis =? "critical")%string
             then 75 + 15
             else if (Stress.stress_severity stress_analysis =? "high")%string
             then 75 + 10
             else if (Stress.stress_severity stress_analysis
                      =? "moderate")%string
             then 75 + 5 else 75)
    /\ py_min 95
         (if (Stress.stress_severity stress_analysis =? "critical")%string
          then 75 + 15
          else if (Stress.stress_severity stress_analysis =? "high")%string
          then 75 + 10
          else if (Stress.stress_severity stress_analysis
                   =? "moderate")%string
          then 75 + 5 else 75) <= 90).
  { destruct (Stress.stress_severity stress_analysis =? "critical")%string;
    [|destruct (Stress.stress_severity stress_analysis =? "high")%string;
      [|destruct (Stress.stress_severity stress_analysis
                  =? "moderate")%string]];
      split; vm_compute; discriminate. }
  destruct (String.eqb_spec (Stress.irrigation_urgency stress_analysis)
              "critical") as [Ec|Ec];
  [|destruct (String.eqb_spec (Stress.irrigation_urgency stress_analysis)
               "high") as [Eh|Eh];
    [|destruct (String.eqb_spec (Stress.irrigation_urgency stress_analysis)
                 "medium") as [Em|Em]]];
    cbv beta iota; unfold bind at 1; rewrite datetime_now_run;
    cbv beta iota; unfold ret;
    (eexists; eexists; eexists; eexists; eexists;
     split; [reflexivity|]);
    cbn [IrrigationRecommendation.needs_irrigation
         IrrigationRecommendation.confidence
         IrrigationRecommendation.schedule
         IrrigationRecommendation.water_amount
         IrrigationRecommendation.irrigation_method
         IrrigationSchedule.recommended_events
         IrrigationSchedule.next_irrigation_time
         IrrigationSchedule.total_water_needed
         IrrigationSchedule.monitoring_frequency];
    (split; [reflexivity|]);
    (split; [exact (proj1 Hconf)|]);
    (split; [exact (proj2 Hconf)|]);
    (split; [reflexivity|]); (split; [reflexivity|]).
  - split; [now left|]. split; [reflexivity|]. split; [reflexivity|].
    split; [reflexivity|]. split; [reflexivity|].
    split; [repeat constructor|].
    rewrite Ec. cbn. split; [now right|reflexivity].
  - split; [right; split; [exact Eh|eexists; reflexivity]|].
    split; [reflexivity|]. split; [reflexivity|].
    split; [reflexivity|]. split; [reflexivity|].
    split; [repeat constructor|].
    rewrite Eh. cbn. split; [now left|reflexivity].
  - split; [now left|]. split; [reflexivity|]. split; [reflexivity|].
    split; [reflexivity|]. split; [reflexivity|].
    split; [repeat constructor|].
    rewrite Em. cbn. split; [discriminate|].
    intros [H|H]; discriminate H.
  - split; [now left|]. split; [reflexivity|]. split; [reflexivity|].
    split; [reflexivity|]. split; [reflexivity|].
    split; [repeat constructor|].
    destruct (String.eqb_spec (Stress.irrigation_urgency stress_analysis)
                "high"); [contradiction|].
    destruct (String.eqb_spec (Stress.irrigation_urgency stress_analysis)
                "critical"); [contradiction|].
    cbn. split; [discriminate|]. intros [H|H]; contradiction.
Qed.


Lemma round_half_even_comp (x y : Q) :
  x == y -> round_half_even x = round_half_even y.
Proof.
  intros H. unfold round_half_even.
  rewrite (Qfloor_comp x y H).
  assert (Hc : Qcompare (x - inject_Z (Qfloor y)) (1 # 2)
               = Qcompare (y - inject_Z (Qfloor y)) (1 # 2))
    by (rewrite H; reflexivity).
  rewrite Hc. reflexivity.
Qed.

Lemma py_round_comp (x y : Q) (k : nat) : x == y -> py_round x k = py_round y k.
Proof.
  intros H. unfold py_round.
  rewrite (round_half_even_comp (x * inject_Z (10 ^ Z.of_nat k))
             (y * inject_Z (10 ^ Z.of_nat k))); [reflexivity|].
  rewrite H. reflexivity.
Qed.

Lemma py_round_exact (c : Q) (k : nat) (n : Z) :
  c == inject_Z n / inject_Z (10 ^ Z.of_nat k) -> py_round c k == c.
Proof.
  intros H. apply Qle_antisym.
  - eapply py_round_le; [exact H|apply Qle_refl].
  - eapply py_round_ge; [exact H|apply Qle_refl].
Qed.


(** ** The orchestrating call: validation, failures and invariants *)

Lemma Qle_bool_reflect (x y : Q) : reflect (x <= y) (Qle_bool x y).
Proof.
  destruct (Qle_bool x y) eqn:E; constructor.
  - now apply Qle_bool_iff.
  - intros H. apply Qle_bool_iff in H. congruence.
Qed.

Lemma new_FarmBounds_run (farm_bounds : FarmBounds.t) (w : World) :
  (valid_bounds farm_bounds ->
   new_FarmBounds farm_bounds w = (Ok farm_bounds, w))
  /\ (~ valid_bounds farm_bounds ->
      new_FarmBounds farm_bounds w = (Raise ValueError, w)).
Proof.
  forget_math.
  unfold new_FarmBounds, valid_bounds.
  destruct (Qle_bool_reflect (-90) (FarmBounds.south farm_bounds)),
           (Qle_bool_reflect (FarmBounds.south farm_bounds)
                             (FarmBounds.north farm_bounds)),
           (Qle_bool_reflect (FarmBounds.north farm_bounds) 90),
           (Qle_bool_reflect (-180) (FarmBounds.west farm_bounds)),
           (Qle_bool_reflect (FarmBounds.west farm_bounds)
                             (FarmBounds.east farm_bounds)),
           (Qle_bool_reflect (FarmBounds.east farm_bounds) 180);
    cbn; split; intros H; try reflexivity; tauto.
Qed.

(** X21.  [FarmBounds] accepts exactly the coordinates with
    -90 <= south <= north <= 90 and -180 <= west <= east <= 180 and raises
    [ValueError] on all others; the centre of accepted bounds lies inside
    them. *)
Theorem farm_bounds_are_validated (farm_bounds : FarmBounds.t) (w : World) :
  (valid_bounds farm_bounds ->
   new_FarmBounds farm_bounds w = (Ok farm_bounds, w)
   /\ FarmBounds.south farm_bounds <= center_lat farm_bounds
   /\ center_lat farm_bounds <= FarmBounds.north farm_bounds
   /\ FarmBounds.west farm_bounds <= center_lon farm_bounds
   /\ center_lon farm_bounds <= FarmBounds.east farm_bounds)
  /\ (~ valid_bounds farm_bounds ->
      new_FarmBounds farm_bounds w = (Raise ValueError, w)).
Proof.
  destruct (new_FarmBounds_run farm_bounds w) as [Hok Hbad].
  split; [|exact Hbad].
  intros Hvalid. split; [now apply Hok|].
  destruct Hvalid as (_ & Hlat & _ & _ & Hlon & _).
  unfold center_lat, center_lon.
  repeat split;
    first [apply Qle_shift_div_l; lra | apply Qle_shift_div_r; lra].
Qed.

Lemma analyze_outcome lai_data weather_data satellite_data farm_bounds
    crop_type soil_type irrigation_system w :
  analyze_smart_irrigation lai_data weather_data satellite_data farm_bounds
    crop_type soil_type irrigation_system w
  = match analysis_body (clock w (clock_pos w)) lai_data weather_data
            satellite_data farm_bounds crop_type soil_type irrigation_system
            (tick w) with
    | (Ok built, w1) => (Ok built, w1)
    | (Raise _, w1) => _get_fallback_irrigation_recommendation w1
    end.
Proof.
  unfold analyze_smart_irrigation, bind, try_except.
  rewrite datetime_now_run. reflexivity.
Qed.

Lemma fallback_run (w : World) :
  exists response w',
    _get_fallback_irrigation_recommendation w = (Ok response, w')
    /\ is_fallback response.
Proof.
  unfold _get_fallback_irrigation_recommendation, bind.
  rewrite !datetime_now_run. unfold ret.
  eexists. eexists. split; [reflexivity|].
  unfold is_fallback. cbn. repeat split; reflexivity.
Qed.

(** The body of the orchestrating call, opened at a run that returns. *)
Lemma analysis_body_ok start_time lai_data weather_data satellite_data
    farm_bounds crop_type soil_type irrigation_system w response w' :
  analysis_body start_time lai_data weather_data satellite_data farm_bounds
    crop_type soil_type irrigation_system w = (Ok response, w') ->
  exists ic vp wf series stress recommendation bounds w1 w2 w3 w4 w5 w6 w7,
    _get_initial_conditions_fest_ewb lai_data weather_data satellite_data
      crop_type soil_type w = (Ok ic, w1)
    /\ _extract_vegetation_parameters satellite_data lai_data crop_type w1
       = (Ok vp, w2)
    /\ _generate_meteorological_forecast weather_data w2 = (Ok wf, w3)
    /\ _run_hydrological_model_fest_ewb ic wf vp crop_type soil_type w3
       = (Ok series, w4)
    /\ _analyze_stress_conditions_pregi series
         (_calculate_stress_threshold_fao56 crop_type soil_type vp) w4
       = (Ok stress, w5)
    /\ _generate_irrigation_schedule stress ic wf crop_type soil_type
         irrigation_system w5 = (Ok recommendation, w6)
    /\ new_FarmBounds farm_bounds w6 = (Ok bounds, w7)
    /\ Response.needs_irrigation response
       = IrrigationRecommendation.needs_irrigation recommendation
    /\ Response.confidence response
       = IrrigationRecommendation.confidence recommendation
    /\ Response.water_amount response
       = IrrigationRecommendation.water_amount recommendation
    /\ Response.irrigation_schedule response
       = IrrigationRecommendation.schedule recommendation
    /\ Response.next_irrigation response
       = match IrrigationRecommendation.schedule recommendation with
         | Some sched => IrrigationSchedule.next_irrigation_time sched
         | None => None
         end
    /\ Response.model_accuracy response = _calculate_model_accuracy stress
    /\ Response.error response = None.
Proof.
  intros H. unfold analysis_body in H.
  inv_bind H. rename E into Hic.
  inv_bind H. rename E into Hvp.
  inv_bind H. rename E into Hwf.
  inv_bind H. rename E into Hrun.
  inv_bind H. rename E into Hstress.
  inv_bind H. rename E into Hrec.
  inv_bind H. rename E into Hbounds.
  inv_bind H. inv_bind H. inv_bind H.
  unfold ret in H. injection H as <- _.
  do 14 eexists.
  split; [reflexivity|]. split; [exact Hvp|]. split; [exact Hwf|].
  split; [exact Hrun|]. split; [exact Hstress|]. split; [exact Hrec|].
  split; [exact Hbounds|]. cbn. repeat split; reflexivity.
Qed.

(** X22.  The bounds of the farm are validated at the end of the analysis,
    and an analysis with invalid bounds returns the fallback, whatever its
    other inputs and whatever the earlier stages computed. *)
Theorem invalid_bounds_give_the_fallback lai_data weather_data
    satellite_data farm_bounds crop_type soil_type irrigation_system w :
  ~ valid_bounds farm_bounds ->
  exists response w',
    analyze_smart_irrigation lai_data weather_data satellite_data farm_bounds
      crop_type soil_type irrigation_system w = (Ok response, w')
    /\ is_fallback response.
Proof.
  intros Hbad. rewrite analyze_outcome.
  destruct (analysis_body _ _ _ _ _ _ _ _ _) as [[built|e] w1] eqn:E.
  - exfalso. apply analysis_body_ok in E.
    destruct E as (ic & vp & wf & series & stress & recommendation & bounds
                   & w2 & w3 & w4 & w5 & w6 & w7 & w8 & _ & _ & _ & _ & _ & _
                   & Hb & _).
    rewrite (proj2 (new_FarmBounds_run farm_bounds w7) Hbad) in Hb.
    discriminate Hb.
  - apply fallback_run.
Qed.

Lemma last_item_snoc {A : Type} (l : list A) (x : A) (w : World) :
  last_item (l ++ [x]) w = (Ok x, w).
Proof.
  unfold last_item. destruct l as [|a l]; [reflexivity|].
  cbn [app]. unfold ret. f_equal. f_equal.
  rewrite <- (last_cons (l ++ [x]) a a). rewrite app_comm_cons.
  apply last_last.
Qed.

(** X23.  When the last LAI record has no entry ['lai'] the analysis
    returns the fallback, whatever its other inputs: reading the entry
    raises [KeyError] in the vegetation stage at the latest. *)
Theorem missing_lai_entry_gives_the_fallback earlier_records weather_data
    satellite_data farm_bounds crop_type soil_type irrigation_system w :
  exists response w',
    analyze_smart_irrigation (earlier_records ++ [Lai.mk None]) weather_data
      satellite_data farm_bounds crop_type soil_type irrigation_system w
    = (Ok response, w')
    /\ is_fallback response.
Proof.
  rewrite analyze_outcome.
  destruct (analysis_body _ _ _ _ _ _ _ _ _) as [[built|e] w1] eqn:E.
  - exfalso. apply analysis_body_ok in E.
    destruct E as (ic & vp & wf & series & stress & recommendation & bounds
                   & w2 & w3 & w4 & w5 & w6 & w7 & w8 & _ & Hvp & _).
    unfold _extract_vegetation_parameters in Hvp. cbv zeta in Hvp.
    unfold bind in Hvp.
    destruct (earlier_records ++ [Lai.mk None]) as [|r l] eqn:El.
    + destruct earlier_records; discriminate El.
    + rewrite <- El in Hvp. unfold latest_lai, bind in Hvp.
      rewrite last_item_snoc in Hvp. cbn in Hvp. discriminate Hvp.
  - apply fallback_run.
Qed.

Lemma generate_schedule_unstressed stress_analysis initial_conditions
    weather_forecast crop_type soil_type irrigation_system w :
  Stress.irrigation_triggered stress_analysis = false ->
  _generate_irrigation_schedule stress_analysis initial_conditions
    weather_forecast crop_type soil_type irrigation_system w
  = (Ok (IrrigationRecommendation.mk false (75 + 15) NoStressText (Some 0)
           (Some "None required") (Some "Monitor conditions") None (Some 0)
           (Some 100) (Some "No impact expected")
           (Some "Positive - water conservation")), w).
Proof.
  intros H. unfold _generate_irrigation_schedule. rewrite H. reflexivity.
Qed.

Lemma total_water_nonneg stress_analysis initial_conditions crop_type
    soil_type :
  IC.soil_water_content initial_conditions
  <= Soil.field_capacity (get (soil_types soil_type) soil_loamy) ->
  0 <= Requirements.total_water
         (_calculate_irrigation_requirements stress_analysis
            initial_conditions crop_type soil_type).
Proof.
  intros H. unfold _calculate_irrigation_requirements.
  cbn [Requirements.total_water].
  apply (py_round_ge _ 0 1 0); [reflexivity|].
  destruct (crop_facts crop_type 0) as [Hdepth _]. cbv zeta in Hdepth.
  set (depth := Crop.rooting_depth _) in *.
  set (deficit := Soil.field_capacity _ - _).
  assert (Hdeficit : 0 <= deficit) by (unfold deficit; lra).
  assert (Hgross : 0 <= deficit * depth * 1000 / 0.85).
  { apply Qle_shift_div_l; [reflexivity|]. nra. }
  destruct (Stress.stress_severity stress_analysis =? "critical")%string;
    [lra|].
  destruct (Stress.stress_severity stress_analysis =? "high")%string; lra.
Qed.

Lemma model_accuracy_bounds (stress_analysis : Stress.t) :
  85 <= _calculate_model_accuracy stress_analysis
  /\ _calculate_model_accuracy stress_analysis <= 95.
Proof.
  unfold _calculate_model_accuracy.
  split; [|apply py_min_le_l].
  destruct (0 <? length (Stress.stress_events stress_analysis))%nat.
  - pose proof (Qnat_nonneg (length (Stress.stress_events stress_analysis)))
      as Hn.
    set (n := Qnat _) in *.
    assert (Hfifth : 0 <= n / 5) by (apply Qle_shift_div_l; lra).
    destruct (py_min_cases 10 (n / 5)) as [[_ E]|[_ E]]; rewrite E;
      match goal with
      | |- _ <= py_min 95 ?y =>
          destruct (py_min_cases 95 y) as [[_ E']|[_ E']]; rewrite E'
      end; lra.
  - vm_compute. discriminate.
Qed.

(** X24.  Every response of the analysis, built or fallback, keeps these
    invariants: the confidence lies between 50 and 90; a response that
    needs irrigation has a water amount that is not negative, a schedule and
    a next irrigation time, and no error; a response that needs none has no
    schedule and no next irrigation time; the model accuracy is 0 (the
    fallback) or lies between 85 and 95. *)
Theorem responses_keep_their_invariants lai_data weather_data satellite_data
    farm_bounds crop_type soil_type irrigation_system w :
  exists response w',
    analyze_smart_irrigation lai_data weather_data satellite_data farm_bounds
      crop_type soil_type irrigation_system w = (Ok response, w')
    /\ 50 <= Response.confidence response
    /\ Response.confidence response <= 90
    /\ (Response.needs_irrigation response = true ->
        exists amount schedule next,
          Response.water_amount response = Some amount
          /\ 0 <= amount
          /\ Response.irrigation_schedule response = Some schedule
          /\ Response.next_irrigation response = Some next
          /\ Response.error response = None)
    /\ (Response.needs_irrigation response = false ->
        Response.irrigation_schedule response = None
        /\ Response.next_irrigation response = None)
    /\ (Response.model_accuracy response = 0
        \/ (85 <= Response.model_accuracy response
            /\ Response.model_accuracy response <= 95)).
Proof.
  rewrite analyze_outcome.
  destruct (analysis_body _ _ _ _ _ _ _ _ _) as [[built|e] w1] eqn:E.
  - exists built, w1. split; [reflexivity|].
    apply analysis_body_ok in E.
    destruct E as (ic & vp & wf & series & stress & recommendation & bounds
                   & w2 & w3 & w4 & w5 & w6 & w7 & w8 & Hic & _ & _ & _ & _
                   & Hrec & _ & -> & -> & -> & -> & -> & -> & ->).
    pose proof (initial_moisture_bounds _ _ _ _ _ _ _ _ Hic) as [_ Hfc].
    cbv zeta in Hfc.
    pose proof (model_accuracy_bounds stress) as Hacc.
    destruct (Stress.irrigation_triggered stress) eqn:Htrig.
    + destruct (generate_schedule_stressed stress ic wf crop_type soil_type
                  irrigation_system w6 Htrig)
        as (rec & schedule & first & rest & w' & Hrun & Hneeds & Hlo & Hhi
            & Hsched & _ & _ & Hnext & Hwater & Htotal & _).
      rewrite Hrun in Hrec. injection Hrec as <- _.
      rewrite Hneeds, Hsched, Hnext, Hwater, Htotal.
      split; [lra|]. split; [exact Hhi|]. split.
      * intros _. eexists. eexists. eexists.
        split; [reflexivity|]. split; [now apply total_water_nonneg|].
        split; [reflexivity|]. split; reflexivity.
      * split; [discriminate|now right].
    + rewrite (generate_schedule_unstressed stress ic wf crop_type soil_type
                 irrigation_system w6 Htrig) in Hrec.
      injection Hrec as <- _. cbn.
      split; [discriminate|]. split; [discriminate|].
      split; [discriminate|]. split; [now split|now right].
  - destruct (fallback_run w1)
      as (response & w' & Hrun & Hneeds & Hconf & _ & _ & Hsched & Hnext
          & Hacc & _).
    exists response, w'. split; [exact Hrun|].
    rewrite Hneeds, Hconf, Hsched, Hnext, Hacc.
    split; [discriminate|]. split; [discriminate|].
    split; [discriminate|]. split; [now split|now left].
Qed.

(** ** The vegetation helpers *)

Lemma Qsquare_nonneg (x : Q) : 0 <= x * x.
Proof.
  destruct (Qlt_le_dec x 0) as [H|H].
  - setoid_replace (x * x) with ((- x) * (- x)) by ring.
    apply Qmult_le_0_compat; lra.
  - now apply Qmult_le_0_compat.
Qed.

(** X25.  The lower clamp of the albedo is never reached: for every NDVI
    the albedo is the smaller of 0.4 and the polynomial
    0.23 - 0.15 ndvi + 0.05 ndvi^2, and it is above 0.1; for an NDVI between
    0 and 1 neither clamp is active, the albedo lies between 0.13 and 0.23,
    and a greener canopy is never brighter. *)
Theorem albedo_lower_clamp_is_never_reached (ndvi ndvi' : Q) :
  _calculate_albedo_from_ndvi ndvi
  = py_min 0.4 (0.23 - 0.15 * ndvi + 0.05 * (ndvi ^ 2))
  /\ 0.1 < _calculate_albedo_from_ndvi ndvi
  /\ _calculate_albedo_from_ndvi ndvi <= 0.4
  /\ (0 <= ndvi -> ndvi <= 1 ->
      _calculate_albedo_from_ndvi ndvi
      = 0.23 - 0.15 * ndvi + 0.05 * (ndvi ^ 2)
      /\ 0.13 <= _calculate_albedo_from_ndvi ndvi
      /\ _calculate_albedo_from_ndvi ndvi <= 0.23)
  /\ (0 <= ndvi -> ndvi <= ndvi' -> ndvi' <= 1 ->
      _calculate_albedo_from_ndvi ndvi' <= _calculate_albedo_from_ndvi ndvi).
Proof.
  assert (Hmin : forall n,
            _calculate_albedo_from_ndvi n
            = py_min 0.4 (0.23 - 0.15 * n + 0.05 * (n ^ 2))
            /\ 0.1 < _calculate_albedo_from_ndvi n).
  { intros n. unfold _calculate_albedo_from_ndvi.
    change (n ^ 2) with (n * n).
    assert (Hpoly : 0.1 < 0.23 - 0.15 * n + 0.05 * (n * n)).
    { pose proof (Qsquare_nonneg (n - 1.5)). lra. }
    assert (Hb : 0.1 < py_min 0.4 (0.23 - 0.15 * n + 0.05 * (n * n))).
    { destruct (py_min_cases 0.4 (0.23 - 0.15 * n + 0.05 * (n * n)))
        as [[_ ->]|[_ ->]]; lra. }
    destruct (py_max_cases 0.1
                (py_min 0.4 (0.23 - 0.15 * n + 0.05 * (n * n))))
      as [[_ ->]|[Hle _]]; [now split|lra]. }
  assert (Hunit : forall n, 0 <= n -> n <= 1 ->
            _calculate_albedo_from_ndvi n
            = 0.23 - 0.15 * n + 0.05 * (n ^ 2)
            /\ 0.13 <= 0.23 - 0.15 * n + 0.05 * (n ^ 2)
            /\ 0.23 - 0.15 * n + 0.05 * (n ^ 2) <= 0.23).
  { intros n H0 H1. rewrite (proj1 (Hmin n)). change (n ^ 2) with (n * n).
    assert (0 <= (1 - n) * (2 - n)) by (apply Qmult_le_0_compat; lra).
    assert (0 <= n * (3 - n)) by (apply Qmult_le_0_compat; lra).
    assert (0.13 <= 0.23 - 0.15 * n + 0.05 * (n * n)) by lra.
    assert (0.23 - 0.15 * n + 0.05 * (n * n) <= 0.23) by lra.
    destruct (py_min_cases 0.4 (0.23 - 0.15 * n + 0.05 * (n * n)))
      as [[_ ->]|[Hle _]]; [now repeat split|lra]. }
  destruct (Hmin ndvi) as [E Hlo].
  split; [exact E|]. split; [exact Hlo|]. split.
  { rewrite E. apply py_min_le_l. }
  split.
  - intros H0 H1. destruct (Hunit ndvi H0 H1) as (E1 & Ha & Hb).
    rewrite E1. now repeat split.
  - intros H0 Hle H1.
    destruct (Hunit ndvi H0 ltac:(lra)) as (-> & _).
    destruct (Hunit ndvi' ltac:(lra) H1) as (-> & _).
    change (ndvi ^ 2) with (ndvi * ndvi).
    change (ndvi' ^ 2) with (ndvi' * ndvi').
    assert (0 <= (ndvi' - ndvi) * (0.15 - 0.05 * (ndvi + ndvi')))
      by (apply Qmult_le_0_compat; lra).
    lra.
Qed.

Lemma Qltb_irrefl_eq (x y : Q) : x == y -> Qltb x y = false.
Proof. intros H. apply Qltb_false. rewrite H. apply Qle_refl. Qed.

(** X26.  With at most three NDVI values the trend is always 'stable': the
    last three values and the first three are then the same values, so the
    relative change is 0 (or undefined when their mean is 0). *)
Theorem ndvi_trend_needs_four_values (ndvi_values : list Q) :
  (length ndvi_values <= 3)%nat ->
  _calculate_ndvi_trend ndvi_values = "stable".
Proof.
  intros Hlen. unfold _calculate_ndvi_trend.
  destruct (length ndvi_values <? 2)%nat; [reflexivity|].
  assert (Hlast : last_n 3 ndvi_values = ndvi_values).
  { unfold last_n. replace (length ndvi_values - 3)%nat with 0%nat by lia.
    reflexivity. }
  rewrite Hlast, (firstn_all2 ndvi_values) by exact Hlen.
  set (avg := np_mean ndvi_values).
  destruct (Qeq_bool avg 0).
  - rewrite (Qltb_irrefl_eq 0 (avg - avg)) by ring.
    rewrite (Qltb_irrefl_eq (avg - avg) 0) by ring. reflexivity.
  - assert (Hchange : (avg - avg) / avg * 100 == 0)
      by (unfold Qdiv; ring).
    assert (E1 : Qltb 5 ((avg - avg) / avg * 100) = false)
      by (apply Qltb_false; rewrite Hchange; discriminate).
    assert (E2 : Qltb ((avg - avg) / avg * 100) (-5) = false)
      by (apply Qltb_false; rewrite Hchange; discriminate).
    rewrite E1, E2. reflexivity.
Qed.

Lemma height_cases (crop_type : string) :
  let base_height := get (height_factors crop_type) 1.0 in
  base_height = 1.5 \/ base_height = 1.2 \/ base_height = 0.8
  \/ base_height = 1.0.
Proof.
  cbv zeta. unfold height_factors.
  destruct (crop_type =? "asparagus")%string; [now left|].
  destruct (crop_type =? "tomato")%string; [now right; left|].
  destruct (crop_type =? "wheat")%string;
    [now right; right; left|now right; right; right].
Qed.

(** X27.  The leaf-area density of the vegetation dict never divides by
    zero and says little of the LAI: it is 0 for an LAI that is not
    positive, and for every LAI between 0 and 3 it is the same number, 3
    divided by the height factor of the crop (2 for asparagus, 2.5 for
    tomato, 3.75 for wheat, 3 for another crop); above 3 it is the LAI
    divided by the height factor, rounded. *)
Theorem leaf_area_density_is_constant_up_to_three (crop_type : string)
    (lai : Q) :
  let base_height := get (height_factors crop_type) 1.0 in
  (lai <= 0 -> leaf_area_density crop_type lai == 0)
  /\ (0 < lai -> lai <= 3 ->
      leaf_area_density crop_type lai == 3 / base_height)
  /\ (3 <= lai ->
      leaf_area_density crop_type lai = py_round (lai / base_height) 2).
Proof.
  cbv zeta. unfold leaf_area_density, _estimate_vegetation_height.
  cbv zeta.
  pose proof (height_cases crop_type) as Hcases. cbv zeta in Hcases.
  set (base_height := get (height_factors crop_type) 1.0) in *.
  assert (Hbase : 0 < base_height)
    by (destruct Hcases as [E|[E|[E|E]]]; rewrite E; reflexivity).
  assert (Hthird : lai / 3.0 == lai * (1 # 3)).
  { unfold Qdiv. setoid_replace (/ 3.0) with (1 # 3) by reflexivity.
    reflexivity. }
  split; [|split].
  - intros Hneg.
    assert (Hh : base_height * py_min 1.0 (lai / 3.0) <= 0).
    { destruct (py_min_cases 1.0 (lai / 3.0)) as [[_ ->]|[Hle _]];
        [|lra].
      rewrite Hthird.
      assert (0 <= base_height * (- lai))
        by (apply Qmult_le_0_compat; lra).
      lra. }
    apply Qltb_false in Hh. rewrite Hh. reflexivity.
  - intros Hpos Hle.
    assert (Hmin : py_min 1.0 (lai / 3.0) == lai * (1 # 3)).
    { destruct (py_min_cases 1.0 (lai / 3.0)) as [[_ ->]|[H1 ->]]; lra. }
    assert (Hh : 0 < base_height * py_min 1.0 (lai / 3.0)).
    { rewrite Hmin.
      assert (0 < base_height * lai) by (apply Qmult_lt_0_compat; lra).
      lra. }
    pose proof Hh as Hh'. apply Qltb_true in Hh'. rewrite Hh'.
    assert (Hratio : lai / (base_height * py_min 1.0 (lai / 3.0))
                     == 3 / base_height).
    { rewrite Hmin. field. lra. }
    rewrite (py_round_comp _ _ 2 Hratio).
    destruct Hcases as [E|[E|[E|E]]]; rewrite E.
    + apply (py_round_exact _ 2 200). reflexivity.
    + apply (py_round_exact _ 2 250). reflexivity.
    + apply (py_round_exact _ 2 375). reflexivity.
    + apply (py_round_exact _ 2 300). reflexivity.
  - intros Hbig.
    assert (Hmin : py_min 1.0 (lai / 3.0) = 1.0).
    { destruct (py_min_cases 1.0 (lai / 3.0)) as [[H1 _]|[_ ->]];
        [lra|reflexivity]. }
    rewrite Hmin.
    assert (Hh : Qltb 0 (base_height * 1.0) = true)
      by (apply Qltb_true; lra).
    rewrite Hh. apply py_round_comp. field. lra.
Qed.

(** ** The farm analysis *)

Lemma add_weather_data_app (good : list WeatherData.t)
    (rest : list WeatherDict.t) (self : FarmAnalysis.t) :
  add_weather_data self (map WeatherData_to_dict good ++ rest)
  = add_weather_data
      (with_weather_data self (FarmAnalysis.weather_data self ++ good)) rest.
Proof.
  revert self. induction good as [|w good IH]; intros self.
  - cbn [map app]. rewrite app_nil_r. now destruct self.
  - cbn [map app add_weather_data WeatherData_to_dict WeatherDict.date
         WeatherDict.temperature WeatherDict.humidity WeatherDict.rainfall
         WeatherDict.wind_speed WeatherDict.solar_radiation get].
    rewrite IH. unfold with_weather_data, append_weather.
    cbn [FarmAnalysis.id FarmAnalysis.analysis_date FarmAnalysis.bounds
         FarmAnalysis.weather_data FarmAnalysis.satellite_data
         FarmAnalysis.lai_data FarmAnalysis.data_quality_score].
    rewrite <- app_assoc. now destruct w.
Qed.

(** X28.  [add_weather_data] reads back what [WeatherData.to_dict] wrote:
    the records are appended in their order and nothing else of the
    analysis changes.  A dict that lacks 'date', 'temperature', 'humidity'
    or 'rainfall' raises KeyError, and the records of the dicts before it
    stay appended. *)
Theorem add_weather_data_reads_back_to_dict (self : FarmAnalysis.t)
    (records : list WeatherData.t) :
  add_weather_data self (map WeatherData_to_dict records)
  = (Ok tt,
     with_weather_data self (FarmAnalysis.weather_data self ++ records))
  /\ forall (weather_dict : WeatherDict.t) (rest : list WeatherDict.t),
       lacks_required_key weather_dict ->
       add_weather_data self
         (map WeatherData_to_dict records ++ weather_dict :: rest)
       = (Raise KeyError,
          with_weather_data self (FarmAnalysis.weather_data self ++ records)).
Proof.
  split.
  - rewrite <- (app_nil_r (map WeatherData_to_dict records)).
    now rewrite add_weather_data_app.
  - intros weather_dict rest Hlacks. rewrite add_weather_data_app.
    cbn [add_weather_data].
    destruct Hlacks as [E|[E|[E|E]]]; rewrite E;
      repeat match goal with
             | |- context [match ?o with Some _ => _ | None => _ end] =>
                 destruct o
             end; reflexivity.
Qed.

Lemma skipn_nth_error_cons {A : Type} (l : list A) (i : nat) (x : A) :
  nth_error l i = Some x -> skipn i l = x :: skipn (S i) l.
Proof.
  revert i. induction l as [|y l IH]; intros [|i] H; try discriminate.
  - now injection H as ->.
  - cbn [nth_error] in H. change (skipn (S i) (y :: l)) with (skipn i l).
    now rewrite (IH i H).
Qed.

Lemma satellite_loop_spec (satellite_dict : SatelliteDict.t)
    (ndvi_values evi_values : list Q) (dates : list Z) :
  forall (i : nat) (self : FarmAnalysis.t),
  exists items : list SatelliteData.t,
    FarmAnalysis.satellite_data
      (satellite_loop satellite_dict ndvi_values evi_values i dates self)
    = FarmAnalysis.satellite_data self ++ items
    /\ FarmAnalysis.weather_data
         (satellite_loop satellite_dict ndvi_values evi_values i dates self)
       = FarmAnalysis.weather_data self
    /\ FarmAnalysis.lai_data
         (satellite_loop satellite_dict ndvi_values evi_values i dates self)
       = FarmAnalysis.lai_data self
    /\ map SatelliteData.date items
       = firstn (length ndvi_values - i) dates
    /\ map SatelliteData.ndvi items
       = firstn (length dates) (skipn i ndvi_values)
    /\ forall (j : nat) (s : SatelliteData.t),
         nth_error items j = Some s ->
         SatelliteData.evi s
         = match nth_error evi_values (i + j) with
           | Some evi => evi
           | None => SatelliteData.ndvi s * 0.7
           end
         /\ SatelliteData.cloud_cover s = None.
Proof.
  induction dates as [|date rest IH]; intros i self.
  - exists []. cbn [satellite_loop length firstn map].
    rewrite app_nil_r, firstn_nil. do 5 (split; [reflexivity|]).
    intros [|j] s H; discriminate H.
  - cbn [satellite_loop]. destruct (nth_error ndvi_values i) as [ndvi|] eqn:E.
    + match goal with
      | |- context [satellite_loop _ _ _ _ _ (append_satellite self ?x)] =>
          set (item := x)
      end.
      destruct (IH (S i) (append_satellite self item))
        as (items & Hs & Hw & Hl & Hd & Hn & He).
      exists (item :: items). rewrite Hs, Hw, Hl.
      assert (Hi : (i < length ndvi_values)%nat)
        by (apply nth_error_Some; congruence).
      split.
      { cbn [append_satellite FarmAnalysis.satellite_data].
        now rewrite <- app_assoc. }
      split; [reflexivity|]. split; [reflexivity|]. split.
      { cbn [map]. rewrite Hd.
        replace (length ndvi_values - i)%nat
          with (S (length ndvi_values - S i)) by lia.
        reflexivity. }
      split.
      { cbn [map length]. rewrite Hn, (skipn_nth_error_cons _ _ _ E).
        reflexivity. }
      intros [|j] s H.
      * injection H as <-. rewrite Nat.add_0_r. now split.
      * cbn [nth_error] in H. replace (i + S j)%nat with (S i + j)%nat by lia.
        now apply He.
    + destruct (IH (S i) self) as (items & Hs & Hw & Hl & Hd & Hn & He).
      assert (Hi : (length ndvi_values <= i)%nat)
        by now apply nth_error_None.
      replace (length ndvi_values - S i)%nat with 0%nat in Hd by lia.
      cbn [firstn] in Hd. apply map_eq_nil in Hd. subst items.
      exists []. rewrite Hs, Hw, Hl.
      replace (length ndvi_values - i)%nat with 0%nat by lia.
      rewrite skipn_all2 by exact Hi. rewrite firstn_nil.
      do 5 (split; [reflexivity|]).
      intros [|j] s H; discriminate H.
Qed.

(** X29.  [add_satellite_data] pairs the dates with the NDVI values and
    stops at the shorter list: the records are appended after those
    already there, in order; a record takes its EVI from the EVI list, or
    0.7 times its NDVI where that list is too short, and carries no cloud
    cover.  Absent lists count as empty, so nothing raises. *)
Theorem satellite_records_pair_dates_with_ndvi (self : FarmAnalysis.t)
    (satellite_dict : SatelliteDict.t) :
  let dates := get (SatelliteDict.dates satellite_dict) [] in
  let ndvi_values := get (SatelliteDict.ndvi satellite_dict) [] in
  let evi_values := get (SatelliteDict.evi satellite_dict) [] in
  let added := added_satellite_data self satellite_dict in
  FarmAnalysis.satellite_data (add_satellite_data self satellite_dict)
  = FarmAnalysis.satellite_data self ++ added
  /\ map SatelliteData.date added = firstn (length ndvi_values) dates
  /\ map SatelliteData.ndvi added = firstn (length dates) ndvi_values
  /\ length added = Nat.min (length dates) (length ndvi_values)
  /\ forall (i : nat) (s : SatelliteData.t),
       nth_error added i = Some s ->
       SatelliteData.evi s
       = match nth_error evi_values i with
         | Some evi => evi
         | None => SatelliteData.ndvi s * 0.7
         end
       /\ SatelliteData.cloud_cover s = None.
Proof.
  cbv zeta. unfold added_satellite_data, add_satellite_data. cbv zeta.
  destruct (satellite_loop_spec satellite_dict
              (get (SatelliteDict.ndvi satellite_dict) [])
              (get (SatelliteDict.evi satellite_dict) [])
              (get (SatelliteDict.dates satellite_dict) []) 0 self)
    as (items & Hs & _ & _ & Hd & Hn & He).
  rewrite Hs, skipn_app, Nat.sub_diag, skipn_all, skipn_O.
  cbn [app]. rewrite Nat.sub_0_r in Hd. rewrite skipn_O in Hn.
  split; [reflexivity|]. split; [exact Hd|]. split; [exact Hn|]. split.
  - rewrite <- (length_map SatelliteData.date), Hd, length_firstn. lia.
  - exact He.
Qed.

Lemma percentage_product (x y : Q) :
  is_percentage x -> 0 <= y -> y <= 1 -> is_percentage (x * y).
Proof.
  unfold is_percentage. intros [H0 H1] Hy0 Hy1.
  assert (0 <= x * y) by now apply Qmult_le_0_compat.
  assert (0 <= x * (1 - y)) by (apply Qmult_le_0_compat; lra).
  split; lra.
Qed.

Lemma count_score_percentage (n : nat) (rate : Q) :
  0 <= rate -> is_percentage (py_min 100 (Qnat n * rate)).
Proof.
  intros Hrate. split; [|apply py_min_le_l].
  pose proof (Qnat_nonneg n).
  assert (0 <= Qnat n * rate) by now apply Qmult_le_0_compat.
  destruct (py_min_cases 100 (Qnat n * rate)) as [[_ ->]|[_ ->]]; lra.
Qed.

Lemma mean_fraction (l : list Q) :
  l <> [] -> Forall is_percentage l ->
  0 <= Qsum l / Qnat (length l) / 100
  /\ Qsum l / Qnat (length l) / 100 <= 1.
Proof.
  intros Hne Hall.
  destruct (np_mean_bounds 0 100 l Hne Hall) as [H0 H1].
  change (np_mean l) with (Qsum l / Qnat (length l)) in H0, H1.
  set (m := Qsum l / Qnat (length l)) in *.
  assert (E : m / 100 == m * (1 # 100)).
  { unfold Qdiv. setoid_replace (/ 100) with (1 # 100) by reflexivity.
    reflexivity. }
  rewrite E. split; lra.
Qed.

(** X30.  When the cloud covers of the satellite records and the
    confidences of the LAI records are percentages, the data quality score
    is a percentage too; it is stored in the analysis as well as returned,
    and it is 0 for an analysis without any data. *)
Theorem data_quality_score_is_a_percentage (self : FarmAnalysis.t) :
  Forall (fun s => is_percentage (get (SatelliteData.cloud_cover s) 0))
         (FarmAnalysis.satellite_data self) ->
  Forall (fun l => is_percentage (LAIData.confidence l))
         (FarmAnalysis.lai_data self) ->
  is_percentage (fst (calculate_data_quality_score self))
  /\ FarmAnalysis.data_quality_score (snd (calculate_data_quality_score self))
     = Some (fst (calculate_data_quality_score self))
  /\ (FarmAnalysis.weather_data self = [] ->
      FarmAnalysis.satellite_data self = [] ->
      FarmAnalysis.lai_data self = [] ->
      fst (calculate_data_quality_score self) = 0).
Proof.
  intros Hcloud Hconf.
  split; [|split; [reflexivity|]].
  - unfold calculate_data_quality_score. cbv zeta. cbn [fst].
    match goal with
    | |- is_percentage (match ?ws ++ ?ss ++ ?ls with _ => _ end) =>
        set (weather_scores := ws); set (satellite_scores := ss);
        set (lai_scores := ls)
    end.
    assert (Hw : Forall is_percentage weather_scores).
    { subst weather_scores.
      destruct (FarmAnalysis.weather_data self); constructor; [|constructor].
      apply count_score_percentage. discriminate. }
    assert (Hs : Forall is_percentage satellite_scores).
    { subst satellite_scores.
      destruct (FarmAnalysis.satellite_data self) as [|s l] eqn:E;
        constructor; [|constructor].
      rewrite <- (length_map (fun s => get (SatelliteData.cloud_cover s) 0)).
      apply Forall_map in Hcloud.
      assert (Hne : map (fun s => get (SatelliteData.cloud_cover s) 0)
                      (s :: l) <> []) by (cbn [map]; discriminate).
      destruct (mean_fraction _ Hne Hcloud) as [H0 H1].
      apply percentage_product;
        [apply count_score_percentage; discriminate|lra|lra]. }
    assert (Hl : Forall is_percentage lai_scores).
    { subst lai_scores.
      destruct (FarmAnalysis.lai_data self) as [|s l] eqn:E;
        constructor; [|constructor].
      rewrite <- (length_map LAIData.confidence) at 2.
      apply Forall_map in Hconf.
      assert (Hne : map LAIData.confidence (s :: l) <> [])
        by (cbn [map]; discriminate).
      destruct (mean_fraction _ Hne Hconf) as [H0 H1].
      unfold Qdiv at 1 in H0. unfold Qdiv at 1 in H1.
      apply percentage_product;
        [apply count_score_percentage; discriminate| |]; assumption. }
    assert (Hall : Forall is_percentage
                     (weather_scores ++ satellite_scores ++ lai_scores))
      by (repeat (apply Forall_app; split); assumption).
    destruct (weather_scores ++ satellite_scores ++ lai_scores)
      as [|x scores] eqn:E.
    + split; [apply Qle_refl|discriminate].
    + exact (np_mean_bounds 0 100 (x :: scores) ltac:(discriminate) Hall).
  - intros Ew Es El. unfold calculate_data_quality_score. cbv zeta.
    rewrite Ew, Es, El. reflexivity.
Qed.

(** ** The simulator returns *)

Hypothesis math_exp_nonneg : forall x : Q, 0 <= math_exp x.
Hypothesis math_sin_range : forall x : Q, -1 <= math_sin x /\ math_sin x <= 1.

Lemma pydiv_ret (x y : Q) : ~ y == 0 -> pydiv x y = ret (x / y).
Proof.
  intros H. unfold pydiv. destruct (Qeq_bool y 0) eqn:E; [|reflexivity].
  apply Qeq_bool_iff in E. contradiction.
Qed.

Lemma pm_total (t h s : Q) (w : World) :
  -237.3 < t ->
  exists e, _calculate_reference_et_penman_monteith t h s w = (Ok e, w).
Proof.
  intros Ht. unfold _calculate_reference_et_penman_monteith.
  assert (Hsq : 0 < (t + 237.3) ^ 2).
  { change ((t + 237.3) ^ 2) with ((t + 237.3) * (t + 237.3)). nra. }
  rewrite (pydiv_ret (17.27 * t) (t + 237.3)) by lra.
  unfold bind at 1, ret at 1.
  set (exponent := 17.27 * t / (t + 237.3)).
  rewrite (pydiv_ret _ ((t + 237.3) ^ 2)) by lra.
  unfold bind at 1, ret at 1. cbv zeta.
  set (delta := 4098 * (0.6108 * math_exp exponent) / (t + 237.3) ^ 2).
  assert (Hdelta : 0 <= delta).
  { apply Qle_shift_div_l; [exact Hsq|].
    pose proof (math_exp_nonneg exponent). nra. }
  rewrite (pydiv_ret _ (t + 273)) by lra.
  unfold bind at 1, ret at 1.
  rewrite pydiv_ret by lra.
  unfold bind, ret. eexists. reflexivity.
Qed.

Lemma hourly_weather_total wf hour w :
  wf <> [] ->
  exists weather, hourly_weather wf hour w = (Ok weather, w) /\ In weather wf.
Proof.
  intros Hwf.
  assert (H : exists weather, hourly_weather wf hour w = (Ok weather, w)).
  { unfold hourly_weather. destruct (_ <? _)%nat eqn:E.
    - apply Nat.ltb_lt, nth_error_Some in E.
      destruct (nth_error wf (hour / 24)); [|contradiction].
      eexists. reflexivity.
    - destruct wf; [contradiction|]. eexists. reflexivity. }
  destruct H as [weather H]. exists weather. split; [exact H|].
  eapply hourly_weather_In, H.
Qed.

Lemma hour_body_total ic wf vp crop_type soil_type hour cur w lai :
  wf <> [] ->
  Forall (fun day => -232 < WeatherData.temperature day) wf ->
  Veg.lai vp = Some lai ->
  exists step,
    hour_body ic wf vp crop_type soil_type hour cur w = (Ok step, tick w).
Proof.
  intros Hwf Htemp Hlai.
  destruct (hourly_weather_total wf hour w Hwf) as (weather & Hw & Hin).
  rewrite Forall_forall in Htemp. specialize (Htemp _ Hin).
  unfold hour_body, bind. rewrite Hw.
  unfold _calculate_hourly_et0, bind.
  match goal with
  | |- context [_calculate_reference_et_penman_monteith ?t ?h ?s w] =>
      destruct (pm_total t h s w) as [e He]
  end.
  { pose proof (math_sin_range
                  (2 * math_pi * Qnat (hour mod 24) / 24)) as [Hlo _].
    lra. }
  rewrite He. unfold ret at 1. rewrite Hlai. unfold ret at 1.
  rewrite datetime_now_run. eexists. reflexivity.
Qed.

Lemma hydro_loop_total bd hours :
  (forall hour cur w, exists step, bd hour cur w = (Ok step, tick w)) ->
  forall cur acc w,
    exists res w', hydro_loop bd hours cur acc w = (Ok res, w').
Proof.
  intros Hbd. induction hours as [|hour rest IH]; intros cur acc w.
  - exists acc, w. reflexivity.
  - destruct (Hbd hour cur w) as [step Hstep].
    cbn [hydro_loop]. unfold bind. rewrite Hstep. apply IH.
Qed.

(** On a non-empty forecast of physical temperatures the simulator
    returns its series. *)
Lemma run_total ic wf vp crop_type soil_type w lai :
  wf <> [] ->
  Forall (fun day => -232 < WeatherData.temperature day) wf ->
  Veg.lai vp = Some lai ->
  exists series w',
    _run_hydrological_model_fest_ewb ic wf vp crop_type soil_type w
      = (Ok series, w').
Proof.
  intros Hwf Htemp Hlai. apply hydro_loop_total.
  intros hour cur w0. eapply hour_body_total; eassumption.
Qed.


(** ** Starting at the wilting point without rain *)

Lemma hour_body_at_wilting_point ic wf vp crop_type soil_type hour cur w
    step w' :
  Forall (fun day => WeatherData.rainfall day == 0) wf ->
  cur == Soil.wilting_point (get (soil_types soil_type) soil_loamy) ->
  hour_body ic wf vp crop_type soil_type hour cur w = (Ok step, w') ->
  Step.new_moisture step
  = Soil.wilting_point (get (soil_types soil_type) soil_loamy).
Proof.
  intros Hdry Hcur H.
  assert (Hle : Step.new_moisture step <= cur).
  { eapply hour_body_dry; [exact Hdry|exact H|]. rewrite Hcur. apply Qle_refl. }
  destruct (hour_body_ok _ _ _ _ _ _ _ _ _ _ H)
    as (_ & _ & _ & _ & _ & _ & _ & _ & _ & Hnew & _).
  rewrite Hnew in Hle |- *.
  match goal with
  | |- py_max ?a ?b = _ =>
      destruct (py_max_cases a b) as [[Hlt E]|[_ E]]; rewrite E in *
  end; [lra|reflexivity].
Qed.

Lemma trigger_critical_above_wilting_point crop_type soil_type vp :
  Qltb (py_round (Soil.wilting_point (get (soil_types soil_type) soil_loamy)) 4)
       (Trigger.critical
          (Threshold.trigger_points
             (_calculate_stress_threshold_fao56 crop_type soil_type vp)))
  = true.
Proof.
  unfold _calculate_stress_threshold_fao56. cbn.
  destruct (soil_cases soil_type) as [E|[E|E]]; cbv zeta in E; rewrite E;
    reflexivity.
Qed.

Lemma stress_body_critical tp i forecast acc :
  Qltb (SoilMoistureData.soil_moisture forecast) (Trigger.critical tp) = true ->
  let acc' := stress_body tp i forecast acc in
  exists event,
    StressEvent.stress_level event = "critical"
    /\ Acc.stress_events acc' = Acc.stress_events acc ++ [event]
    /\ Acc.critical_periods acc' = Acc.critical_periods acc ++ [i].
Proof.
  intros H. unfold stress_body. rewrite H. cbn.
  eexists. split; [|split; reflexivity]. reflexivity.
Qed.

Lemma stress_loop_critical tp l :
  Forall (fun s => Qltb (SoilMoistureData.soil_moisture s)
                        (Trigger.critical tp) = true) l ->
  forall i acc,
    Forall (fun e => StressEvent.stress_level e = "critical")
           (Acc.stress_events acc) ->
    let acc' := stress_loop tp i l acc in
    Forall (fun e => StressEvent.stress_level e = "critical")
           (Acc.stress_events acc')
    /\ length (Acc.stress_events acc')
       = (length (Acc.stress_events acc) + length l)%nat
    /\ length (Acc.critical_periods acc')
       = (length (Acc.critical_periods acc) + length l)%nat.
Proof.
  induction 1 as [|s l Hs Hl IH]; intros i acc Hacc.
  - cbn. repeat split; [assumption|lia|lia].
  - cbn [stress_loop].
    destruct (stress_body_critical tp i s acc Hs) as (event & Hev & He & Hp).
    destruct (IH (S i) (stress_body tp i s acc)) as (H1 & H2 & H3).
    + rewrite He. apply Forall_app. split; [exact Hacc|].
      now repeat constructor.
    + split; [exact H1|]. rewrite H2, H3, He, Hp, !length_app. cbn. lia.
Qed.

(** C8.  From the wilting point and without rain the simulated moisture
    stays at the wilting point for the 72 hours, every hour is a stress event
    of level critical, and the irrigation urgency is critical.  (The
    evapotranspiration need not be assumed nonzero: it is never negative.) *)
Theorem C8_wilting_point_stays_critical ic wf vp lai crop_type soil_type w :
  IC.soil_water_content ic
    == Soil.wilting_point (get (soil_types soil_type) soil_loamy) ->
  wf <> [] ->
  Forall (fun day => WeatherData.rainfall day == 0) wf ->
  Forall (fun day => -232 < WeatherData.temperature day) wf ->
  Veg.lai vp = Some lai ->
  exists series w' stress w'',
    _run_hydrological_model_fest_ewb ic wf vp crop_type soil_type w
      = (Ok series, w')
    /\ length series = 72%nat
    /\ Forall (fun s => SoilMoistureData.soil_moisture s
                        == Soil.wilting_point
                             (get (soil_types soil_type) soil_loamy)) series
    /\ _analyze_stress_conditions_pregi series
         (_calculate_stress_threshold_fao56 crop_type soil_type vp) w'
       = (Ok stress, w'')
    /\ length (Stress.stress_events stress) = 72%nat
    /\ Forall (fun e => StressEvent.stress_level e = "critical")
              (Stress.stress_events stress)
    /\ Stress.irrigation_urgency stress = "critical".
Proof.
  intros Hinit Hwf Hdry Htemp Hlai.
  destruct (run_total ic wf vp crop_type soil_type w lai Hwf Htemp Hlai)
    as (series & w' & Hrun).
  set (wp := Soil.wilting_point (get (soil_types soil_type) soil_loamy)) in *.
  assert (Hlen : length series = 72%nat).
  { unfold _run_hydrological_model_fest_ewb in Hrun.
    apply hydro_loop_length in Hrun. exact Hrun. }
  assert (Hall : Forall (fun s => SoilMoistureData.soil_moisture s
                                  = py_round wp 4) series).
  { unfold _run_hydrological_model_fest_ewb in Hrun.
    eapply (hydro_loop_invariant (fun cur => cur == wp));
      [| | |exact Hrun]; [|exact Hinit|constructor].
    intros hour cur w0 step w0' _ Hcur Hstep.
    pose proof (hour_body_at_wilting_point _ _ _ _ _ _ _ _ _ _
                  Hdry Hcur Hstep) as Hnew.
    destruct (hour_body_ok _ _ _ _ _ _ _ _ _ _ Hstep)
      as (_ & _ & _ & _ & _ & _ & _ & _ & _ & _ & ->).
    fold wp in Hnew. rewrite Hnew. split; [reflexivity|]. reflexivity. }
  set (thr := _calculate_stress_threshold_fao56 crop_type soil_type vp).
  assert (Hcrit : Forall (fun s => Qltb (SoilMoistureData.soil_moisture s)
                     (Trigger.critical (Threshold.trigger_points thr)) = true)
                     series).
  { eapply Forall_impl; [|exact Hall]. intros s ->.
    apply trigger_critical_above_wilting_point. }
  destruct (stress_loop_critical _ _ Hcrit 0%nat (Acc.mk [] 0 None 0 []))
    as (Hlev & Hne & Hnp); [constructor|].
  cbn [Acc.stress_events Acc.critical_periods length Nat.add] in Hne, Hnp.
  rewrite Hlen in Hne, Hnp.
  assert (Hstress : exists stress,
            _analyze_stress_conditions_pregi series thr w' = (Ok stress, w')
            /\ length (Stress.stress_events stress) = 72%nat
            /\ Forall (fun e => StressEvent.stress_level e = "critical")
                      (Stress.stress_events stress)
            /\ Stress.irrigation_urgency stress = "critical").
  { unfold _analyze_stress_conditions_pregi.
    rewrite Hlen. rewrite pydiv_ret by (intros H; discriminate H).
    unfold bind, ret. eexists. split; [reflexivity|].
    cbn [Stress.stress_events Stress.irrigation_urgency].
    split; [exact Hne|]. split; [exact Hlev|].
    unfold _determine_irrigation_urgency. rewrite Hnp. reflexivity. }
  destruct Hstress as (stress & Hs1 & Hs2 & Hs3 & Hs4).
  exists series, w', stress, w'.
  split; [exact Hrun|]. split; [exact Hlen|]. split; [|tauto].
  eapply Forall_impl; [|exact Hall]. intros s ->.
  destruct (soil_facts soil_type) as (_ & _ & _ & _ & _ & [n Hn]).
  fold wp in Hn. apply Qle_antisym.
  - eapply py_round_le; [exact Hn|apply Qle_refl].
  - eapply py_round_ge; [exact Hn|apply Qle_refl].
Qed.

End Service.

(** ** The stand-ins keep the assumed bounds *)

Lemma exp_q_nonneg (x : Q) : 0 <= exp_q x.
Proof. unfold exp_q. rewrite Qred_correct. nra. Qed.

Lemma sin_q_range (x : Q) : -1 <= sin_q x /\ sin_q x <= 1.
Proof. unfold sin_q. apply clamp_bounds. discriminate. Qed.

(** ** The claims at concrete inputs *)

(** C1 at the wilting point of a loamy soil under three dry days. *)
Lemma C1_witness :
  exists series w',
    _run_hydrological_model_fest_ewb sin_q exp_q pi_q ic_wilting dry_forecast
      veg_mid "asparagus" "loamy" world_a = (Ok series, w')
    /\ length series = 72%nat /\ Forall in_bounds series.
Proof.
  destruct (_run_hydrological_model_fest_ewb sin_q exp_q pi_q ic_wilting
              dry_forecast veg_mid "asparagus" "loamy" world_a)
    as [[series|e] w'] eqn:E.
  - exists series, w'. split; [reflexivity|].
    exact (C1_moisture_within_bounds sin_q exp_q pi_q _ _ _ _ _ _ _ _ E).
  - apply (f_equal fst) in E. vm_compute in E. discriminate E.
Defined.

(** C3 for two runs that differ in the clock, the entropy and the entries
    of their arguments that the water balance does not read. *)
Lemma C3_witness :
  moisture_series
    (fst (_run_hydrological_model_fest_ewb sin_q exp_q pi_q ic_wilting
            dry_forecast veg_mid "asparagus" "loamy" world_a))
  = moisture_series
      (fst (_run_hydrological_model_fest_ewb sin_q exp_q pi_q
              ic_wilting_other dry_forecast veg_mid_other "asparagus" "loamy"
              world_c))
  /\ draws (snd (_run_hydrological_model_fest_ewb sin_q exp_q pi_q ic_wilting
                   dry_forecast veg_mid "asparagus" "loamy" world_a))
     = draws world_a
  /\ draw_pos (snd (_run_hydrological_model_fest_ewb sin_q exp_q pi_q
                      ic_wilting dry_forecast veg_mid "asparagus" "loamy"
                      world_a))
     = draw_pos world_a.
Proof.
  apply (C3_simulation_is_deterministic sin_q exp_q pi_q ic_wilting
           ic_wilting_other dry_forecast veg_mid veg_mid_other "asparagus"
           "loamy" world_a world_c); reflexivity.
Defined.

(** C4 (as amended) for two worlds with the same draws and different
    clocks. *)
Lemma C4_witness :
  same_rng world_a world_c
  /\ exists response1 w1' response2 w2',
       analyze_smart_irrigation sin_q exp_q pi_q lai_records rainy_history
         satellite bounds "tomato" "sandy" "drip" world_a
       = (Ok response1, w1')
       /\ analyze_smart_irrigation sin_q exp_q pi_q lai_records rainy_history
            satellite bounds "tomato" "sandy" "drip" world_c
          = (Ok response2, w2')
       /\ timeless_response response1 = timeless_response response2
       /\ same_rng w1' w2'.
Proof.
  assert (H : same_rng world_a world_c) by (split; reflexivity).
  split; [exact H|].
  exact (C4_same_random_state_same_outputs sin_q exp_q pi_q lai_records
           rainy_history satellite bounds "tomato" "sandy" "drip"
           world_a world_c H).
Defined.

(** C4 as stated fails: with identical arguments, and even the same clock
    and entropy, two invocations return different responses when the
    process-wide random state differs; no argument carries a seed. *)
Lemma C4_counterexample :
  clock world_a = clock world_b
  /\ entropy world_a = entropy world_b
  /\ fst (analyze_smart_irrigation sin_q exp_q pi_q lai_records rainy_history
            satellite bounds "tomato" "sandy" "drip" world_a)
     <> fst (analyze_smart_irrigation sin_q exp_q pi_q lai_records
               rainy_history satellite bounds "tomato" "sandy" "drip"
               world_b).
Proof.
  split; [reflexivity|]. split; [reflexivity|]. intros H.
  apply (f_equal
           (fun r =>
              match r with
              | Ok response =>
                  option_map (map WeatherData.temperature)
                             (Response.weather_forecast response)
              | Raise _ => None
              end)) in H.
  vm_compute in H. discriminate H.
Qed.

(** C5 (as amended) on thirty days of steady warming. *)
Lemma C5_witness :
  warming_history <> []
  /\ exists forecast w',
       _generate_meteorological_forecast warming_history world_a
       = (Ok forecast, w')
       /\ _analyze_seasonal_patterns warming_history
          = Trends.mk ((29 - 0) / 30) ((50 - 50) / 30)
       /\ length forecast = 3%nat.
Proof.
  assert (Hne : warming_history <> []) by discriminate.
  split; [exact Hne|].
  destruct (_generate_meteorological_forecast warming_history world_a)
    as [[forecast|e] w'] eqn:E.
  - exists forecast, w'. split; [reflexivity|].
    pose proof (C5_trend_is_end_to_end_difference warming_history world_a
                  forecast w' Hne E) as H.
    cbv zeta in H. destruct H as (Htrend & Hlen & _).
    split; [exact Htrend|exact Hlen].
  - apply (f_equal fst) in E. vm_compute in E. discriminate E.
Defined.

(** C5 as stated fails: on thirty days that warm by exactly one degree a
    day the regression slope is 1 and the trend of the code is 29/30. *)
Lemma C5_counterexample :
  ~ (Trends.temperature_trend (_analyze_seasonal_patterns warming_history)
     == spec_linear_regression_slope
          (map (fun d => get (Obs.temperature d) 20)
               (last_n 30 warming_history))).
Proof. vm_compute. discriminate. Qed.

(** C6 for a forecast that stays at field capacity. *)
Lemma C6_witness :
  exists stress w1 recommendation,
    _analyze_stress_conditions_pregi [wet_state]
      (_calculate_stress_threshold_fao56 "asparagus" "loamy" veg_mid) world_a
    = (Ok stress, w1)
    /\ Stress.stress_events stress = []
    /\ _generate_irrigation_schedule stress ic_wilting dry_forecast
         "asparagus" "loamy" "drip" world_a = (Ok recommendation, world_a)
    /\ IrrigationRecommendation.needs_irrigation recommendation = false
    /\ IrrigationRecommendation.confidence recommendation == 90.
Proof.
  destruct (_analyze_stress_conditions_pregi [wet_state]
              (_calculate_stress_threshold_fao56 "asparagus" "loamy" veg_mid)
              world_a) as [[stress|e] w1] eqn:E.
  - assert (Hnone : Stress.stress_events stress = []).
    { apply (f_equal
               (fun r =>
                  match fst r with
                  | Ok s => Stress.stress_events s
                  | Raise _ => []
                  end)) in E.
      vm_compute in E. symmetry. exact E. }
    destruct (C6_no_stress_recommendation [wet_state]
                (_calculate_stress_threshold_fao56 "asparagus" "loamy"
                   veg_mid)
                world_a stress w1 ic_wilting dry_forecast "asparagus" "loamy"
                "drip" world_a E Hnone)
      as (recommendation & Hrun & _ & Hneeds & Hconf & _).
    exists stress, w1, recommendation. repeat split; assumption.
  - apply (f_equal fst) in E. vm_compute in E. discriminate E.
Defined.

(** C7 is not vacuous: an LAI record without the entry ['lai'] makes the
    first stage raise [KeyError], and the caller receives the fallback. *)
Example fallback_on_missing_lai :
  fst (analysis_body sin_q exp_q pi_q 0 [Lai.mk None] rainy_history satellite
         bounds "tomato" "sandy" "drip" world_a) = Raise KeyError
  /\ option_map Response.error
       (match fst (analyze_smart_irrigation sin_q exp_q pi_q [Lai.mk None]
                     rainy_history satellite bounds "tomato" "sandy" "drip"
                     world_a) with
        | Ok response => Some response
        | Raise _ => None
        end)
     = Some (Some "Analysis failed - insufficient data or system error").
Proof. split; vm_compute; reflexivity. Qed.

(** C8 at the wilting point of a loamy soil under three dry days. *)
Lemma C8_witness :
  exists series w' stress w'',
    _run_hydrological_model_fest_ewb sin_q exp_q pi_q ic_wilting dry_forecast
      veg_mid "asparagus" "loamy" world_a = (Ok series, w')
    /\ length series = 72%nat
    /\ Forall (fun s => SoilMoistureData.soil_moisture s
                        == Soil.wilting_point
                             (get (soil_types "loamy") soil_loamy)) series
    /\ _analyze_stress_conditions_pregi series
         (_calculate_stress_threshold_fao56 "asparagus" "loamy" veg_mid) w'
       = (Ok stress, w'')
    /\ length (Stress.stress_events stress) = 72%nat
    /\ Forall (fun e => StressEvent.stress_level e = "critical")
              (Stress.stress_events stress)
    /\ Stress.irrigation_urgency stress = "critical".
Proof.
  apply (C8_wilting_point_stays_critical sin_q exp_q pi_q exp_q_nonneg
           sin_q_range ic_wilting dry_forecast veg_mid 2.5 "asparagus"
           "loamy" world_a).
  - reflexivity.
  - discriminate.
  - repeat constructor.
  - repeat constructor.
  - reflexivity.
Defined.

(** C9 for the initial conditions computed from a rainy fortnight. *)
Lemma C9_witness :
  exists ic w1,
    _get_initial_conditions_fest_ewb exp_q lai_records rainy_history satellite
      "tomato" "sandy" world_a = (Ok ic, w1)
    /\ _run_hydrological_model_fest_ewb sin_q exp_q pi_q ic dry_forecast
         veg_mid "tomato" "sandy" world_a
       = run_without_percolation sin_q exp_q pi_q ic dry_forecast veg_mid
           "tomato" "sandy" world_a.
Proof.
  destruct (_get_initial_conditions_fest_ewb exp_q lai_records rainy_history
              satellite "tomato" "sandy" world_a) as [[ic|e] w1] eqn:E.
  - exists ic, w1. split; [reflexivity|].
    exact (proj1 (C9_percolation_term_is_zero sin_q exp_q pi_q lai_records
                    rainy_history satellite "tomato" "sandy" world_a ic w1 E
                    dry_forecast veg_mid world_a)).
  - apply (f_equal fst) in E. vm_compute in E. discriminate E.
Defined.

(** C10 at the wilting point of a loamy soil under three dry days. *)
Lemma C10_witness :
  Forall (fun day => WeatherData.rainfall day == 0) dry_forecast
  /\ exists series w',
       _run_hydrological_model_fest_ewb sin_q exp_q pi_q ic_wilting
         dry_forecast veg_mid "asparagus" "loamy" world_a = (Ok series, w')
       /\ non_increasing (map SoilMoistureData.soil_moisture series).
Proof.
  assert (Hdry : Forall (fun day => WeatherData.rainfall day == 0)
                        dry_forecast) by (repeat constructor).
  split; [exact Hdry|].
  destruct (_run_hydrological_model_fest_ewb sin_q exp_q pi_q ic_wilting
              dry_forecast veg_mid "asparagus" "loamy" world_a)
    as [[series|e] w'] eqn:E.
  - exists series, w'. split; [reflexivity|].
    exact (C10_dry_forecast_non_increasing sin_q exp_q pi_q _ _ _ _ _ _ _ _
             Hdry E).
  - apply (f_equal fst) in E. vm_compute in E. discriminate E.
Defined.


(** ** The further properties at concrete inputs *)

(** X3 for the initial conditions computed from a rainy fortnight. *)
Lemma X3_witness :
  exists ic w1,
    _get_initial_conditions_fest_ewb exp_q lai_records rainy_history satellite
      "tomato" "sandy" world_a = (Ok ic, w1)
    /\ w1 = world_a
    /\ IC.wilting_point ic <= IC.soil_water_content ic
    /\ IC.soil_water_content ic <= IC.field_capacity ic.
Proof.
  destruct (_get_initial_conditions_fest_ewb exp_q lai_records rainy_history
              satellite "tomato" "sandy" world_a) as [[ic|e] w1] eqn:E.
  - exists ic, w1. split; [reflexivity|].
    pose proof (initial_conditions_are_consistent exp_q _ _ _ _ _ _ ic w1 E)
      as H.
    cbv zeta in H. destruct H as (Hw & _ & _ & Hlo & Hhi & _).
    split; [exact Hw|]. split; [exact Hlo|exact Hhi].
  - apply (f_equal fst) in E. vm_compute in E. discriminate E.
Defined.

(** X4 for the forecast generated from a rainy fortnight. *)
Lemma X4_witness :
  exists forecast w',
    _generate_meteorological_forecast rainy_history world_a
    = (Ok forecast, w')
    /\ length forecast = 3%nat /\ Forall within_forecast_ranges forecast.
Proof.
  destruct (_generate_meteorological_forecast rainy_history world_a)
    as [[forecast|e] w'] eqn:E.
  - exists forecast, w'. split; [reflexivity|].
    exact (forecast_values_in_range rainy_history world_a forecast w' E).
  - apply (f_equal fst) in E. vm_compute in E. discriminate E.
Defined.


(** X6 for a rainy fortnight, whose means are positive. *)
Lemma X6_witness :
  exists forecast w',
    _generate_meteorological_forecast rainy_history world_b
    = (Ok forecast, w')
    /\ length forecast = 3%nat.
Proof.
  apply (forecast_returns_on_nonnegative_means rainy_history world_b).
  right. repeat split; vm_compute; discriminate.
Defined.

(** X7 for a day with a negative rainfall reading. *)
Lemma X7_witness :
  exists w',
    _generate_meteorological_forecast negative_rain_history world_a
    = (Raise ValueError, w').
Proof.
  apply (forecast_raises_on_a_negative_mean negative_rain_history world_a).
  - discriminate.
  - left. vm_compute. reflexivity.
Defined.

(** X8 for a run from the wilting point under three dry days and a run from
    a moister soil under three showery days. *)
Lemma X8_witness :
  exists series1 w1 series2 w2,
    _run_hydrological_model_fest_ewb sin_q exp_q pi_q ic_wilting dry_forecast
      veg_mid "asparagus" "loamy" world_a = (Ok series1, w1)
    /\ _run_hydrological_model_fest_ewb sin_q exp_q pi_q ic_moist
         showery_forecast veg_mid "asparagus" "loamy" world_c
       = (Ok series2, w2)
    /\ Forall2 (fun s1 s2 => SoilMoistureData.soil_moisture s1
                             <= SoilMoistureData.soil_moisture s2)
               series1 series2.
Proof.
  destruct (run_total sin_q exp_q pi_q exp_q_nonneg sin_q_range ic_wilting
              dry_forecast veg_mid "asparagus" "loamy" world_a 2.5)
    as (series1 & w1 & E1);
    [discriminate|repeat constructor|reflexivity|].
  destruct (run_total sin_q exp_q pi_q exp_q_nonneg sin_q_range ic_moist
              showery_forecast veg_mid "asparagus" "loamy" world_c 2.5)
    as (series2 & w2 & E2);
    [discriminate|repeat constructor|reflexivity|].
  exists series1, w1, series2, w2.
  split; [exact E1|]. split; [exact E2|].
  apply (wetter_conditions_never_give_drier_soil sin_q exp_q pi_q ic_wilting
           ic_moist dry_forecast showery_forecast veg_mid "asparagus" "loamy"
           world_a world_c series1 w1 series2 w2);
    [discriminate| |exact E1|exact E2].
  repeat (apply Forall2_cons;
          [split; [reflexivity|];
           split; [reflexivity|];
           split; [reflexivity|discriminate]|]).
  apply Forall2_nil.
Defined.

(** X11 for a forecast of a state at field capacity and one at the wilting
    point. *)
Lemma X11_witness :
  exists stress w1,
    _analyze_stress_conditions_pregi [wet_state; dry_state]
      (_calculate_stress_threshold_fao56 "asparagus" "loamy" veg_mid) world_a
    = (Ok stress, w1)
    /\ Stress.critical_periods stress
       = map StressEvent.hour
             (filter is_critical_period (Stress.stress_events stress)).
Proof.
  destruct (_analyze_stress_conditions_pregi [wet_state; dry_state]
              (_calculate_stress_threshold_fao56 "asparagus" "loamy" veg_mid)
              world_a) as [[stress|e] w1] eqn:E.
  - exists stress, w1. split; [reflexivity|].
    pose proof (stress_events_are_the_stressed_states _ _ _ stress w1 E) as H.
    cbv zeta in H. exact (proj2 (proj2 H)).
  - apply (f_equal fst) in E. vm_compute in E. discriminate E.
Defined.

(** X12 for the same forecast on a sandy soil under tomatoes. *)
Lemma X12_witness :
  exists stress w1,
    _analyze_stress_conditions_pregi [wet_state; dry_state]
      (_calculate_stress_threshold_fao56 "tomato" "sandy" veg_mid) world_a
    = (Ok stress, w1)
    /\ (Stress.irrigation_triggered stress = true
        <-> Stress.stress_events stress <> []).
Proof.
  destruct (_analyze_stress_conditions_pregi [wet_state; dry_state]
              (_calculate_stress_threshold_fao56 "tomato" "sandy" veg_mid)
              world_a) as [[stress|e] w1] eqn:E.
  - exists stress, w1. split; [reflexivity|].
    pose proof (urgency_and_severity_agree _ _ _ stress w1 E) as H.
    cbv zeta in H. exact (proj1 H).
  - apply (f_equal fst) in E. vm_compute in E. discriminate E.
Defined.

(** X13 for a forecast that stays at the wilting point. *)
Lemma X13_witness :
  exists stress w1,
    _analyze_stress_conditions_pregi [dry_state; dry_state; dry_state]
      (_calculate_stress_threshold_fao56 "wheat" "clay" veg_mid) world_b
    = (Ok stress, w1)
    /\ 0 <= Stress.stress_percentage stress
    /\ Stress.stress_percentage stress <= 100.
Proof.
  destruct (_analyze_stress_conditions_pregi [dry_state; dry_state; dry_state]
              (_calculate_stress_threshold_fao56 "wheat" "clay" veg_mid)
              world_b) as [[stress|e] w1] eqn:E.
  - exists stress, w1. split; [reflexivity|].
    exact (proj2 (proj2 (stress_hours_count_low_events_half _ _ _ stress w1
                           E))).
  - apply (f_equal fst) in E. vm_compute in E. discriminate E.
Defined.

(** X14 for a forecast of a dry state followed by a wet one. *)
Lemma X14_witness :
  exists stress w1,
    _analyze_stress_conditions_pregi [dry_state; wet_state]
      (_calculate_stress_threshold_fao56 "asparagus" "loamy" veg_mid) world_a
    = (Ok stress, w1)
    /\ 0 <= Stress.max_deficit stress.
Proof.
  destruct (_analyze_stress_conditions_pregi [dry_state; wet_state]
              (_calculate_stress_threshold_fao56 "asparagus" "loamy" veg_mid)
              world_a) as [[stress|e] w1] eqn:E.
  - exists stress, w1. split; [reflexivity|].
    destruct (stress_analysis_reports_the_extremes _ _ _ stress w1 E)
      as (s & minimum & _ & _ & _ & _ & _ & H).
    exact H.
  - apply (f_equal fst) in E. vm_compute in E. discriminate E.
Defined.

(** X16 for a forecast that stays at field capacity. *)
Lemma X16_witness :
  exists stress w1,
    _analyze_stress_conditions_pregi [wet_state; wet_state]
      (_calculate_stress_threshold_fao56 "asparagus" "loamy" veg_mid) world_a
    = (Ok stress, w1)
    /\ (Stress.stress_events stress = []
        <-> Forall (fun s =>
                      Trigger.low
                        (Threshold.trigger_points
                           (_calculate_stress_threshold_fao56 "asparagus"
                              "loamy" veg_mid))
                      <= SoilMoistureData.soil_moisture s)
                   [wet_state; wet_state]).
Proof.
  destruct (_analyze_stress_conditions_pregi [wet_state; wet_state]
              (_calculate_stress_threshold_fao56 "asparagus" "loamy" veg_mid)
              world_a) as [[stress|e] w1] eqn:E.
  - exists stress, w1. split; [reflexivity|].
    pose proof (no_stress_above_the_low_trigger "asparagus" "loamy" veg_mid
                  _ _ stress w1 E) as H.
    exact (proj1 H).
  - apply (f_equal fst) in E. vm_compute in E. discriminate E.
Defined.

(** X17 for a moisture just above the wilting point and one near field
    capacity. *)
Lemma X17_witness :
  _calculate_urgency_score 0.30
    (Threshold.trigger_points
       (_calculate_stress_threshold_fao56 "asparagus" "loamy" veg_mid))
  <= _calculate_urgency_score 0.16
       (Threshold.trigger_points
          (_calculate_stress_threshold_fao56 "asparagus" "loamy" veg_mid)).
Proof.
  assert (H : 0.16 <= 0.30) by discriminate.
  exact (proj1 (drier_soil_never_scores_lower "asparagus" "loamy" veg_mid
                  0.16 0.30 H)).
Defined.

(** X18 for a plan of high urgency under a clock that runs forwards. *)
Lemma X18_witness :
  exists events w',
    _plan_irrigation_events stress_high requirements_20mm "sprinkler"
      dry_forecast world_a = (Ok events, w')
    /\ Forall (fun e => (clock world_a (clock_pos world_a) + us_per_hour
                         <= IrrigationEvent.datetime e)%Z) events.
Proof.
  destruct (_plan_irrigation_events stress_high requirements_20mm "sprinkler"
              dry_forecast world_a) as [[events|e] w'] eqn:E.
  - exists events, w'. split; [reflexivity|].
    assert (H : (clock world_a (clock_pos world_a)
                 <= clock world_a (S (clock_pos world_a)))%Z)
      by (vm_compute; discriminate).
    exact (proj1 (planned_events_lie_ahead _ _ _ _ world_a events w' H E)).
  - apply (f_equal fst) in E. vm_compute in E. discriminate E.
Defined.



(** X22 for bounds whose north lies south of their south. *)
Lemma X22_witness :
  exists response w',
    analyze_smart_irrigation sin_q exp_q pi_q lai_records rainy_history
      satellite bounds_upside_down "tomato" "sandy" "drip" world_a
    = (Ok response, w')
    /\ is_fallback response.
Proof.
  apply (invalid_bounds_give_the_fallback sin_q exp_q pi_q lai_records
           rainy_history satellite bounds_upside_down "tomato" "sandy" "drip"
           world_a).
  intros (_ & H & _). vm_compute in H. apply H. reflexivity.
Defined.

(** X26 for three NDVI values that rise and fall. *)
Lemma X26_witness : _calculate_ndvi_trend [0.2; 0.9; 0.5] = "stable".
Proof.
  apply (ndvi_trend_needs_four_values [0.2; 0.9; 0.5]). simpl. lia.
Defined.

(** X30 for an analysis with weather, satellite and LAI records. *)
Lemma X30_witness :
  is_percentage (fst (calculate_data_quality_score sample_analysis)).
Proof.
  apply (data_quality_score_is_a_percentage sample_analysis).
  - constructor; [|constructor]. split; vm_compute; discriminate.
  - constructor; [|constructor]. split; vm_compute; discriminate.
Defined.
